(** * ZMAIL-BOT: the WhatsApp e-mail assistant

    A shallow embedding of [Main.py], [Agentic_System.py], [db.py] and
    [email_agent.py].  The handler [whatsapp_webhook] is a Python
    function that talks to five outside services: the language model
    behind every [Agent.run], SQLite, the Twilio REST client, the HTTP
    server that hosts the attachments and the local file system.  The
    embedding threads a [World] (database tables, files, what has been
    sent so far) through a state-and-exception monad, and reads the
    outcome of every outside call from an [Env] of oracles, so each
    Python [try ... except Exception] block is a [try_except] here. *)

From Stdlib Require Import ZArith Ascii String List Bool Lia DecimalString.
From stdpp Require Import base tactics option list gmap strings.

Local Open Scope Z_scope.

(** ** Python strings *)

Module Py.

(** The double quote, which the prompts use inside their text. *)
Definition dq : string := String "034"%char "".

(** [s.startswith(p)] *)
Definition startswith (s p : string) : bool := String.prefix p s.

(** [needle in s] *)
Fixpoint contains (needle s : string) : bool :=
  String.prefix needle s ||
  match s with
  | String _ s' => contains needle s'
  | EmptyString => false
  end.

(** White space of [str.strip()] below U+0080: TAB..CR, FS..US and
    the blank.  The white space beyond ASCII (U+0085, U+00A0, ...) is
    left out: strings are byte strings here. *)
Definition is_space (c : ascii) : bool :=
  let n := nat_of_ascii c in
  ((9 <=? n)%nat && (n <=? 13)%nat) || ((28 <=? n)%nat && (n <=? 32)%nat).

Fixpoint lstrip (s : string) : string :=
  match s with
  | String c s' => if is_space c then lstrip s' else s
  | EmptyString => EmptyString
  end.

Definition rstrip (s : string) : string := String.rev (lstrip (String.rev s)).

(** [s.strip()] *)
Definition strip (s : string) : string := rstrip (lstrip s).

(** [s.lower()] on the ASCII letters. *)
Definition lower_ascii (c : ascii) : ascii :=
  let n := nat_of_ascii c in
  if ((65 <=? n)%nat && (n <=? 90)%nat) then ascii_of_nat (n + 32) else c.

Fixpoint lower (s : string) : string :=
  match s with
  | String c s' => String (lower_ascii c) (lower s')
  | EmptyString => EmptyString
  end.

(** [s.split(sep)] for a separator of one character. *)
Fixpoint split (sep : ascii) (s : string) : list string :=
  match s with
  | EmptyString => [EmptyString]
  | String c s' =>
      if Ascii.eqb c sep then EmptyString :: split sep s'
      else match split sep s' with
           | h :: t => String c h :: t
           | [] => [String c EmptyString]
           end
  end.

(** [s.split(sep)] for a separator [sep] of one character or more:
    [skip] counts the characters of a separator still to be passed. *)
Fixpoint split_str_go (sep : string) (skip : nat) (s : string) : list string :=
  match s with
  | EmptyString => [EmptyString]
  | String c s' =>
      match skip with
      | S k => split_str_go sep k s'
      | O =>
          if String.prefix sep s
          then EmptyString :: split_str_go sep (String.length sep - 1) s'
          else match split_str_go sep 0 s' with
               | h :: t => String c h :: t
               | [] => [String c EmptyString]
               end
      end
  end.

Definition split_str (sep s : string) : list string := split_str_go sep 0 s.

(** [s.replace(old, new)] for a non-empty [old]. *)
Fixpoint replace_go (old new : string) (skip : nat) (s : string) : string :=
  match s with
  | EmptyString => EmptyString
  | String c s' =>
      match skip with
      | S k => replace_go old new k s'
      | O =>
          if String.prefix old s
          then new +:+ replace_go old new (String.length old - 1) s'
          else String c (replace_go old new 0 s')
      end
  end.

Definition replace (old new s : string) : string := replace_go old new 0 s.

(** [sep.join(l)] *)
Fixpoint join (sep : string) (l : list string) : string :=
  match l with
  | [] => ""
  | [x] => x
  | x :: rest => x +:+ sep +:+ join sep rest
  end.

(** [s[:n]] and [s[n:]] *)
Fixpoint take (n : nat) (s : string) : string :=
  match n, s with
  | S k, String c s' => String c (take k s')
  | _, _ => EmptyString
  end.

Fixpoint drop (n : nat) (s : string) : string :=
  match n, s with
  | S k, String _ s' => drop k s'
  | _, _ => s
  end.

(** [str(n)] for an integer. *)
Definition str_of_nat (n : nat) : string := NilZero.string_of_uint (Nat.to_uint n).
Definition str_of_Z (z : Z) : string := NilZero.string_of_int (Z.to_int z).

(** [int(s)]: surrounding white space and a sign are accepted; [None]
    stands for the ValueError.  The digit grouping with underscores is
    not accepted here. *)
Definition int (s : string) : option Z :=
  match strip s with
  | String "+"%char r => Z.of_int <$> (Decimal.Pos <$> NilZero.uint_of_string r)
  | t => Z.of_int <$> NilZero.int_of_string t
  end.

(** [os.path.basename(p)] *)
Definition basename (p : string) : string := List.last (split "/"%char p) "".

(** [repr(s)] of a string: single quotes unless the string has a
    single quote and no double quote; backslash, the chosen quote and
    the control characters are escaped. *)
Definition hex_digit (n : nat) : ascii :=
  if (n <? 10)%nat then ascii_of_nat (48 + n) else ascii_of_nat (87 + n).

Fixpoint repr_chars (q : ascii) (s : string) : string :=
  match s with
  | EmptyString => EmptyString
  | String c s' =>
      let n := nat_of_ascii c in
      let rest := repr_chars q s' in
      if Ascii.eqb c "\"%char then "\\" +:+ rest
      else if Ascii.eqb c q then String "\"%char (String c rest)
      else if (n =? 10)%nat then "\n" +:+ rest
      else if (n =? 13)%nat then "\r" +:+ rest
      else if (n =? 9)%nat then "\t" +:+ rest
      else if ((n <? 32)%nat || (n =? 127)%nat)
           then "\x" +:+ String (hex_digit (n / 16)) (String (hex_digit (n mod 16)) rest)
      else String c rest
  end.

Definition repr_str (s : string) : string :=
  let q := if contains "'" s && negb (contains dq s) then "034"%char else "'"%char in
  String q (repr_chars q s) +:+ String q "".

(** [str(l)] of a list of strings. *)
Definition repr_list (l : list string) : string :=
  "[" +:+ join ", " (repr_str <$> l) +:+ "]".

End Py.

(** ** Values, rows and the three tables of [db.init_db] *)

(** What a column of a row, or a key of a result dict, holds. *)
Inductive Value :=
  | VNull
  | VInt (z : Z)
  | VStr (s : string).

(** Python truth of a value. *)
Definition truthy (v : Value) : bool :=
  match v with
  | VNull => false
  | VInt z => negb (z =? 0)
  | VStr s => negb (String.eqb s "")
  end.

Definition repr_value (v : Value) : string :=
  match v with
  | VNull => "None"
  | VInt z => Py.str_of_Z z
  | VStr s => Py.repr_str s
  end.

(** A row as [dict(row)] gives it: the columns in the order of the
    SELECT, which is the order [str(dict)] prints them in. *)
Definition Row := list (string * Value).

Fixpoint row_get (k : string) (r : Row) : option Value :=
  match r with
  | [] => None
  | (k', v) :: r' => if String.eqb k k' then Some v else row_get k r'
  end.

(** [str(d)] of a dict *)
Definition repr_row (r : Row) : string :=
  "{" +:+ Py.join ", " ((fun kv => Py.repr_str (fst kv) +:+ ": " +:+ repr_value (snd kv)) <$> r) +:+ "}".

Inductive ChatStatus := Active | Ended.

Record User := {
  u_id : Z; u_name : string; u_phone : string; u_email : string;
  u_is_member : Z; u_is_deleted : Z }.

Record Chat := { c_id : Z; c_user_id : Z; c_status : ChatStatus }.

Record Message := {
  m_id : Z; m_chat_id : Z; m_user_id : Z;
  m_user_message : string; m_bot_reply : string }.

(** The tables list their rows in the order of insertion, which stands
    for the order of [created_at]; [chat_seq] and [message_seq] are the
    AUTOINCREMENT counters. *)
Record Store := {
  users : list User;
  chats : list Chat;
  messages : list Message;
  chat_seq : Z;
  message_seq : Z }.

Definition status_eqb (a b : ChatStatus) : bool :=
  match a, b with
  | Active, Active | Ended, Ended => true
  | _, _ => false
  end.

(** ** The outside world *)

(** Exceptions the handler can meet; every [except] clause of the
    program catches [Exception], so their identity is informative only. *)
Inductive Exn :=
  | KeyError | IndexError | TypeError | ValueError | FormError
  | ModelError | DatabaseError | TwilioError | HttpError | OSError
  | FileNotFoundError | PdfError | ChromaError.

Inductive HttpOutcome :=
  | HttpOk (content : string)     (* 2xx, with the bytes of the body *)
  | HttpStatusError               (* [raise_for_status] raises *)
  | HttpConnectionError.          (* [requests.get] raises *)

Inductive DiskOutcome :=
  | DiskOk                          (* the whole content is written *)
  | DiskOpenFails                   (* [open] raises, no file is made *)
  | DiskWriteFails (written : string). (* [f.write] raises after [written] *)

(** The oracles of one run of the process.  Outside calls are numbered
    by the [tick] of the world at the time of the call. *)
Record Env := {
  (** [Agent.run(prompt).content]; [None]: the call raises *)
  model_reply : nat → string → option string;
  (** does SQLite carry out the statement *)
  sqlite_up : nat → bool;
  (** does [twilio_client.messages.create] accept the message *)
  twilio_up : nat → bool;
  (** [requests.get(url, auth=...)] *)
  http_get : nat → string → HttpOutcome;
  (** writing a file of the given path *)
  disk_write : nat → string → DiskOutcome;
  (** [datetime.now().strftime("%Y%m%d_%H%M%S")] *)
  clock : nat → string;
  (** PyPDF2: the text of each page of a file's content; [None]: raises *)
  pdf_pages : string → option (list string);
  (** does the Chroma collection carry out the call *)
  chroma_up : nat → bool;
  (** the documents of the collection in the order of their distance
      to a query text *)
  chroma_rank : string → list string → list string }.

(** An e-mail the sending agent was asked for: the command it was
    given, and the attachment path with the content of that file at the
    time of the request. *)
Record Mail := {
  mail_to : string;
  mail_subject : string;
  mail_body : string;
  mail_attachment : option (string * option string) }.

(** An entry of the Chroma collection. *)
Record ChromaDoc := { doc_id : string; doc_text : string; doc_filename : string }.

Record World := {
  db : Store;
  files : gmap string string;          (* path ↦ content *)
  outbox : list (string * string);     (* WhatsApp messages sent: (to, body) *)
  fetched : list string;               (* URLs requested over HTTP *)
  mails : list Mail;
  collection : list ChromaDoc;
  tick : nat }.

Definition set_db (f : Store → Store) (w : World) : World :=
  {| db := f (db w); files := files w; outbox := outbox w; fetched := fetched w;
     mails := mails w; collection := collection w; tick := tick w |}.
Definition set_files (f : gmap string string → gmap string string) (w : World) : World :=
  {| db := db w; files := f (files w); outbox := outbox w; fetched := fetched w;
     mails := mails w; collection := collection w; tick := tick w |}.
Definition set_outbox (f : list (string * string) → list (string * string)) (w : World) : World :=
  {| db := db w; files := files w; outbox := f (outbox w); fetched := fetched w;
     mails := mails w; collection := collection w; tick := tick w |}.
Definition set_fetched (f : list string → list string) (w : World) : World :=
  {| db := db w; files := files w; outbox := outbox w; fetched := f (fetched w);
     mails := mails w; collection := collection w; tick := tick w |}.
Definition set_mails (f : list Mail → list Mail) (w : World) : World :=
  {| db := db w; files := files w; outbox := outbox w; fetched := fetched w;
     mails := f (mails w); collection := collection w; tick := tick w |}.
Definition set_collection (f : list ChromaDoc → list ChromaDoc) (w : World) : World :=
  {| db := db w; files := files w; outbox := outbox w; fetched := fetched w;
     mails := mails w; collection := f (collection w); tick := tick w |}.
Definition set_tick (f : nat → nat) (w : World) : World :=
  {| db := db w; files := files w; outbox := outbox w; fetched := fetched w;
     mails := mails w; collection := collection w; tick := f (tick w) |}.

(** ** The monad of the handler: state and exceptions *)

Inductive Res (A : Type) :=
  | Ok (a : A)
  | Raise (e : Exn).
Arguments Ok {A} a.
Arguments Raise {A} e.

Definition M (A : Type) : Type := World → Res A * World.

Definition ret {A} (a : A) : M A := λ w, (Ok a, w).

Definition bind {A B} (m : M A) (k : A → M B) : M B := λ w,
  match m w with
  | (Ok a, w') => k a w'
  | (Raise e, w') => (Raise e, w')
  end.

Declare Scope py_scope.
Delimit Scope py_scope with py.
Bind Scope py_scope with M.
Notation "x ← y ; z" := (bind y (λ x : _, z))
  (at level 20, y at level 100, z at level 200, only parsing) : py_scope.
Notation "x ;; z" := (bind x (λ _, z))
  (at level 100, z at level 200, only parsing, right associativity) : py_scope.
Local Open Scope py_scope.

Definition raise {A} (e : Exn) : M A := λ w, (Raise e, w).

(** [try: body except Exception: handler]: what [body] did to the world
    before it raised stays done. *)
Definition try_except {A} (body : M A) (handler : Exn → M A) : M A := λ w,
  match body w with
  | (Ok a, w') => (Ok a, w')
  | (Raise e, w') => handler e w'
  end.

Definition get_world : M World := λ w, (Ok w, w).
Definition modify (f : World → World) : M unit := λ w, (Ok (), f w).

(** A dictionary or list access that raises when the key is absent. *)
Definition lookup_or {A} (e : Exn) (o : option A) : M A :=
  match o with Some a => ret a | None => raise e end.

(** The number of this outside call. *)
Definition next_tick : M nat := λ w, (Ok (tick w), set_tick S w).

(** ** [db.py]: the statements the agents write, and [execute_query] *)

(** The model writes the SQL text.  The embedding reads each answer as
    the statement its prompt spells out (the columns, the filter, the
    order and the limit the prompt lists); [InsertMessage] is the fixed
    text of [ChatAgent.save_message] with its parameters. *)
Inductive Query :=
  | SelectUserByPhone (phone : string)
  | SelectActiveChat (user_id : Z)
  | InsertChat (user_id : Z)
  | SelectChatMessages (chat_id : Z)
  | InsertMessage (chat_id user_id : Z) (user_message bot_reply : string)
  | UpdateEndChat (chat_id : Z).

(** What [execute_query] returns with [fetch=True]: the list of rows of
    a SELECT, or the dict [{"id": last_id}]. *)
Inductive QueryResult :=
  | ResRows (rows : list Row)
  | ResDict (d : Row).

Definition user_row (u : User) : Row :=
  [("id", VInt (u_id u)); ("name", VStr (u_name u)); ("phone", VStr (u_phone u));
   ("is_member", VInt (u_is_member u))].

Definition chat_row (c : Chat) : Row :=
  [("id", VInt (c_id c)); ("user_id", VInt (c_user_id c));
   ("status", VStr (match c_status c with Active => "active" | Ended => "ended" end))].

Definition message_row (m : Message) : Row :=
  [("user_message", VStr (m_user_message m)); ("bot_reply", VStr (m_bot_reply m))].

Definition is_active_chat_of (user_id : Z) (c : Chat) : bool :=
  (c_user_id c =? user_id) && status_eqb (c_status c) Active.

Definition end_chat_row (chat_id : Z) (c : Chat) : Chat :=
  if c_id c =? chat_id
  then {| c_id := c_id c; c_user_id := c_user_id c; c_status := Ended |}
  else c.

(** The users of a phone number that are not marked as deleted. *)
Definition known_users (st : Store) (phone : string) : list User :=
  List.filter (λ u, String.eqb (u_phone u) phone && (u_is_deleted u =? 0)) (users st).

(** The statement on the tables: the result and the tables after it. *)
Definition run_query (q : Query) (st : Store) : QueryResult * Store :=
  match q with
  | SelectUserByPhone phone =>
      (ResRows (user_row <$> known_users st phone), st)
  | SelectActiveChat user_id =>
      (ResRows (chat_row <$>
         take 1 (rev (List.filter (is_active_chat_of user_id) (chats st)))),
       st)
  | InsertChat user_id =>
      let id := chat_seq st + 1 in
      (ResDict [("id", VInt id)],
       {| users := users st;
          chats := chats st ++ [{| c_id := id; c_user_id := user_id; c_status := Active |}];
          messages := messages st;
          chat_seq := id;
          message_seq := message_seq st |})
  | SelectChatMessages chat_id =>
      (ResRows (message_row <$> List.filter (λ m, m_chat_id m =? chat_id) (messages st)), st)
  | InsertMessage chat_id user_id user_message bot_reply =>
      let id := message_seq st + 1 in
      (ResDict [("id", VInt id)],
       {| users := users st;
          chats := chats st;
          messages := messages st ++
            [{| m_id := id; m_chat_id := chat_id; m_user_id := user_id;
                m_user_message := user_message; m_bot_reply := bot_reply |}];
          chat_seq := chat_seq st;
          message_seq := id |})
  | UpdateEndChat chat_id =>
      (ResDict [("id", VNull)],
       {| users := users st;
          chats := end_chat_row chat_id <$> chats st;
          messages := messages st;
          chat_seq := chat_seq st;
          message_seq := message_seq st |})
  end.

(** The outside calls.  Each takes the next tick and asks the oracle. *)

(** [Agent.run(prompt, markdown=True).content] *)
Definition agent_run (env : Env) (prompt : string) : M string :=
  k ← next_tick;
  lookup_or ModelError (model_reply env k prompt).

(** [execute_query(query)]: a statement SQLite refuses raises, and the
    connection is closed without a commit. *)
Definition execute_query (env : Env) (q : Query) : M QueryResult :=
  k ← next_tick;
  if sqlite_up env k
  then λ w, let '(r, st) := run_query q (db w) in (Ok r, set_db (λ _, st) w)
  else raise DatabaseError.

(** [twilio_client.messages.create(from_=..., body=body, to=to)] *)
Definition messages_create (env : Env) (body to : string) : M unit :=
  k ← next_tick;
  if twilio_up env k
  then modify (set_outbox (λ o, o ++ [(to, body)]))
  else raise TwilioError.

(** [open(path, 'wb')] followed by [f.write(content)] *)
Definition write_file (env : Env) (path content : string) : M unit :=
  k ← next_tick;
  match disk_write env k path with
  | DiskOk => modify (set_files (λ fs, <[path := content]> fs))
  | DiskOpenFails => raise OSError
  | DiskWriteFails written =>
      modify (set_files (λ fs, <[path := written]> fs)) ;; raise OSError
  end.

(** [open(path, 'rb')] and reading the whole file *)
Definition read_file (path : string) : M string :=
  w ← get_world;
  lookup_or FileNotFoundError (files w !! path).

(** [os.unlink(path)] *)
Definition os_unlink (path : string) : M unit :=
  w ← get_world;
  match files w !! path with
  | Some _ => modify (set_files (λ fs, delete path fs))
  | None => raise FileNotFoundError
  end.

(** [str(e)] of a caught exception, which the program only logs or
    stores in a message field; the class name stands for it. *)
Definition exn_text (e : Exn) : string :=
  match e with
  | KeyError => "KeyError" | IndexError => "IndexError" | TypeError => "TypeError"
  | ValueError => "ValueError" | FormError => "FormError" | ModelError => "ModelError"
  | DatabaseError => "DatabaseError" | TwilioError => "TwilioError"
  | HttpError => "HttpError" | OSError => "OSError"
  | FileNotFoundError => "FileNotFoundError" | PdfError => "PdfError"
  | ChromaError => "ChromaError"
  end.

Definition nl : string := String "010"%char "".

(** Python truth of a list and of a string *)
Definition list_truthy {A} (l : list A) : bool :=
  match l with [] => false | _ :: _ => true end.

Definition str_truthy (s : string) : bool := negb (String.eqb s "").

(** [str(v)], as an f-string prints a value *)
Definition str_value (v : Value) : string :=
  match v with
  | VNull => "None"
  | VInt z => Py.str_of_Z z
  | VStr s => s
  end.

(** ** [Agentic_System.py] *)

Module SQLAgent.

Definition query_prompt (phone_number : string) : string :=
  nl +:+
  "        Generate an SQL query to check if a user with phone number " +:+ phone_number +:+ " exists in the users table." +:+ nl +:+
  "        The query should:" +:+ nl +:+
  "        1. Return the user's id, name, phone, and is_member status" +:+ nl +:+
  "        2. Filter where phone = '" +:+ phone_number +:+ "' and is_deleted = 0" +:+ nl +:+
  "        " +:+ nl +:+
  "        Return only the SQL query without any explanation or markdown formatting." +:+ nl +:+
  "        ".

(** [generate_query]: the model is asked for the user look-up. *)
Definition generate_query (env : Env) (phone_number : string) : M Query :=
  agent_run env (query_prompt phone_number) ;;
  ret (SelectUserByPhone phone_number).

End SQLAgent.

Module ChatAgent.

Definition check_active_chat_prompt (user_id : Z) : string :=
  nl +:+
  "        Generate an SQL query to check if user with ID " +:+ Py.str_of_Z user_id +:+ " has an active chat." +:+ nl +:+
  "        The query should:" +:+ nl +:+
  "        1. Return the chat id, user_id, and status" +:+ nl +:+
  "        2. Filter where user_id = " +:+ Py.str_of_Z user_id +:+ " and status = 'active'" +:+ nl +:+
  "        3. Order by created_at DESC" +:+ nl +:+
  "        4. Limit to 1 result (most recent active chat)" +:+ nl +:+
  "        " +:+ nl +:+
  "        Return only the SQL query without any explanation or markdown formatting." +:+ nl +:+
  "        ".

Definition check_active_chat (env : Env) (user_id : Z) : M Query :=
  agent_run env (check_active_chat_prompt user_id) ;;
  ret (SelectActiveChat user_id).

Definition create_new_chat_prompt (user_id : Z) : string :=
  nl +:+
  "        Generate an SQL query to create a new active chat for user with ID " +:+ Py.str_of_Z user_id +:+ "." +:+ nl +:+
  "        The query should:" +:+ nl +:+
  "        1. Insert into the chats table" +:+ nl +:+
  "        2. Set user_id = " +:+ Py.str_of_Z user_id +:+ ", status = 'active', and appropriate timestamps" +:+ nl +:+
  "        " +:+ nl +:+
  "        Return only the SQL query without any explanation or markdown formatting." +:+ nl +:+
  "        ".

Definition create_new_chat (env : Env) (user_id : Z) : M Query :=
  agent_run env (create_new_chat_prompt user_id) ;;
  ret (InsertChat user_id).

Definition get_chat_messages_prompt (chat_id : Z) : string :=
  nl +:+
  "        Generate an SQL query to retrieve all messages for chat with ID " +:+ Py.str_of_Z chat_id +:+ "." +:+ nl +:+
  "        The query should:" +:+ nl +:+
  "        1. Return the user_message and bot_reply" +:+ nl +:+
  "        2. Filter where chat_id = " +:+ Py.str_of_Z chat_id +:+ nl +:+
  "        3. Order by created_at ASC (oldest to newest)" +:+ nl +:+
  "        " +:+ nl +:+
  "        Return only the SQL query without any explanation or markdown formatting." +:+ nl +:+
  "        ".

Definition get_chat_messages (env : Env) (chat_id : Z) : M Query :=
  agent_run env (get_chat_messages_prompt chat_id) ;;
  ret (SelectChatMessages chat_id).

(** [save_message] asks no model: the statement is fixed text with
    four parameters. *)
Definition save_message (chat_id user_id : Z) (user_message bot_reply : string) : Query :=
  InsertMessage chat_id user_id user_message bot_reply.

Definition end_chat_prompt (chat_id : Z) : string :=
  nl +:+
  "        Generate an SQL query to end a chat session." +:+ nl +:+
  "        The query should:" +:+ nl +:+
  "        1. Update the chats table" +:+ nl +:+
  "        2. Set status = 'ended' and update the updated_at timestamp" +:+ nl +:+
  "        3. Where id = " +:+ Py.str_of_Z chat_id +:+ nl +:+
  "        " +:+ nl +:+
  "        Return only the SQL query without any explanation or markdown formatting." +:+ nl +:+
  "        ".

Definition end_chat (env : Env) (chat_id : Z) : M Query :=
  agent_run env (end_chat_prompt chat_id) ;;
  ret (UpdateEndChat chat_id).

End ChatAgent.

Module IntroAgent.

Definition intro_prompt (user_data : Row) (user_message : string) : string :=
  nl +:+
  "        User: " +:+ user_message +:+ nl +:+
  "        " +:+ nl +:+
  "        User Data: " +:+ repr_row user_data +:+ nl +:+
  "        " +:+ nl +:+
  "        Generate an introductory message for the user. The message should:" +:+ nl +:+
  "        1. Greet the user by name" +:+ nl +:+
  "        2. Explain that you're an email assistant that can help them send job application emails" +:+ nl +:+
  "        3. Ask for the recipient's email address" +:+ nl +:+
  "        4. Ask for the email subject" +:+ nl +:+
  "        5. Remind them to attach their resume/CV" +:+ nl +:+
  "        " +:+ nl +:+
  "        Make the message engaging and appealing. Use emojis appropriately." +:+ nl +:+
  "        ".

Definition generate_intro_message (env : Env) (user_data : Row) (user_message : string)
  : M string :=
  agent_run env (intro_prompt user_data user_message).

End IntroAgent.

Module MediatorAgent.

(** The loop over [chat_history]: two lines for each stored turn. *)
Fixpoint chat_messages (chat_history : list Row) : M (list string) :=
  match chat_history with
  | [] => ret []
  | msg :: rest =>
      user_message ← lookup_or KeyError (row_get "user_message" msg);
      bot_reply ← lookup_or KeyError (row_get "bot_reply" msg);
      more ← chat_messages rest;
      ret (("User: " +:+ str_value user_message)
           :: ("Bot: " +:+ str_value bot_reply) :: more)
  end.

Definition analysis_prompt (user_data : Row) (formatted_history user_message : string)
    (media_urls : list string) : string :=
  "Analyze this conversation carefully:" +:+ nl +:+
  nl +:+
  "User Data: " +:+ repr_row user_data +:+ nl +:+
  nl +:+
  "Previous Messages:" +:+ nl +:+
  formatted_history +:+ nl +:+
  nl +:+
  "Current Message: " +:+ user_message +:+ nl +:+
  nl +:+
  "Attachments: " +:+ Py.repr_list media_urls +:+ nl +:+
  nl +:+
  "Task:" +:+ nl +:+
  "1. FIRST check if media_urls list has any items" +:+ nl +:+
  "2. Find recipient email address in any message (pattern: xxx@xxx.xxx)" +:+ nl +:+
  "3. Find email subject in any message" +:+ nl +:+
  nl +:+
  "Rules:" +:+ nl +:+
  "- If media_urls is empty or None: Return 'FALSE_1' if email and subject are found" +:+ nl +:+
  "- If media_urls has items AND email+subject found: Return 'TRUE, [email], [subject], [first_url]'" +:+ nl +:+
  "- If email or subject missing: Return 'FALSE_2'" +:+ nl +:+
  nl +:+
  "IMPORTANT: Never return TRUE if media_urls is empty or None." +:+ nl +:+
  "Format responses EXACTLY as specified. Do not add extra text.".

(** [analyze_conversation]: the model's answer, stripped, and
    overruled when it begins with TRUE although the turn has no
    attachment. *)
Definition analyze_conversation (env : Env) (user_data : Row) (chat_history : list Row)
    (user_message : string) (media_urls : list string) : M string :=
  lines ← chat_messages chat_history;
  let formatted_history := Py.join nl lines in
  let prompt := analysis_prompt user_data formatted_history user_message media_urls in
  content ← agent_run env prompt;
  let result := Py.strip content in
  if Py.startswith result "TRUE" && negb (list_truthy media_urls)
  then ret "FALSE_1"
  else ret result.

End MediatorAgent.

Module PDFProcessingAgent.

Definition chunk_size : nat := 2000.
Definition max_chunks : nat := 5.

(** [[all_text[i:i+chunk_size] for i in range(0, len(all_text), chunk_size)]] *)
Fixpoint chunks_of (fuel : nat) (text : string) : list string :=
  match fuel, text with
  | _, EmptyString => []
  | O, _ => []
  | S fuel', _ => Py.take chunk_size text :: chunks_of fuel' (Py.drop chunk_size text)
  end.

(** [self.collection.delete(where={"filename": filename})] *)
Definition collection_delete (env : Env) (filename : string) : M unit :=
  k ← next_tick;
  if chroma_up env k
  then modify (set_collection
                 (List.filter (λ d, negb (String.eqb (doc_filename d) filename))))
  else raise ChromaError.

(** [self.collection.add(documents=[chunk_text], ids=[...], metadatas=[...])] *)
Definition collection_add (env : Env) (filename : string) (chunk_id : nat)
    (chunk_text : string) : M unit :=
  k ← next_tick;
  if chroma_up env k
  then modify (set_collection (λ c, c ++
         [{| doc_id := filename +:+ "_" +:+ Py.str_of_nat chunk_id;
             doc_text := chunk_text; doc_filename := filename |}]))
  else raise ChromaError.

(** The loop that adds the chunks: a chunk the collection refuses is
    passed over. *)
Fixpoint add_chunks (env : Env) (filename : string) (chunk_id : nat)
    (chunks : list string) (added_chunks : nat) : M nat :=
  match chunks with
  | [] => ret added_chunks
  | chunk_text :: rest =>
      added ← try_except
                (collection_add env filename chunk_id chunk_text ;;
                 ret (S added_chunks))
                (λ _, ret added_chunks);
      add_chunks env filename (S chunk_id) rest added
  end.

(** [process_pdf]: the dict with its ["status"]. *)
Definition process_pdf (env : Env) (file_path : string) : M Row :=
  try_except
    (content ← read_file file_path;
     pages ← lookup_or PdfError (pdf_pages env content);
     let filename := Py.basename file_path in
     let all_text := fold_left String.append pages "" in
     let chunks := take max_chunks (chunks_of (String.length all_text) all_text) in
     try_except (collection_delete env filename) (λ _, ret ()) ;;
     added_chunks ← add_chunks env filename 0 chunks 0;
     if (0 <? added_chunks)%nat
     then ret [("status", VStr "success");
               ("message", VStr ("Processed " +:+ filename +:+ " with "
                                 +:+ Py.str_of_nat added_chunks +:+ " chunks"));
               ("chunks", VInt (Z.of_nat added_chunks))]
     else ret [("status", VStr "partial_success");
               ("message", VStr "Failed to add chunks to database, but extracted text");
               ("text", VStr (Py.take 10000 all_text))])
    (λ e, ret [("status", VStr "error");
               ("message", VStr ("Error processing PDF: " +:+ exn_text e))]).

(** [query_collection]: the ["documents"] of the result, one list of
    documents for the one query text. *)
Definition query_collection (env : Env) (query_text : string) : M (list (list string)) :=
  try_except
    (k ← next_tick;
     w ← get_world;
     if chroma_up env k
     then ret [take 3 (chroma_rank env query_text (doc_text <$> collection w))]
     else raise ChromaError)
    (λ _, ret [[]]).

End PDFProcessingAgent.

Module SummaryAgent.

Definition recipient_or_default (recipient_email : option string) : string :=
  match recipient_email with
  | Some e => if str_truthy e then e else "Hiring Manager"
  | None => "Hiring Manager"
  end.

Definition content_prompt (job_position resume_text : string)
    (recipient_email : option string) : string :=
  nl +:+
  "            Based on the following resume content, create a personalized job application email for a " +:+ job_position +:+ " position." +:+ nl +:+
  "            " +:+ nl +:+
  "            RESUME CONTENT:" +:+ nl +:+
  "            " +:+ resume_text +:+ nl +:+
  "            " +:+ nl +:+
  "            JOB POSITION: " +:+ job_position +:+ nl +:+
  "            " +:+ nl +:+
  "            RECIPIENT: " +:+ recipient_or_default recipient_email +:+ nl +:+
  "            " +:+ nl +:+
  "            Create a professional email with this structure:" +:+ nl +:+
  "            1. Start with a polite greeting (e.g., Dear Hiring Manager)" +:+ nl +:+
  "            2. Open with excitement about applying for the position and eagerness to contribute technical skills" +:+ nl +:+
  "            3. Mention current education status and any relevant work experience" +:+ nl +:+
  "            4. Highlight key skills and expertise, using emojis for section headers:" +:+ nl +:+
  "               - ALWAYS use emojis (not bold text) for section headers: ðŸ’», ðŸ”§, ðŸ› ï¸" +:+ nl +:+
  "               - For " +:+ Py.dq +:+ "Programming Languages" +:+ Py.dq +:+ " section, use ðŸ’» emoji" +:+ nl +:+
  "               - For " +:+ Py.dq +:+ "Frameworks" +:+ Py.dq +:+ " section, use ðŸ”§ emoji" +:+ nl +:+
  "               - For " +:+ Py.dq +:+ "Tools & Technologies" +:+ Py.dq +:+ " section, use ðŸ› ï¸ emoji" +:+ nl +:+
  "               - List skills horizontally with commas (not as bullet points)" +:+ nl +:+
  "            5. Briefly mention 3-4 project highlights with a one-line description each, using bullet points (*)" +:+ nl +:+
  "            6. Express motivation to apply skills to the company and align with their goals" +:+ nl +:+
  "            7. Politely invite the recruiter to review the attached resume" +:+ nl +:+
  "            8. End with a professional closing and signature (including name, email, phone)" +:+ nl +:+
  "            9. If a LinkedIn profile is mentioned in the resume, include it ONCE in the signature" +:+ nl +:+
  "            " +:+ nl +:+
  "            IMPORTANT RULES:" +:+ nl +:+
  "            - DO NOT include placeholders like [Company Name] in the final output" +:+ nl +:+
  "            - DO NOT include the subject line in the email body" +:+ nl +:+
  "            - DO NOT include instructions or notes in the final output" +:+ nl +:+
  "            - Keep the tone professional, friendly, and slightly enthusiastic" +:+ nl +:+
  "            - Make the email clear and structured" +:+ nl +:+
  "            - Focus on showcasing technical strength and readiness to contribute value" +:+ nl +:+
  "            - ALWAYS use emojis (ðŸ’», ðŸ”§, ðŸ› ï¸) for section headers, never use bold text" +:+ nl +:+
  "            - List skills horizontally separated by commas, not as bullet points" +:+ nl +:+
  "            - Format only the project highlights as bullet points using asterisks (*)" +:+ nl +:+
  "            - Include LinkedIn URL in signature ONLY ONCE if found in resume" +:+ nl +:+
  "            ".

Definition fallback_content : string :=
  "Dear Hiring Manager," +:+ nl +:+
  nl +:+
  "I am excited to apply for the position mentioned in the subject line. Please find my resume attached for your consideration." +:+ nl +:+
  nl +:+
  "Best regards," +:+ nl +:+
  "Zain Raza" +:+ nl +:+
  "Lahore, Pakistan" +:+ nl +:+
  "ðŸ“§ zainxaidi2003@gmail.com | ðŸ“ž 0306-5187343".

Definition job_position_of (job_subject : string) : string :=
  if Py.contains "position" (Py.lower job_subject)
     || Py.contains "application" (Py.lower job_subject)
  then match Py.split_str "for " job_subject with
       | _ :: second :: _ => Py.strip second
       | _ => job_subject
       end
  else job_subject.

Definition generate_email_content (env : Env) (resume_chunks : list string)
    (job_subject : string) (recipient_email : option string) : M string :=
  try_except
    (let job_position := job_position_of job_subject in
     let joined := Py.join " " resume_chunks in
     let resume_text :=
       if (10000 <? String.length joined)%nat
       then Py.take 10000 joined +:+ "..." else joined in
     agent_run env (content_prompt job_position resume_text recipient_email))
    (λ _, ret fallback_content).

End SummaryAgent.

(** ** [Main.py] *)

Definition TWILIO_WHATSAPP_NUMBER : string := "whatsapp:+14155238886".

(** [download_file]: the GET, then the write to [local_path]. *)
Definition download_file (env : Env) (url local_path : string) : M bool :=
  try_except
    (k ← next_tick;
     modify (set_fetched (λ l, l ++ [url])) ;;
     content ← match http_get env k url with
               | HttpOk content => ret content
               | HttpStatusError | HttpConnectionError => raise HttpError
               end;
     write_file env local_path content ;;
     ret true)
    (λ _, ret false).

Definition command_with_attachment (subject body attachment_path : string) : string :=
  "send an email with a subject '" +:+ subject +:+ "' and body '" +:+ body +:+ "' with attachments ['" +:+ attachment_path +:+ "']".

Definition command_without_attachment (subject body attachment_path : string) : string :=
  "send an email with a subject '" +:+ subject +:+ "' and body '" +:+ body +:+ "'".

(** [send_email]: the agent with the e-mail tool is told to send, and
    its answer is searched for the tool's success text. *)
Definition send_email (env : Env) (recipient_email subject body : string)
    (attachment_path : option string) : M bool :=
  try_except
    (let command :=
       match attachment_path with
       | Some p => if str_truthy p then command_with_attachment subject body p
                   else command_without_attachment subject body p
       | None => command_without_attachment subject body ""
       end in
     w ← get_world;
     modify (set_mails (λ l, l ++
       [{| mail_to := recipient_email; mail_subject := subject; mail_body := body;
           mail_attachment :=
             match attachment_path with
             | Some p => if str_truthy p then Some (p, files w !! p) else None
             | None => None
             end |}])) ;;
     response ← agent_run env command;
     ret (Py.contains "email sent successfully" response))
    (λ _, ret false).

Definition get_default_email_template (subject : string) : string :=
  "Dear Hiring Manager," +:+ nl +:+
    nl +:+
    "I am excited to apply for the position mentioned in the subject line. Please find my resume attached for your consideration." +:+ nl +:+
    nl +:+
    "Best regards," +:+ nl +:+
    "Zain Raza" +:+ nl +:+
    "Lahore, Pakistan" +:+ nl +:+
    "üìß zainxaidi2003@gmail.com | üìû 0306-5187343".

(** [processing_result.get("status") == status] *)
Definition status_is (status : string) (processing_result : Row) : bool :=
  match row_get "status" processing_result with
  | Some (VStr s) => String.eqb s status
  | _ => false
  end.

(** [generate_email_body] *)
Definition generate_email_body (env : Env) (subject : string)
    (attachment_path recipient_email : option string) : M string :=
  try_except
    (match attachment_path with
     | None => ret (get_default_email_template subject)
     | Some path =>
         if negb (str_truthy path) then ret (get_default_email_template subject)
         else
           processing_result ← PDFProcessingAgent.process_pdf env path;
           if status_is "success" processing_result then
             let query_text := "job application for " +:+ subject in
             documents ← PDFProcessingAgent.query_collection env query_text;
             match documents with
             | (chunk :: chunks) :: _ =>
                 SummaryAgent.generate_email_content env (chunk :: chunks) subject
                   recipient_email
             | _ => ret (get_default_email_template subject)
             end
           else if status_is "partial_success" processing_result
                   && truthy (default VNull (row_get "text" processing_result)) then
             SummaryAgent.generate_email_content env
               [str_value (default VNull (row_get "text" processing_result))]
               subject recipient_email
           else ret (get_default_email_template subject)
     end)
    (λ _, ret (get_default_email_template subject)).

(** *** The webhook *)

Record Request := { form : option (gmap string string) }.

Record Response := { content : string; media_type : string }.

(** The empty TwiML document every [return Response(...)] builds. *)
Definition TWIML_ACK : Response :=
  {| content := "<?xml version='1.0' encoding='UTF-8'?><Response></Response>";
     media_type := "application/xml" |}.

Definition non_member_message : string :=
  "You are not subscribed to our membership. Please contact zainxaidi2003@gmail.com for membership details.".
Definition setup_error_message : string :=
  "Sorry, I encountered an error setting up your chat session. Please try again later.".
Definition processing_error_message : string :=
  "Sorry, I encountered an error processing your request. Please try again later.".
Definition no_wa_id_message : string :=
  "Sorry, I couldn't identify your phone number.".
Definition confirmation_message (recipient_email : string) : string :=
  "‚úÖ Email sent successfully to " +:+ recipient_email +:+ "!".
Definition send_error_message : string :=
  "‚ùå Sorry, I encountered an error sending the email. Please try again later.".
Definition download_error_message : string :=
  "‚ùå Sorry, I encountered an error downloading your attachment. Please try again.".
Definition missing_attachment_message : string :=
  "üìé Please attach your resume/CV/transcript/experience letter to continue. I need this to send your job application.".
Definition missing_info_message : string :=
  "üìù I need a bit more information to send your email:" +:+ nl +:+
    nl +:+
    "1Ô∏è‚É£ The recipient's email address (e.g., recruiter@company.com)" +:+ nl +:+
    "2Ô∏è‚É£ The email subject (e.g., 'Application for Python Developer Position')" +:+ nl +:+
    "3Ô∏è‚É£ Your resume/CV/transcript/experience letter as an attachment" +:+ nl +:+
    nl +:+
    "Please provide any missing information.".
Definition unknown_response_message : string :=
  "I'm having trouble understanding your request. Please provide:" +:+ nl +:+
    nl +:+
    "1. The recipient's email address" +:+ nl +:+
    "2. The email subject" +:+ nl +:+
    "3. Your resume/CV/transcript/experience letter as an attachment".

(** [await request.form()] *)
Definition request_form (request : Request) : M (gmap string string) :=
  lookup_or FormError (form request).

(** One round of the loop over [range(num_media)]: the URL of the
    [i]-th medium when it is a PDF. *)
Definition media_at (form_dict : gmap string string) (i : nat) : list string :=
  match form_dict !! ("MediaContentType" +:+ Py.str_of_nat i),
        form_dict !! ("MediaUrl" +:+ Py.str_of_nat i) with
  | Some media_content_type, Some media_url =>
      if str_truthy media_content_type && str_truthy media_url
         && String.eqb (Py.lower media_content_type) "application/pdf"
      then [media_url] else []
  | _, _ => []
  end.

Definition collect_media (form_dict : gmap string string) (num_media : Z) : list string :=
  flat_map (media_at form_dict) (seq 0 (Z.to_nat num_media)).

(** Reading a result of [execute_query] the way the handler does. *)

(** the truth of the result: a non-empty list or dict *)
Definition result_truthy (r : QueryResult) : bool :=
  match r with
  | ResRows rows => list_truthy rows
  | ResDict d => list_truthy d
  end.

(** [result[0]] *)
Definition result_item0 (r : QueryResult) : M Row :=
  match r with
  | ResRows (row :: _) => ret row
  | ResRows [] => raise IndexError
  | ResDict _ => raise KeyError
  end.

(** ["id" in result] *)
Definition result_has_id (r : QueryResult) : bool :=
  match r with
  | ResRows _ => false
  | ResDict d => bool_decide (is_Some (row_get "id" d))
  end.

(** [result["id"]] *)
Definition result_id (r : QueryResult) : M Value :=
  match r with
  | ResRows _ => raise TypeError
  | ResDict d => lookup_or KeyError (row_get "id" d)
  end.

(** the rows the loop [for msg in chat_history] meets *)
Definition result_rows (r : QueryResult) : M (list Row) :=
  match r with
  | ResRows rows => ret rows
  | ResDict [] => ret []
  | ResDict (_ :: _) => raise TypeError
  end.

(** An id read back from a table is an integer. *)
Definition as_int (v : Value) : M Z :=
  match v with
  | VInt z => ret z
  | _ => raise TypeError
  end.

(** [save_message = chat_agent.save_message(...)], [execute_query(...)]
    and the reply over Twilio, in the order the handler has them. *)
Definition save_and_reply (env : Env) (chat_id user_id : Z)
    (body bot_reply from_number : string) : M unit :=
  execute_query env (ChatAgent.save_message chat_id user_id body bot_reply) ;;
  messages_create env bot_reply from_number.

(** The branch [if mediator_response.startswith("TRUE")].  The reading
    of the clock takes a tick, so that two turns get two time stamps. *)
Definition ready_branch (env : Env) (chat_id user_id : Z) (body from_number : string)
    (media_urls : list string) (mediator_response : string) : M unit :=
  let parts := Py.split "," mediator_response in
  part1 ← lookup_or IndexError (parts !! 1%nat);
  let recipient_email := Py.strip part1 in
  part2 ← lookup_or IndexError (parts !! 2%nat);
  let subject := Py.strip part2 in
  k ← next_tick;
  let timestamp := clock env k in
  let temp_file := "/tmp/resume_" +:+ timestamp +:+ ".pdf" in
  downloaded ← match media_urls with
               | url :: _ => download_file env url temp_file
               | [] => ret false
               end;
  if downloaded : bool then
    email_body ← generate_email_body env subject (Some temp_file) (Some recipient_email);
    email_sent ← send_email env recipient_email subject email_body (Some temp_file);
    try_except (os_unlink temp_file) (λ _, ret ()) ;;
    if negb email_sent then
      end_chat_query ← ChatAgent.end_chat env chat_id;
      execute_query env end_chat_query ;;
      save_and_reply env chat_id user_id body (confirmation_message recipient_email)
        from_number
    else
      save_and_reply env chat_id user_id body send_error_message from_number
  else
    save_and_reply env chat_id user_id body download_error_message from_number.

(** The branch of an active chat: history, mediator, and the four
    ways on from its answer. *)
Definition active_chat_branch (env : Env) (user_data : Row) (user_id : Z)
    (active_chat_result : QueryResult) (body from_number : string)
    (media_urls : list string) : M unit :=
  chat ← result_item0 active_chat_result;
  id ← lookup_or KeyError (row_get "id" chat);
  chat_id ← as_int id;
  chat_history_query ← ChatAgent.get_chat_messages env chat_id;
  chat_history_result ← execute_query env chat_history_query;
  chat_history ← result_rows chat_history_result;
  mediator_response ←
    MediatorAgent.analyze_conversation env user_data chat_history body media_urls;
  if Py.startswith mediator_response "TRUE" then
    ready_branch env chat_id user_id body from_number media_urls mediator_response
  else if String.eqb mediator_response "FALSE_1" then
    save_and_reply env chat_id user_id body missing_attachment_message from_number
  else if String.eqb mediator_response "FALSE_2" then
    save_and_reply env chat_id user_id body missing_info_message from_number
  else
    save_and_reply env chat_id user_id body unknown_response_message from_number.

(** The branch without an active chat: a new chat and the introduction. *)
Definition new_chat_branch (env : Env) (user_data : Row) (user_id : Z)
    (body from_number : string) : M unit :=
  new_chat_query ← ChatAgent.create_new_chat env user_id;
  new_chat_result ← execute_query env new_chat_query;
  if result_truthy new_chat_result && result_has_id new_chat_result then
    id ← result_id new_chat_result;
    chat_id ← as_int id;
    intro_message ← IntroAgent.generate_intro_message env user_data body;
    save_and_reply env chat_id user_id body intro_message from_number
  else
    messages_create env setup_error_message from_number.

(** The inner [try] block, for a request with a [WaId].  [Some r]: the
    handler returns [r] from inside the block; [None]: it goes on to
    the [return] at its end. *)
Definition identified_branch (env : Env) (body from_number : string)
    (media_urls : list string) : M (option Response) :=
  let clean_number := Py.replace "whatsapp:" "" from_number in
  sql_query ← SQLAgent.generate_query env clean_number;
  user_result ← execute_query env sql_query;
  not_member ←
    (if negb (result_truthy user_result) then ret true
     else user ← result_item0 user_result;
          ret (negb (truthy (default (VInt 0) (row_get "is_member" user)))));
  if not_member : bool then
    messages_create env non_member_message from_number ;;
    ret (Some TWIML_ACK)
  else
    user_data ← result_item0 user_result;
    id ← lookup_or KeyError (row_get "id" user_data);
    user_id ← as_int id;
    active_chat_query ← ChatAgent.check_active_chat env user_id;
    active_chat_result ← execute_query env active_chat_query;
    (if negb (result_truthy active_chat_result)
     then new_chat_branch env user_data user_id body from_number
     else active_chat_branch env user_data user_id active_chat_result body from_number
            media_urls) ;;
    ret None.

(** [whatsapp_webhook] *)
Definition whatsapp_webhook (env : Env) (request : Request) : M Response :=
  try_except
    (form_dict ← request_form request;
     let from_number := default "" (form_dict !! "From") in
     let body := default "" (form_dict !! "Body") in
     let wa_id := default "" (form_dict !! "WaId") in
     num_media ← lookup_or ValueError (Py.int (default "0" (form_dict !! "NumMedia")));
     let media_urls := collect_media form_dict num_media in
     returned ←
       (if str_truthy wa_id then
          try_except
            (identified_branch env body from_number media_urls)
            (λ _, messages_create env processing_error_message from_number ;; ret None)
        else
          messages_create env no_wa_id_message from_number ;; ret None);
     match returned with
     | Some response => ret response
     | None => ret TWIML_ACK
     end)
    (λ _, ret TWIML_ACK).

(** ** The database of [init_db] and sample environments *)

(** The three users [init_db] seeds a new database with. *)
Definition init_db : Store :=
  {| users :=
       [ {| u_id := 1; u_name := "Zain Raza"; u_phone := "+923065187343";
            u_email := "zainxaidi2003@gmail.com"; u_is_member := 1; u_is_deleted := 0 |};
         {| u_id := 2; u_name := "John Doe"; u_phone := "+12345678901";
            u_email := "john@example.com"; u_is_member := 1; u_is_deleted := 0 |};
         {| u_id := 3; u_name := "Jane Smith"; u_phone := "+12345678902";
            u_email := "jane@example.com"; u_is_member := 0; u_is_deleted := 0 |} ];
     chats := []; messages := []; chat_seq := 0; message_seq := 0 |}.

Definition world_of (st : Store) : World :=
  {| db := st; files := ∅; outbox := []; fetched := []; mails := [];
     collection := []; tick := 0 |}.

(** An environment in which every service answers: the model by
    [reply], the attachment host with [pdf]. *)
Definition env_up (reply : nat → string → option string) (pdf : string) : Env :=
  {| model_reply := reply;
     sqlite_up := λ _, true;
     twilio_up := λ _, true;
     http_get := λ _ _, HttpOk pdf;
     disk_write := λ _ _, DiskOk;
     clock := λ _, "20250101_120000";
     pdf_pages := λ _, Some ["Python developer, five years."];
     chroma_up := λ _, true;
     chroma_rank := λ _ docs, docs |}.

(** A WhatsApp message as Twilio posts it. *)
Definition whatsapp_request (from_number body : string) (media : list (string * string))
  : Request :=
  {| form := Some (list_to_map
       ([("From", from_number); ("Body", body);
         ("WaId", Py.replace "whatsapp:+" "" from_number);
         ("NumMedia", Py.str_of_nat (length media))]
        ++ flat_map (λ im, [("MediaContentType" +:+ Py.str_of_nat (fst im), fst (snd im));
                            ("MediaUrl" +:+ Py.str_of_nat (fst im), snd (snd im))])
             (zip (seq 0 (length media)) media))) |}.

(** ** Reasoning about the handler *)

(** [wp m Q E w]: run from [w], [m] ends in a state of [Q] with its
    result, or raises into a state of [E]. *)
Definition wp {A} (m : M A) (Q : A → World → Prop) (E : Exn → World → Prop)
    (w : World) : Prop :=
  match m w with
  | (Ok a, w') => Q a w'
  | (Raise e, w') => E e w'
  end.

(** [m] never raises. *)
Definition total {A} (m : M A) : Prop := ∀ w, ∃ a, fst (m w) = Ok a.

(** What stays when only the clock of outside calls moves. *)
Definition forget_tick (w : World) : World := set_tick (λ _, 0%nat) w.

(** What stays when the clock moves and the Chroma collection is
    rewritten: tables, files, messages, requests and mails. *)
Definition forget_scratch (w : World) : World :=
  set_collection (λ _, []) (set_tick (λ _, 0%nat) w).

(** The decision that sets off the sending of the e-mail. *)
Definition is_ready (decision : string) : bool := Py.startswith decision "TRUE".

(** The mediator's model answers TRUE on its even calls and FALSE_2 on
    the odd ones. *)
Definition fickle_env : Env :=
  env_up (λ k _, if Nat.even k
                 then Some "TRUE, recruiter@acme.com, Application, http://files/cv.pdf"
                 else Some "FALSE_2") "%PDF".

(** [m] leaves the part [f] of the world as it is, whether it returns
    or raises. *)
Definition stays {A X} (f : World → X) (m : M A) : Prop :=
  ∀ w, f (snd (m w)) = f w.

(** ** The invariant of the chats table *)

(** No user has two chats of status [active]. *)
Definition one_active_chat (st : Store) : Prop :=
  ∀ user_id, (length (List.filter (is_active_chat_of user_id) (chats st)) ≤ 1)%nat.

(** The statements that add no chat. *)
Definition adds_no_chat (q : Query) : Prop :=
  match q with
  | InsertChat _ => False
  | _ => True
  end.

(** The webhook calls of a run of the server, one after the other, each
    in an environment of its own. *)
Fixpoint serve (turns : list (Env * Request)) (w : World) : World :=
  match turns with
  | [] => w
  | (env, request) :: rest => serve rest (snd (whatsapp_webhook env request w))
  end.

(** From tables of [P], [m] ends, returning or raising, with tables of [I]. *)
Definition keeps_from {A} (P I : Store → Prop) (m : M A) : Prop :=
  ∀ w, P (db w) → wp m (λ _ w', I (db w')) (λ _ w', I (db w')) w.

Definition keeps {A} (I : Store → Prop) (m : M A) : Prop := keeps_from I I m.

(** ** Members, requests and services *)

(** The phone number belongs to a user with a true [is_member]. *)
Definition member_of (st : Store) (phone : string) : bool :=
  match known_users st phone with
  | u :: _ => negb (u_is_member u =? 0)
  | [] => false
  end.

(** The number the handler looks the user up by. *)
Definition clean_number_of (form_dict : gmap string string) : string :=
  Py.replace "whatsapp:" "" (default "" (form_dict !! "From")).

(** A request as Twilio posts it: with a [WaId] and a [NumMedia] that
    is a number. *)
Definition identified (form_dict : gmap string string) : Prop :=
  str_truthy (default "" (form_dict !! "WaId")) = true
  ∧ is_Some (Py.int (default "0" (form_dict !! "NumMedia"))).

(** No call of the model, of SQLite or of Twilio fails. *)
Definition services_up (env : Env) : Prop :=
  (∀ k prompt, is_Some (model_reply env k prompt))
  ∧ (∀ k, sqlite_up env k = true)
  ∧ (∀ k, twilio_up env k = true).

(** Every answer of the model that begins with TRUE has the e-mail
    address and the subject after it, between commas. *)
Definition ready_replies_well_formed (env : Env) : Prop :=
  ∀ k prompt reply,
    model_reply env k prompt = Some reply →
    is_ready (Py.strip reply) = true →
    (3 ≤ length (Py.split "," (Py.strip reply)))%nat.

(** What a turn shows of itself: the messages sent and the rows of the
    messages table. *)
Definition turn_log (w : World) : list (string * string) * list Message :=
  (outbox w, messages (db w)).

(** The statements that add no message row. *)
Definition adds_no_message (q : Query) : Prop :=
  match q with
  | InsertMessage _ _ _ _ => False
  | _ => True
  end.

(** Sample data: the model greets, the first seeded user says Hi. *)
Definition greeting_env : Env := env_up (λ _ _, Some "Welcome!") "%PDF".

Definition member_number : string := "whatsapp:+923065187343".
Definition non_member_number : string := "whatsapp:+12345678902".

Definition hi_request (from_number : string) : Request :=
  whatsapp_request from_number "Hi" [].

(** The tables after the first seeded user has opened a chat. *)
Definition chatting_db : Store :=
  {| users := users init_db;
     chats := [{| c_id := 1; c_user_id := 1; c_status := Active |}];
     messages := [{| m_id := 1; m_chat_id := 1; m_user_id := 1;
                     m_user_message := "Hi"; m_bot_reply := "Welcome!" |}];
     chat_seq := 1; message_seq := 1 |}.

(** The model in the two roles that matter for a Ready turn: the
    mediator, whose prompt begins with Analyze, and the agent that is
    told to send the e-mail. *)
Definition scripted_env (mediator_answer sender_answer : string) (disk : DiskOutcome) : Env :=
  {| model_reply := λ _ prompt,
       if Py.startswith prompt "Analyze this conversation" then Some mediator_answer
       else if Py.startswith prompt "send an email" then Some sender_answer
       else Some "Here is the text you asked for.";
     sqlite_up := λ _, true;
     twilio_up := λ _, true;
     http_get := λ _ _, HttpOk "%PDF-1.4 resume";
     disk_write := λ _ _, disk;
     clock := λ _, "20250101_120000";
     pdf_pages := λ _, Some ["Python developer, five years."];
     chroma_up := λ _, true;
     chroma_rank := λ _ docs, docs |}.

Definition ready_answer : string :=
  "TRUE, recruiter@acme.com, Application for Backend Engineer, https://files.example/cv.pdf".

Definition application_request : Request :=
  whatsapp_request member_number
    "Please send my CV to recruiter@acme.com, subject: Application for Backend Engineer"
    [("application/pdf", "https://files.example/cv.pdf")].

(** As [scripted_env], but SQLite refuses the statement of the eighth
    outside call of the turn, which is the INSERT of the message row on
    the path of an active chat. *)
Definition save_refused_env (mediator_answer : string) : Env :=
  {| model_reply := model_reply (scripted_env mediator_answer "" DiskOk);
     sqlite_up := λ k, negb (k =? 7)%nat;
     twilio_up := λ _, true;
     http_get := λ _ _, HttpOk "%PDF-1.4 resume";
     disk_write := λ _ _, DiskOk;
     clock := λ _, "20250101_120000";
     pdf_pages := λ _, Some ["Python developer, five years."];
     chroma_up := λ _, true;
     chroma_rank := λ _ docs, docs |}.

Definition temp_file_of (timestamp : string) : string :=
  "/tmp/resume_" +:+ timestamp +:+ ".pdf".

(** A turn that sent one reply and stored one row, the row holding the
    user's message and that reply, on top of the log [L]. *)
Definition one_turn (L : list (string * string) * list Message)
    (from_number body : string) (w : World) : Prop :=
  ∃ reply row,
    turn_log w = (L.1 ++ [(from_number, reply)], L.2 ++ [row])
    ∧ m_user_message row = body
    ∧ m_bot_reply row = reply.

(** On top of the log [L]: a reply is sent, and at most one row is stored. *)
Definition replied (L : list (string * string) * list Message) (w : World) : Prop :=
  ∃ reply rows,
    turn_log w = (L.1 ++ [reply], L.2 ++ rows) ∧ (length rows ≤ 1)%nat.

(** On top of the log [L]: nothing is sent, and at most one row is stored. *)
Definition silent (L : list (string * string) * list Message) (w : World) : Prop :=
  ∃ rows, turn_log w = (L.1, L.2 ++ rows) ∧ (length rows ≤ 1)%nat.

(** On top of the log [L]: at most one reply and at most one row. *)
Definition at_most_one_turn (L : list (string * string) * list Message) (w : World)
  : Prop :=
  ∃ replies rows,
    turn_log w = (L.1 ++ replies, L.2 ++ rows)
    ∧ (length replies ≤ 1)%nat ∧ (length rows ≤ 1)%nat.

(** An operation that, started with nothing sent or stored in the turn,
    ends with the reply sent, or raises with nothing sent. *)
Definition finishing {A} (m : M A) : Prop :=
  ∀ w, wp m (λ _ w', replied (turn_log w) w') (λ _ w', silent (turn_log w) w') w.

(** The answer of the mediator has the e-mail address and the subject
    after its TRUE: [parts[1]] and [parts[2]] exist. *)
Definition has_fields (response : string) : bool :=
  (3 <=? length (Py.split "," response))%nat.

(** What a run of the Ready branch from [w] to [w'] asked of the
    attachment host and of the sending agent.  On an answer without
    its fields: nothing.  Else one GET, of [url], and either no mail, or
    one mail that attaches [path], a file holding what the host sent
    for [url]. *)
Definition ready_outcome (env : Env) (url path response : string) (w w' : World) : Prop :=
  if has_fields response
  then fetched w' = fetched w ++ [url]
       ∧ (mails w' = mails w
          ∨ ∃ k content mail,
              http_get env k url = HttpOk content
              ∧ mails w' = mails w ++ [mail]
              ∧ mail_attachment mail = Some (path, Some content))
  else fetched w' = fetched w ∧ mails w' = mails w.

(** ** The body of the e-mail *)

(** The model answers every prompt with the empty string. *)
Definition mute_env : Env := env_up (λ _ _, Some "") "%PDF".

Definition world_with_file (path content : string) : World :=
  set_files (λ _, {[ path := content ]}) (world_of init_db).

(** No attachment path: [None] or the empty string. *)
Definition no_path (attachment_path : option string) : Prop :=
  attachment_path = None ∨ attachment_path = Some "".

(** The chunk query came back without a document. *)
Definition no_documents (result : Res (list (list string))) : Prop :=
  match result with
  | Ok ((_ :: _) :: _) => False
  | _ => True
  end.

(** Where a body comes from: the default template, the fallback text
    of the summary agent, or an answer of the model. *)
Definition body_origin (env : Env) (subject email_body : string) : Prop :=
  email_body = get_default_email_template subject
  ∨ email_body = SummaryAgent.fallback_content
  ∨ ∃ k prompt, model_reply env k prompt = Some email_body.

(** ** Further parts of the program *)

(** *** The attachments of a request *)

(** The [i]-th medium of the form is a PDF with the URL [url]. *)
Definition is_pdf_at (form_dict : gmap string string) (i : nat) (url : string) : Prop :=
  form_dict !! ("MediaUrl" +:+ Py.str_of_nat i) = Some url
  ∧ url ≠ ""
  ∧ ∃ media_content_type,
      form_dict !! ("MediaContentType" +:+ Py.str_of_nat i) = Some media_content_type
      ∧ Py.lower media_content_type = "application/pdf".

(** The form declares no medium as a PDF. *)
Definition no_pdf (form_dict : gmap string string) : Prop :=
  ∀ i media_content_type,
    form_dict !! ("MediaContentType" +:+ Py.str_of_nat i) = Some media_content_type →
    Py.lower media_content_type ≠ "application/pdf".

(** *** How the tables change *)

(** A chat row after some statements: same id and user, and once ended
    it stays ended. *)
Definition chat_step (c c' : Chat) : Prop :=
  c_id c' = c_id c ∧ c_user_id c' = c_user_id c
  ∧ (c_status c = Ended → c_status c' = Ended).

(** [st'] comes from [st] by adding rows and ending chats: the users
    are the same, every chat of [st] is there in its place, and the
    messages of [st] are the first messages of [st']. *)
Definition grows (st st' : Store) : Prop :=
  users st' = users st
  ∧ (∃ old new, chats st' = old ++ new ∧ Forall2 chat_step (chats st) old)
  ∧ (∃ new, messages st' = messages st ++ new).

(** The keys of the two tables the program writes: no id twice, and no
    id beyond the AUTOINCREMENT counter. *)
Definition keys_fresh (st : Store) : Prop :=
  NoDup (c_id <$> chats st) ∧ Forall (λ c, c_id c ≤ chat_seq st) (chats st)
  ∧ NoDup (m_id <$> messages st) ∧ Forall (λ m, m_id m ≤ message_seq st) (messages st).

(** *** [db.execute_query]: the cleaning of the text of a statement *)

Module PyText.

(** [s.endswith(suffix)] *)
Definition endswith (s suffix : string) : bool :=
  String.prefix (String.rev suffix) (String.rev s).

(** What follows the first [sep] in [s], if there is one. *)
Fixpoint after_first (sep : ascii) (s : string) : option string :=
  match s with
  | EmptyString => None
  | String c s' => if Ascii.eqb c sep then Some s' else after_first sep s'
  end.

(** [s.split(sep, 1)[-1]] *)
Definition split1_last (sep : ascii) (s : string) : string :=
  default s (after_first sep s).

(** [s.rsplit(sep, 1)[0]] *)
Definition rsplit1_first (sep : ascii) (s : string) : string :=
  default s (String.rev <$> after_first sep (String.rev s)).

(** [s.lstrip(c)] and [s.rstrip(c)] for one character *)
Fixpoint lstrip_char (c : ascii) (s : string) : string :=
  match s with
  | String a s' => if Ascii.eqb a c then lstrip_char c s' else s
  | EmptyString => EmptyString
  end.

Definition rstrip_char (c : ascii) (s : string) : string :=
  String.rev (lstrip_char c (String.rev s)).

(** Every character of [s] is in [P]. *)
Fixpoint all_chars (P : ascii → bool) (s : string) : bool :=
  match s with
  | EmptyString => true
  | String c s' => P c && all_chars P s'
  end.

End PyText.

(** The first lines of [execute_query]: the text the model wrote, made
    ready for SQLite. *)
Definition clean_query (query : string) : string :=
  let stripped := Py.strip query in
  let unfenced :=
    if Py.startswith stripped "```" then
      let body := PyText.split1_last "010" stripped in
      if PyText.endswith body "```" then PyText.rsplit1_first "010" body else body
    else stripped in
  let bare := PyText.rstrip_char ";" (Py.strip (Py.replace "`" "" unfenced)) in
  Py.replace "CURDATE()" "DATE('now')" (Py.replace "NOW()" "CURRENT_TIMESTAMP" bare).

(** *** The first message of a member *)

(** The tables after the opening turn of [user]: one more chat, active,
    and one more message row that holds the user's message and the
    introduction. *)
Definition opened_chat (st : Store) (user : User) (body intro_message : string) : Store :=
  {| users := users st;
     chats := chats st ++
       [{| c_id := chat_seq st + 1; c_user_id := u_id user; c_status := Active |}];
     messages := messages st ++
       [{| m_id := message_seq st + 1; m_chat_id := chat_seq st + 1;
           m_user_id := u_id user; m_user_message := body;
           m_bot_reply := intro_message |}];
     chat_seq := chat_seq st + 1;
     message_seq := message_seq st + 1 |}.

(** *** A turn without an attachment *)

(** The statements that end no chat. *)
Definition ends_no_chat (q : Query) : Prop :=
  match q with
  | UpdateEndChat _ => False
  | _ => True
  end.

(** From [w0] to [w] nothing of the sending of an application has
    happened: the files, the requests made of attachment hosts, the
    mails handed to the sending agent and the Chroma collection are
    the same, and the chats of [w0] are the first chats of [w], as
    they were. *)
Definition chat_only (w0 w : World) : Prop :=
  files w = files w0 ∧ fetched w = fetched w0 ∧ mails w = mails w0
  ∧ collection w = collection w0
  ∧ chats (db w0) `prefix_of` chats (db w).

(** [m] ends, returning or raising, in a world of [P] when started in one. *)
Definition holds_through {A} (P : World → Prop) (m : M A) : Prop :=
  ∀ w, P w → wp m (λ _ w', P w') (λ _ w', P w') w.

(** *** The collection after [process_pdf] *)

(** The chunks [process_pdf] keeps of the pages of a PDF. *)
Definition kept_chunks (pages : list string) : list string :=
  let all_text := fold_left String.append pages "" in
  take PDFProcessingAgent.max_chunks
    (PDFProcessingAgent.chunks_of (String.length all_text) all_text).

(** The entries the loop of [process_pdf] adds for [chunks], numbered
    from [start]. *)
Definition chunk_docs (filename : string) (start : nat) (chunks : list string)
  : list ChromaDoc :=
  imap (λ i chunk_text,
          {| doc_id := filename +:+ "_" +:+ Py.str_of_nat (start + i);
             doc_text := chunk_text; doc_filename := filename |}) chunks.

(** The entries of the collection that belong to other files. *)
Definition docs_of_others (filename : string) (c : list ChromaDoc) : list ChromaDoc :=
  List.filter (λ d, negb (String.eqb (doc_filename d) filename)) c.

(** *** [email_agent.py]: the tool that sends the mail *)

Module EmailTools.

(** The four settings of the toolkit; [None] is Python's [None]. *)
Record EmailToolsWithAttachments := {
  receiver_email : option string;
  sender_name : option string;
  sender_email : option string;
  sender_passkey : option string }.

(** [msg.add_attachment(file_data, maintype=..., subtype=..., filename=...)] *)
Record Attachment := {
  file_data : string; maintype : string; subtype : string; filename : string }.

Record EmailMessage := {
  msg_subject : string; msg_from : string; msg_to : string;
  msg_content : string; msg_attachments : list Attachment }.

(** The libraries the tool calls. *)
Record Outside := {
  (** does [EmailMessage] take the value of a header; it raises on a
      value of more than one line *)
  header_ok : string → bool;
  (** [mimetypes.guess_type(path)]: the type and the encoding *)
  guess_type : string → option string * option string;
  (** [smtp.login] and [smtp.send_message] over [SMTP_SSL]: [None] when
      the server takes the message, else the text of the exception *)
  smtp_send : string → string → EmailMessage → option string }.

(** [not self.x] is false *)
Definition is_set (setting : option string) : bool :=
  match setting with
  | Some s => str_truthy s
  | None => false
  end.

(** [maintype, subtype = content_type.split('/', 1)]; [None]: the
    unpacking raises, the type has no slash. *)
Fixpoint split_type (content_type : string) : option (string * string) :=
  match content_type with
  | EmptyString => None
  | String c rest =>
      if Ascii.eqb c "/" then Some (EmptyString, rest)
      else match split_type rest with
           | Some (maintype, subtype) => Some (String c maintype, subtype)
           | None => None
           end
  end.

(** The body of the [try] of one round of the loop over [attachments]. *)
Definition attach_file (out : Outside) (fs : gmap string string) (file_path : string)
  : Res Attachment :=
  match fs !! file_path with
  | None => Raise FileNotFoundError
  | Some data =>
      let content_type :=
        match guess_type out file_path with
        | (Some content_type, None) => content_type
        | _ => "application/octet-stream"
        end in
      match split_type content_type with
      | Some (main, sub) =>
          Ok {| file_data := data; maintype := main; subtype := sub;
                filename := Py.basename file_path |}
      | None => Raise ValueError
      end
  end.

(** The loop over [attachments]: the attachments of the message after
    it, or the text the tool returns from inside the loop. *)
Fixpoint attach_all (out : Outside) (fs : gmap string string) (paths : list string)
    (attached : list Attachment) : string + list Attachment :=
  match paths with
  | [] => inr attached
  | file_path :: rest =>
      match attach_file out fs file_path with
      | Ok attachment => attach_all out fs rest (attached ++ [attachment])
      | Raise e =>
          inl ("error: Failed to attach file " +:+ file_path +:+ ": " +:+ exn_text e)
      end
  end.

Definition sent_successfully : string := "email sent successfully".

(** [email_user_with_attachments]: the text the tool returns, and the
    message the SMTP server took, if it took one.  The headers are set
    outside every [try]: a value [EmailMessage] refuses makes the tool
    raise. *)
Definition email_user_with_attachments (out : Outside) (fs : gmap string string)
    (self : EmailToolsWithAttachments) (subject body : string)
    (attachments : option (list string)) : Res (string * option EmailMessage) :=
  if negb (is_set (receiver_email self)) then
    Ok ("error: No receiver email provided", None)
  else if negb (is_set (sender_name self)) then
    Ok ("error: No sender name provided", None)
  else if negb (is_set (sender_email self)) then
    Ok ("error: No sender email provided", None)
  else if negb (is_set (sender_passkey self)) then
    Ok ("error: No sender passkey provided", None)
  else
    let receiver := default "" (receiver_email self) in
    let name := default "" (sender_name self) in
    let sender := default "" (sender_email self) in
    let passkey := default "" (sender_passkey self) in
    let from := name +:+ " <" +:+ sender +:+ ">" in
    if negb (header_ok out subject && header_ok out from && header_ok out receiver)
    then Raise ValueError
    else
      match attach_all out fs (default [] attachments) [] with
      | inl error => Ok (error, None)
      | inr attached =>
          let msg := {| msg_subject := subject; msg_from := from; msg_to := receiver;
                        msg_content := body; msg_attachments := attached |} in
          match smtp_send out sender passkey msg with
          | None => Ok (sent_successfully, Some msg)
          | Some e => Ok ("error: " +:+ e, None)
          end
      end.

End EmailTools.

(** *** A member's message without an attachment *)

(** The lines of the mediator's prompt that stand for the stored turns. *)
Definition history_lines (rows : list Message) : list string :=
  flat_map (λ m, ["User: " +:+ m_user_message m; "Bot: " +:+ m_bot_reply m]) rows.

(** The reply to a turn without an attachment, by the answer of the
    mediator's model: a TRUE is overruled to FALSE_1. *)
Definition reminder_of (answer : string) : string :=
  if Py.startswith answer "TRUE" || String.eqb answer "FALSE_1"
  then missing_attachment_message
  else if String.eqb answer "FALSE_2" then missing_info_message
  else unknown_response_message.

(** The tables after a turn is stored in the chat [chat_id]. *)
Definition stored_turn (st : Store) (chat_id user_id : Z) (body bot_reply : string)
  : Store :=
  {| users := users st;
     chats := chats st;
     messages := messages st ++
       [{| m_id := message_seq st + 1; m_chat_id := chat_id; m_user_id := user_id;
           m_user_message := body; m_bot_reply := bot_reply |}];
     chat_seq := chat_seq st;
     message_seq := message_seq st + 1 |}.

(** A character other than the backtick. *)
Definition not_backtick (c : ascii) : bool := negb (Ascii.eqb c "`").

(** ** The rules of [wp] *)

Section WpRules.

Context {A B : Type}.
Implicit Types (Q : A → World → Prop) (E : Exn → World → Prop) (w : World).

Lemma wp_ret (a : A) Q E w : Q a w → wp (ret a) Q E w.
Proof. done. Qed.

Lemma wp_raise (e : Exn) Q E w : E e w → wp (raise e) Q E w.
Proof. done. Qed.

Lemma wp_bind (m : M B) (k : B → M A) Q E w :
  wp m (λ b w', wp (k b) Q E w') E w → wp (bind m k) Q E w.
Proof. unfold wp, bind. by destruct (m w) as [[b|e] w']. Qed.

Lemma wp_try (body : M A) (handler : Exn → M A) Q E w :
  wp body Q (λ e w', wp (handler e) Q E w') w → wp (try_except body handler) Q E w.
Proof. unfold wp, try_except. by destruct (body w) as [[a|e] w']. Qed.

Lemma wp_mono (m : M A) Q Q' E E' w :
  wp m Q E w →
  (∀ a w', Q a w' → Q' a w') → (∀ e w', E e w' → E' e w') →
  wp m Q' E' w.
Proof. unfold wp. destruct (m w) as [[a|e] w']; auto. Qed.

Lemma wp_lookup_or (e : Exn) (o : option A) Q E w :
  (∀ a, o = Some a → Q a w) → (o = None → E e w) → wp (lookup_or e o) Q E w.
Proof. destruct o; simpl; [intros H _; by apply H | intros _ H; by apply H]. Qed.

End WpRules.

Lemma wp_get_world Q E w : Q w w → wp get_world Q E w.
Proof. done. Qed.

Lemma wp_modify f Q E w : Q () (f w) → wp (modify f) Q E w.
Proof. done. Qed.

Lemma wp_next_tick Q E w : Q (tick w) (set_tick S w) → wp next_tick Q E w.
Proof. done. Qed.

Lemma wp_agent_run env prompt Q E w :
  (∀ r, model_reply env (tick w) prompt = Some r → Q r (set_tick S w)) →
  (model_reply env (tick w) prompt = None → E ModelError (set_tick S w)) →
  wp (agent_run env prompt) Q E w.
Proof.
  intros HQ HE. apply wp_bind, wp_next_tick.
  apply wp_lookup_or; auto.
Qed.

Lemma wp_execute_query env q Q E w :
  (sqlite_up env (tick w) = true →
   Q (fst (run_query q (db w))) (set_db (λ _, snd (run_query q (db w))) (set_tick S w))) →
  (sqlite_up env (tick w) = false → E DatabaseError (set_tick S w)) →
  wp (execute_query env q) Q E w.
Proof.
  intros HQ HE. apply wp_bind, wp_next_tick.
  destruct (sqlite_up env (tick w)) eqn:Hup.
  - unfold wp. cbn. destruct (run_query q (db w)) as [r st]. by apply HQ.
  - by apply wp_raise, HE.
Qed.

Lemma wp_messages_create env body to Q E w :
  (twilio_up env (tick w) = true →
   Q () (set_outbox (λ o, o ++ [(to, body)]) (set_tick S w))) →
  (twilio_up env (tick w) = false → E TwilioError (set_tick S w)) →
  wp (messages_create env body to) Q E w.
Proof.
  intros HQ HE. apply wp_bind, wp_next_tick.
  destruct (twilio_up env (tick w)) eqn:Hup.
  - by apply wp_modify, HQ.
  - by apply wp_raise, HE.
Qed.

(** ** The mediator *)

(** The history is formatted without a look at the world. *)
Lemma chat_messages_pure chat_history w :
  snd (MediatorAgent.chat_messages chat_history w) = w.
Proof.
  revert w. induction chat_history as [|msg rest IH]; intros w; [done|].
  cbn. unfold bind.
  destruct (row_get "user_message" msg); cbn; [|done].
  destruct (row_get "bot_reply" msg); cbn; [|done].
  specialize (IH w).
  destruct (MediatorAgent.chat_messages rest w) as [[more|e] w']; cbn in *; by subst.
Qed.

Lemma chat_messages_result chat_history w1 w2 :
  fst (MediatorAgent.chat_messages chat_history w1)
  = fst (MediatorAgent.chat_messages chat_history w2).
Proof.
  revert w1 w2. induction chat_history as [|msg rest IH]; intros w1 w2; [done|].
  cbn. unfold bind.
  destruct (row_get "user_message" msg); cbn; [|done].
  destruct (row_get "bot_reply" msg); cbn; [|done].
  specialize (IH w1 w2).
  destruct (MediatorAgent.chat_messages rest w1) as [[m1|e1] w1'],
           (MediatorAgent.chat_messages rest w2) as [[m2|e2] w2']; cbn in *; congruence.
Qed.

(** C1. With an empty [media_urls], whatever the user data, the
    history, the current message and the model's answer are,
    [analyze_conversation] returns no decision that begins with TRUE:
    it returns a decision that is not Ready, or it raises. *)
Theorem C1_no_ready_without_attachment env user_data chat_history user_message w :
  match fst (MediatorAgent.analyze_conversation env user_data chat_history
               user_message [] w) with
  | Ok decision => is_ready decision = false
  | Raise _ => True
  end.
Proof.
  unfold MediatorAgent.analyze_conversation, bind.
  destruct (MediatorAgent.chat_messages chat_history w) as [[lines|e] w1]; [|done].
  unfold agent_run, bind, next_tick, lookup_or.
  destruct (model_reply env (tick w1) _) as [reply|]; [|done].
  cbn. unfold is_ready.
  destruct (Py.startswith (Py.strip reply) "TRUE") eqn:Hready; cbn; done.
Qed.

(** The decision is the model's answer, stripped, unless that answer
    says TRUE for a turn without attachment. *)
Lemma analyze_conversation_run env user_data chat_history user_message media_urls w :
  MediatorAgent.analyze_conversation env user_data chat_history user_message media_urls w
  = match fst (MediatorAgent.chat_messages chat_history w) with
    | Raise e => (Raise e, w)
    | Ok lines =>
        match model_reply env (tick w)
                (MediatorAgent.analysis_prompt user_data (Py.join nl lines)
                   user_message media_urls) with
        | None => (Raise ModelError, set_tick S w)
        | Some reply =>
            (Ok (if Py.startswith (Py.strip reply) "TRUE" && negb (list_truthy media_urls)
                 then "FALSE_1" else Py.strip reply),
             set_tick S w)
        end
    end.
Proof.
  unfold MediatorAgent.analyze_conversation, bind.
  pose proof (chat_messages_pure chat_history w) as Hw.
  destruct (MediatorAgent.chat_messages chat_history w) as [[lines|e] w1];
    cbn in Hw; subst w1; [|done].
  cbn. unfold agent_run, bind, next_tick, lookup_or.
  destruct (model_reply env (tick w) _) as [reply|]; [|done].
  cbn. by destruct (Py.startswith (Py.strip reply) "TRUE" && negb (list_truthy media_urls)).
Qed.

(** C6, as the claim states it, fails: two calls, one after the other,
    with the same user data, history, message and attachments return
    Ready and then MissingInfo when the model answers them so. *)
Lemma C6_same_input_two_decisions :
  let classify :=
    MediatorAgent.analyze_conversation fickle_env [] [] "hello" ["http://files/cv.pdf"] in
  fst (classify (world_of init_db))
    = Ok "TRUE, recruiter@acme.com, Application, http://files/cv.pdf"
  ∧ fst (classify (snd (classify (world_of init_db)))) = Ok "FALSE_2".
Proof. split; vm_compute; reflexivity. Qed.

(** C6, amended.  [analyze_conversation] writes nothing: it leaves the
    tables, the files, the sent messages, the requests, the mails and
    the collection as they are.  Its decision is a function of its four
    arguments and of the model's answer: two calls with the same
    arguments that the model answers alike return the same decision. *)
Theorem C6_decision_follows_model_reply env1 env2 user_data chat_history user_message
    media_urls w1 w2 :
  (∀ prompt, model_reply env1 (tick w1) prompt = model_reply env2 (tick w2) prompt) →
  let run1 := MediatorAgent.analyze_conversation env1 user_data chat_history
                user_message media_urls w1 in
  let run2 := MediatorAgent.analyze_conversation env2 user_data chat_history
                user_message media_urls w2 in
  fst run1 = fst run2
  ∧ forget_tick (snd run1) = forget_tick w1
  ∧ forget_tick (snd run2) = forget_tick w2.
Proof.
  intros Hreply. cbn zeta.
  rewrite !analyze_conversation_run.
  rewrite (chat_messages_result chat_history w1 w2).
  destruct (fst (MediatorAgent.chat_messages chat_history w2)) as [lines|e]; [|done].
  rewrite Hreply.
  by destruct (model_reply env2 (tick w2) _).
Qed.

Lemma C6_decision_follows_model_reply_witness :
  let env := env_up (λ _ _, Some " FALSE_2 ") "" in
  let w1 := world_of init_db in
  let w2 := set_tick (λ _, 7%nat) (world_of init_db) in
  fst (MediatorAgent.analyze_conversation env [] [] "hello" [] w1)
  = fst (MediatorAgent.analyze_conversation env [] [] "hello" [] w2).
Proof.
  cbn zeta.
  exact (proj1 (C6_decision_follows_model_reply
                  (env_up (λ _ _, Some " FALSE_2 ") "") (env_up (λ _ _, Some " FALSE_2 ") "")
                  [] [] "hello" [] (world_of init_db)
                  (set_tick (λ _, 7%nat) (world_of init_db))
                  (λ _, eq_refl))).
Defined.

(** ** What the handler returns *)

(** When nothing is asked of an exception, a bind is followed through
    whatever its first part returned. *)
Lemma wp_bind_any {A B} (m : M B) (k : B → M A) (Q : A → World → Prop) w :
  (∀ b w', wp (k b) Q (λ _ _, True) w') → wp (bind m k) Q (λ _ _, True) w.
Proof.
  intros Hk. apply wp_bind. unfold wp at 1.
  by destruct (m w) as [[b|e] w'].
Qed.

Lemma wp_try_any {A} (body : M A) (handler : Exn → M A) (Q : A → World → Prop) w :
  (∀ w', wp body Q (λ _ _, True) w') →
  (∀ e w', wp (handler e) Q (λ _ _, True) w') →
  wp (try_except body handler) Q (λ _ _, True) w.
Proof.
  intros Hb Hh. apply wp_try. eapply wp_mono; [apply Hb | done | ].
  intros e w' _. apply Hh.
Qed.

(** Inside its [try] block the handler returns the empty TwiML
    document, or leaves the block by its end. *)
Lemma identified_branch_returns env body from_number media_urls w :
  wp (identified_branch env body from_number media_urls)
     (λ returned _, returned = None ∨ returned = Some TWIML_ACK) (λ _ _, True) w.
Proof.
  unfold identified_branch.
  apply wp_bind_any; intros sql_query w1.
  apply wp_bind_any; intros user_result w2.
  apply wp_bind_any; intros [|] w3.
  - apply wp_bind_any; intros _ w4. apply wp_ret. by right.
  - apply wp_bind_any; intros user_data w4.
    apply wp_bind_any; intros id w5.
    apply wp_bind_any; intros user_id w6.
    apply wp_bind_any; intros active_chat_query w7.
    apply wp_bind_any; intros active_chat_result w8.
    apply wp_bind_any; intros _ w9. apply wp_ret. by left.
Qed.

(** C8. Whatever the request is and whichever collaborator fails
    (form parsing, model, database, Twilio, download, disk, PDF
    reading, collection), [whatsapp_webhook] raises nothing: it returns
    the empty TwiML document. *)
Theorem C8_webhook_always_acknowledges env request w :
  fst (whatsapp_webhook env request w) = Ok TWIML_ACK.
Proof.
  assert (wp (whatsapp_webhook env request)
            (λ response _, response = TWIML_ACK) (λ _ _, False) w) as Hwp.
  { unfold whatsapp_webhook. apply wp_try.
    eapply wp_mono with (Q := λ response _, response = TWIML_ACK) (E := λ _ _, True);
      [ | done | by intros; apply wp_ret ].
    apply wp_bind_any; intros form_dict w1.
    apply wp_bind_any; intros num_media w2.
    apply wp_bind.
    eapply wp_mono with (Q := λ returned _, returned = None ∨ returned = Some TWIML_ACK)
                        (E := λ _ _, True).
    - destruct (str_truthy _).
      + apply wp_try_any.
        * intros w3. apply identified_branch_returns.
        * intros e w3. apply wp_bind_any; intros _ w4. apply wp_ret. by left.
      + apply wp_bind_any; intros _ w3. apply wp_ret. by left.
    - intros returned w3 [-> | ->]; by apply wp_ret.
    - done. }
  unfold wp in Hwp.
  by destruct (whatsapp_webhook env request w) as [[response|e] w']; cbn; subst.
Qed.

(** ** Frames: what an operation leaves alone *)

Section Stays.

Context {X : Type} (f : World → X).

Lemma stays_ret {A} (a : A) : stays f (ret a).
Proof. done. Qed.

Lemma stays_raise {A} (e : Exn) : stays f (raise (A:=A) e).
Proof. done. Qed.

Lemma stays_bind {A B} (m : M A) (k : A → M B) :
  stays f m → (∀ a, stays f (k a)) → stays f (bind m k).
Proof.
  intros Hm Hk w. unfold bind. specialize (Hm w).
  destruct (m w) as [[a|e] w']; cbn in *; [|done].
  by rewrite Hk.
Qed.

Lemma stays_try {A} (body : M A) (handler : Exn → M A) :
  stays f body → (∀ e, stays f (handler e)) → stays f (try_except body handler).
Proof.
  intros Hb Hh w. unfold try_except. specialize (Hb w).
  destruct (body w) as [[a|e] w']; cbn in *; [done|].
  by rewrite Hh.
Qed.

Lemma stays_lookup_or {A} e (o : option A) : stays f (lookup_or e o).
Proof. by destruct o. Qed.

Lemma stays_get_world : stays f get_world.
Proof. done. Qed.

Lemma wp_stays {A} (m : M A) (Q : A → World → Prop) (E : Exn → World → Prop) w :
  stays f m →
  (∀ a w', f w' = f w → Q a w') → (∀ e w', f w' = f w → E e w') →
  wp m Q E w.
Proof.
  intros Hm HQ HE. unfold wp. specialize (Hm w).
  destruct (m w) as [[a|e] w']; cbn in Hm; auto.
Qed.

(** The parts that the clock and the collection are no part of. *)
Hypothesis f_tick : ∀ g w, f (set_tick g w) = f w.
Hypothesis f_collection : ∀ g w, f (set_collection g w) = f w.

Lemma stays_next_tick : stays f next_tick.
Proof. intros w. apply f_tick. Qed.

Lemma stays_agent_run env prompt : stays f (agent_run env prompt).
Proof. apply stays_bind; [apply stays_next_tick | intros; apply stays_lookup_or]. Qed.

Lemma stays_chat_messages chat_history : stays f (MediatorAgent.chat_messages chat_history).
Proof. intros w. by rewrite chat_messages_pure. Qed.

Lemma stays_analyze_conversation env user_data chat_history user_message media_urls :
  stays f (MediatorAgent.analyze_conversation env user_data chat_history
             user_message media_urls).
Proof.
  apply stays_bind; [apply stays_chat_messages | intros lines].
  cbn zeta. apply stays_bind; [apply stays_agent_run | intros content].
  cbn zeta. by case_match.
Qed.

Lemma stays_collection_delete env filename :
  stays f (PDFProcessingAgent.collection_delete env filename).
Proof.
  apply stays_bind; [apply stays_next_tick | intros k].
  destruct (chroma_up env k); [|done]. intros w. apply f_collection.
Qed.

Lemma stays_collection_add env filename chunk_id chunk_text :
  stays f (PDFProcessingAgent.collection_add env filename chunk_id chunk_text).
Proof.
  apply stays_bind; [apply stays_next_tick | intros k].
  destruct (chroma_up env k); [|done]. intros w. apply f_collection.
Qed.

Lemma stays_add_chunks env filename chunks :
  ∀ chunk_id added, stays f (PDFProcessingAgent.add_chunks env filename chunk_id chunks added).
Proof.
  induction chunks as [|chunk rest IH]; intros chunk_id added; [done|].
  cbn. apply stays_bind; [|intros; apply IH].
  apply stays_try; [|done].
  apply stays_bind; [apply stays_collection_add | done].
Qed.

Lemma stays_process_pdf env file_path :
  stays f (PDFProcessingAgent.process_pdf env file_path).
Proof.
  apply stays_try; [|done].
  apply stays_bind; [|intros content].
  { apply stays_bind; [apply stays_get_world | intros; apply stays_lookup_or]. }
  apply stays_bind; [apply stays_lookup_or | intros pages].
  cbn zeta. apply stays_bind; [|intros _].
  { apply stays_try; [apply stays_collection_delete | done]. }
  apply stays_bind; [apply stays_add_chunks | intros added].
  by destruct (_ <? _)%nat.
Qed.

Lemma stays_query_collection env query_text :
  stays f (PDFProcessingAgent.query_collection env query_text).
Proof.
  apply stays_try; [|done].
  apply stays_bind; [apply stays_next_tick | intros k].
  apply stays_bind; [apply stays_get_world | intros w'].
  by destruct (chroma_up env k).
Qed.

Lemma stays_generate_email_content env resume_chunks job_subject recipient_email :
  stays f (SummaryAgent.generate_email_content env resume_chunks job_subject
             recipient_email).
Proof. apply stays_try; [cbn zeta; apply stays_agent_run | done]. Qed.

Lemma stays_generate_email_body env subject attachment_path recipient_email :
  stays f (generate_email_body env subject attachment_path recipient_email).
Proof.
  apply stays_try; [|done].
  destruct attachment_path as [path|]; [|done].
  destruct (negb (str_truthy path)); [done|].
  apply stays_bind; [apply stays_process_pdf | intros processing_result].
  destruct (status_is "success" processing_result).
  - cbn zeta. apply stays_bind; [apply stays_query_collection | intros documents].
    destruct documents as [|[|chunk chunks] ?]; try done.
    apply stays_generate_email_content.
  - destruct (_ && _); [apply stays_generate_email_content | done].
Qed.

End Stays.

Section StaysMore.

Context {X : Type} (f : World → X).
Hypothesis f_tick : ∀ g w, f (set_tick g w) = f w.
Hypothesis f_mails : ∀ g w, f (set_mails g w) = f w.
Hypothesis f_files : ∀ g w, f (set_files g w) = f w.
Hypothesis f_fetched : ∀ g w, f (set_fetched g w) = f w.
Hypothesis f_outbox : ∀ g w, f (set_outbox g w) = f w.

Lemma stays_send_email env recipient_email subject body attachment_path :
  stays f (send_email env recipient_email subject body attachment_path).
Proof.
  apply stays_try; [|done]. cbn zeta.
  apply stays_bind; [apply stays_get_world | intros w0].
  apply stays_bind; [intros w; apply f_mails | intros _].
  apply stays_bind; [by apply stays_agent_run | done].
Qed.

Lemma stays_write_file env path content : stays f (write_file env path content).
Proof.
  apply stays_bind; [by apply stays_next_tick | intros k].
  destruct (disk_write env k path); [intros w; apply f_files | done |].
  apply stays_bind; [intros w; apply f_files | done].
Qed.

Lemma stays_download_file env url local_path : stays f (download_file env url local_path).
Proof.
  apply stays_try; [|done].
  apply stays_bind; [by apply stays_next_tick | intros k].
  apply stays_bind; [intros w; apply f_fetched | intros _].
  apply stays_bind; [by destruct (http_get env k url) | intros content].
  apply stays_bind; [apply stays_write_file | done].
Qed.

Lemma stays_os_unlink path : stays f (os_unlink path).
Proof.
  apply stays_bind; [apply stays_get_world | intros w0].
  destruct (files w0 !! path); [intros w; apply f_files | done].
Qed.

Lemma stays_execute_query env q :
  (∀ g w, f (set_db g w) = f w) → stays f (execute_query env q).
Proof.
  intros f_db. apply stays_bind; [by apply stays_next_tick | intros k].
  destruct (sqlite_up env k); [|done].
  intros w. cbv beta. destruct (run_query q (db w)) as [r st].
  cbn [snd]. apply f_db.
Qed.

Lemma stays_messages_create env body to : stays f (messages_create env body to).
Proof.
  apply stays_bind; [by apply stays_next_tick | intros k].
  destruct (twilio_up env k); [intros w; apply f_outbox | done].
Qed.

End StaysMore.

(** ** Operations that never raise *)

Lemma total_try {A} (body : M A) (handler : Exn → M A) :
  (∀ e, total (handler e)) → total (try_except body handler).
Proof.
  intros Hh w. unfold try_except.
  destruct (body w) as [[a|e] w']; [by exists a | apply Hh].
Qed.

Lemma total_ret {A} (a : A) : total (ret a).
Proof. intros w. by exists a. Qed.

Lemma total_download_file env url local_path : total (download_file env url local_path).
Proof. apply total_try; intros; apply total_ret. Qed.

Lemma total_send_email env recipient_email subject body attachment_path :
  total (send_email env recipient_email subject body attachment_path).
Proof. apply total_try; intros; apply total_ret. Qed.

Lemma total_generate_email_body env subject attachment_path recipient_email :
  total (generate_email_body env subject attachment_path recipient_email).
Proof. apply total_try; intros; apply total_ret. Qed.

Lemma wp_total_stays {A X} (f : World → X) (m : M A) (Q : A → World → Prop) E w :
  total m → stays f m → (∀ a w', f w' = f w → Q a w') → wp m Q E w.
Proof.
  intros Ht Hs HQ. unfold wp. destruct (Ht w) as [a Ha]. specialize (Hs w).
  destruct (m w) as [[a'|e] w']; cbn in *; [by apply HQ | done].
Qed.

(** ** The chats table keeps one active chat for a user *)

Section Keeps.

Context (P I : Store → Prop).

Lemma keeps_stays {A} (m : M A) : stays db m → keeps I m.
Proof.
  intros Hs w HI. cbn in HI. apply (wp_stays db); [done | |]; intros ? w' ->; done.
Qed.

Lemma keeps_bind {A B} (J : Store → Prop) (m : M A) (k : A → M B) :
  keeps_from P J m → (∀ a, keeps_from J I (k a)) →
  (∀ st, J st → I st) →
  keeps_from P I (bind m k).
Proof.
  intros Hm Hk HJ w HP. apply wp_bind.
  eapply wp_mono; [by apply Hm | |]; cbn.
  - intros a w' HJ'. by apply Hk.
  - intros e w'. apply HJ.
Qed.

Lemma keeps_try {A} (J : Store → Prop) (body : M A) (handler : Exn → M A) :
  keeps_from P J body → (∀ e, keeps_from J I (handler e)) →
  (∀ st, J st → I st) →
  keeps_from P I (try_except body handler).
Proof.
  intros Hb Hh HJ w HP. apply wp_try.
  eapply wp_mono; [by apply Hb | |]; cbn.
  - intros a w'. apply HJ.
  - intros e w' HJ'. by apply Hh.
Qed.

Lemma keeps_ret {A} (a : A) : keeps I (ret a).
Proof. by intros w HI. Qed.

(** A model call that stands for a statement: the statement is what
    the rest of the handler goes on with. *)
Lemma keeps_bind_statement {B} env prompt (q : Query) (k : Query → M B) :
  keeps_from P I (k q) →
  (∀ st, P st → I st) →
  keeps_from P I (bind (bind (agent_run env prompt) (λ _, ret q)) k).
Proof.
  intros Hk HPI w HP. apply wp_bind, wp_bind, wp_agent_run.
  - intros r _. apply wp_ret. by apply Hk.
  - intros _. by apply HPI.
Qed.

End Keeps.

Lemma keeps_seq_bind {A B} (I : Store → Prop) (m : M A) (k : A → M B) :
  keeps I m → (∀ a, keeps I (k a)) → keeps I (bind m k).
Proof. intros Hm Hk. by apply keeps_bind with (J := I). Qed.

Lemma keeps_seq_try {A} (I : Store → Prop) (body : M A) (handler : Exn → M A) :
  keeps I body → (∀ e, keeps I (handler e)) → keeps I (try_except body handler).
Proof. intros Hb Hh. by apply keeps_try with (J := I). Qed.

Lemma filter_end_chat_le user_id chat_id (l : list Chat) :
  (length (List.filter (is_active_chat_of user_id) (end_chat_row chat_id <$> l))
   ≤ length (List.filter (is_active_chat_of user_id) l))%nat.
Proof.
  induction l as [|c l IH]; [done|]. cbn.
  unfold end_chat_row at 1.
  destruct (c_id c =? chat_id).
  - unfold is_active_chat_of at 1. cbn. rewrite andb_false_r.
    destruct (is_active_chat_of user_id c); cbn; lia.
  - destruct (is_active_chat_of user_id c); cbn; lia.
Qed.

(** Every statement but the insertion of a chat keeps the invariant. *)
Lemma run_query_keeps q st :
  adds_no_chat q → one_active_chat st → one_active_chat (snd (run_query q st)).
Proof.
  intros Hq HI. destruct q; try done.
  intros uid. cbn. etrans; [apply filter_end_chat_le | apply HI].
Qed.

(** A chat is inserted for a user without an active chat. *)
Lemma insert_chat_keeps user_id st :
  one_active_chat st →
  List.filter (is_active_chat_of user_id) (chats st) = [] →
  one_active_chat (snd (run_query (InsertChat user_id) st)).
Proof.
  intros HI Hnone uid. cbn. rewrite List.filter_app, length_app. cbn.
  unfold is_active_chat_of at 2. cbn. rewrite andb_true_r.
  destruct (Z.eqb_spec user_id uid) as [->|Hne]; cbn.
  - rewrite Hnone. cbn. lia.
  - specialize (HI uid). lia.
Qed.

(** The look-up of the active chat comes back empty only when the user
    has no active chat. *)
Lemma select_active_chat_empty user_id st :
  result_truthy (fst (run_query (SelectActiveChat user_id) st)) = false →
  List.filter (is_active_chat_of user_id) (chats st) = [].
Proof.
  cbn. destruct (List.filter (is_active_chat_of user_id) (chats st)) as [|c l] eqn:Hf;
    [done|].
  intros Hempty. exfalso.
  assert (rev (c :: l) ≠ []) as Hrev.
  { intros Hr. apply (f_equal length) in Hr. rewrite length_rev in Hr. done. }
  destruct (rev (c :: l)); [done|]. done.
Qed.

Lemma keeps_execute_query env q :
  adds_no_chat q → keeps one_active_chat (execute_query env q).
Proof.
  intros Hq w HI. apply wp_execute_query; intros _; cbn; [|done].
  by apply run_query_keeps.
Qed.

Ltac head_of t :=
  lazymatch t with
  | ?g _ => head_of g
  | _ => t
  end.

(** Frames of the tables, by the structure of the operation. *)
Ltac stays_tac :=
  lazymatch goal with
  | |- stays _ (bind _ _) => apply stays_bind; [stays_tac | intros ?; stays_tac]
  | |- stays _ (try_except _ _) => apply stays_try; [stays_tac | intros ?; stays_tac]
  | |- stays _ (ret _) => apply stays_ret
  | |- stays _ (raise _) => apply stays_raise
  | |- stays _ (lookup_or _ _) => apply stays_lookup_or
  | |- stays _ get_world => apply stays_get_world
  | |- stays _ next_tick => apply stays_next_tick; done
  | |- stays _ (agent_run _ _) => apply stays_agent_run; done
  | |- stays _ (messages_create _ _ _) => apply stays_messages_create; done
  | |- stays _ (execute_query _ _) => apply stays_execute_query; done
  | |- stays _ (download_file _ _ _) => apply stays_download_file; done
  | |- stays _ (send_email _ _ _ _ _) => apply stays_send_email; done
  | |- stays _ (os_unlink _) => apply stays_os_unlink; done
  | |- stays _ (generate_email_body _ _ _ _) => apply stays_generate_email_body; done
  | |- stays _ (MediatorAgent.analyze_conversation _ _ _ _ _) =>
      apply stays_analyze_conversation; done
  | |- stays _ (match ?x with _ => _ end) => destruct x; stays_tac
  | |- stays _ (let _ := _ in _) => cbn zeta; stays_tac
  | |- stays _ ?m => let h := head_of m in unfold h; stays_tac
  end.

Lemma save_and_reply_keeps env chat_id user_id body bot_reply from_number :
  keeps one_active_chat (save_and_reply env chat_id user_id body bot_reply from_number).
Proof.
  apply keeps_seq_bind; [by apply keeps_execute_query | intros _].
  apply keeps_stays. stays_tac.
Qed.

Lemma ready_branch_keeps env chat_id user_id body from_number media_urls mediator_response :
  keeps one_active_chat
    (ready_branch env chat_id user_id body from_number media_urls mediator_response).
Proof.
  unfold ready_branch. cbn zeta.
  apply keeps_seq_bind; [apply keeps_stays; stays_tac | intros part1].
  apply keeps_seq_bind; [apply keeps_stays; stays_tac | intros part2].
  apply keeps_seq_bind; [apply keeps_stays; stays_tac | intros k].
  apply keeps_seq_bind; [apply keeps_stays; stays_tac | intros downloaded].
  destruct downloaded; [|apply save_and_reply_keeps].
  apply keeps_seq_bind; [apply keeps_stays; stays_tac | intros email_body].
  apply keeps_seq_bind; [apply keeps_stays; stays_tac | intros email_sent].
  apply keeps_seq_bind; [apply keeps_stays; stays_tac | intros _].
  destruct (negb email_sent); [|apply save_and_reply_keeps].
  unfold ChatAgent.end_chat. apply keeps_bind_statement; [|done].
  apply keeps_seq_bind; [by apply keeps_execute_query | intros _].
  apply save_and_reply_keeps.
Qed.

Lemma active_chat_branch_keeps env user_data user_id active_chat_result body from_number
    media_urls :
  keeps one_active_chat
    (active_chat_branch env user_data user_id active_chat_result body from_number
       media_urls).
Proof.
  unfold active_chat_branch.
  apply keeps_seq_bind; [apply keeps_stays; stays_tac | intros chat].
  apply keeps_seq_bind; [apply keeps_stays; stays_tac | intros id].
  apply keeps_seq_bind; [apply keeps_stays; stays_tac | intros chat_id].
  unfold ChatAgent.get_chat_messages. apply keeps_bind_statement; [|done].
  apply keeps_seq_bind; [by apply keeps_execute_query | intros chat_history_result].
  apply keeps_seq_bind; [apply keeps_stays; stays_tac | intros chat_history].
  apply keeps_seq_bind; [apply keeps_stays; stays_tac | intros mediator_response].
  repeat case_match; first [apply ready_branch_keeps | apply save_and_reply_keeps].
Qed.

(** The one place where a chat is inserted: it is entered with a user
    who has no active chat. *)
Lemma new_chat_branch_keeps env user_data user_id body from_number :
  keeps_from
    (λ st, one_active_chat st ∧ List.filter (is_active_chat_of user_id) (chats st) = [])
    one_active_chat
    (new_chat_branch env user_data user_id body from_number).
Proof.
  unfold new_chat_branch, ChatAgent.create_new_chat.
  apply keeps_bind_statement; [|by intros st [? _]].
  eapply keeps_bind with (J := one_active_chat); [| |done].
  - intros w [HI Hnone]. apply wp_execute_query; intros _; cbn; [|done].
    by apply insert_chat_keeps.
  - intros new_chat_result. case_match; [|apply keeps_stays; stays_tac].
    apply keeps_seq_bind; [apply keeps_stays; stays_tac | intros id].
    apply keeps_seq_bind; [apply keeps_stays; stays_tac | intros chat_id].
    apply keeps_seq_bind; [apply keeps_stays; stays_tac | intros intro_message].
    apply save_and_reply_keeps.
Qed.

Lemma identified_branch_keeps env body from_number media_urls :
  keeps one_active_chat (identified_branch env body from_number media_urls).
Proof.
  unfold identified_branch, SQLAgent.generate_query. cbn zeta.
  apply keeps_bind_statement; [|done].
  apply keeps_seq_bind; [by apply keeps_execute_query | intros user_result].
  apply keeps_seq_bind; [apply keeps_stays; stays_tac | intros not_member].
  destruct not_member; [apply keeps_stays; stays_tac |].
  apply keeps_seq_bind; [apply keeps_stays; stays_tac | intros user_data].
  apply keeps_seq_bind; [apply keeps_stays; stays_tac | intros id].
  apply keeps_seq_bind; [apply keeps_stays; stays_tac | intros user_id].
  unfold ChatAgent.check_active_chat. apply keeps_bind_statement; [|done].
  intros w HI. apply wp_bind, wp_execute_query; intros _; [|done].
  cbn [db set_db set_tick].
  apply wp_bind.
  destruct (negb (result_truthy (fst (run_query (SelectActiveChat user_id) (db w)))))
    eqn:Hempty.
  - eapply wp_mono; [apply new_chat_branch_keeps | |].
    + cbn. split; [done|].
      apply select_active_chat_empty. by apply negb_true_iff.
    + intros ? w' HI'. by apply wp_ret.
    + done.
  - eapply wp_mono; [by apply active_chat_branch_keeps | |].
    + intros ? w' HI'. by apply wp_ret.
    + done.
Qed.

(** Every turn of the webhook keeps the invariant. *)
Lemma whatsapp_webhook_keeps env request :
  keeps one_active_chat (whatsapp_webhook env request).
Proof.
  unfold whatsapp_webhook.
  apply keeps_seq_try; [|intros; apply keeps_ret].
  apply keeps_seq_bind; [apply keeps_stays; stays_tac | intros form_dict]. cbn zeta.
  apply keeps_seq_bind; [apply keeps_stays; stays_tac | intros num_media].
  apply keeps_seq_bind; [|intros [response|]; apply keeps_ret].
  case_match.
  - apply keeps_seq_try; [apply identified_branch_keeps | intros e].
    apply keeps_stays. stays_tac.
  - apply keeps_stays. stays_tac.
Qed.



(** From the database of [init_db], no run of the server, whatever the
    requests and the failures, brings a user to two active chats. *)
Theorem serve_one_active_chat turns :
  one_active_chat (db (serve turns (world_of init_db))).
Proof.
  assert (∀ w, one_active_chat (db w) → one_active_chat (db (serve turns w))) as Hrun.
  { induction turns as [|[env request] rest IH]; intros w HI; [done|].
    cbn. apply IH.
    pose proof (whatsapp_webhook_keeps env request w HI) as Hwp. unfold wp in Hwp.
    by destruct (whatsapp_webhook env request w) as [[response|e] w']. }
  apply Hrun. intros user_id. cbn. lia.
Qed.

(** ** The turn of a non-member *)

(** One step of a [wp] goal, by the head of the operation. *)
Ltac wp_step :=
  cbn beta;
  lazymatch goal with
  | |- wp (bind _ _) _ _ _ => apply wp_bind
  | |- wp (ret _) _ _ _ => apply wp_ret
  | |- wp (raise _) _ _ _ => apply wp_raise
  | |- wp (try_except _ _) _ _ _ => apply wp_try
  | |- wp (lookup_or _ (Some _)) _ _ _ => apply wp_ret
  | |- wp (lookup_or _ (row_get "id" (user_row ?u))) _ _ _ =>
      change (row_get "id" (user_row u)) with (Some (VInt (u_id u)))
  | |- wp (lookup_or _ (row_get "id" (chat_row ?c))) _ _ _ =>
      change (row_get "id" (chat_row c)) with (Some (VInt (c_id c)))
  | |- wp (as_int (VInt _)) _ _ _ => apply wp_ret
  | |- wp (result_item0 (ResRows (_ :: _))) _ _ _ => apply wp_ret
  | |- wp (result_rows (ResRows _)) _ _ _ => apply wp_ret
  | |- wp (lookup_or _ _) _ _ _ => apply wp_lookup_or; intros
  | |- wp (agent_run _ _) _ _ _ => apply wp_agent_run; intros
  | |- wp (execute_query _ _) _ _ _ => apply wp_execute_query; intros
  | |- wp (messages_create _ _ _) _ _ _ => apply wp_messages_create; intros
  | |- wp next_tick _ _ _ => apply wp_next_tick
  | |- wp get_world _ _ _ => apply wp_get_world
  | |- wp (modify _) _ _ _ => apply wp_modify
  | |- wp (let _ := _ in _) _ _ _ => cbn zeta
  end.

(** The membership test of the handler on the result of the look-up. *)
Lemma not_member_test st phone w :
  (if negb (result_truthy (fst (run_query (SelectUserByPhone phone) st)))
   then ret true
   else bind (result_item0 (fst (run_query (SelectUserByPhone phone) st)))
          (λ user, ret (negb (truthy (default (VInt 0) (row_get "is_member" user)))))) w
  = (Ok (negb (member_of st phone)), w).
Proof.
  unfold member_of. cbn. by destruct (known_users st phone) as [|u l].
Qed.

Lemma wp_of_run {A} (m : M A) (Q : A → World → Prop) E w a w' :
  m w = (Ok a, w') → Q a w' → wp m Q E w.
Proof. unfold wp. by intros ->. Qed.

(** A service that failed is not up. *)
Ltac not_up :=
  let Hm := fresh in let Hd := fresh in let Ht := fresh in
  intros (Hm & Hd & Ht);
  first
    [ congruence
    | match goal with
      | H : model_reply ?env ?k ?p = None |- _ =>
          specialize (Hm k p); rewrite H in Hm; by destruct Hm
      end ].

(** The inner block on the message of a non-member: the tables stay,
    and nothing is sent but the rejection, unless a service fails. *)
Lemma identified_branch_non_member env body from_number media_urls w :
  member_of (db w) (Py.replace "whatsapp:" "" from_number) = false →
  wp (identified_branch env body from_number media_urls)
     (λ _ w', db w' = db w
              ∧ outbox w' = outbox w ++ [(from_number, non_member_message)])
     (λ _ w', db w' = db w ∧ outbox w' = outbox w ∧ ¬ services_up env) w.
Proof.
  intros Hnon. unfold identified_branch, SQLAgent.generate_query. cbn zeta.
  wp_step. wp_step. wp_step; [|by cbn; repeat split; try done; not_up].
  wp_step. wp_step. wp_step; [|by cbn; repeat split; try done; not_up].
  cbn [db set_db set_tick run_query snd fst].
  wp_step.
  eapply wp_of_run; [apply not_member_test|].
  cbn [db set_db set_tick]. rewrite Hnon. cbn [negb].
  wp_step. wp_step; [|by cbn; repeat split; try done; not_up].
  wp_step. done.
Qed.



(** ** The Ready turn on concrete runs *)

(** C2. The claim holds of a failed download, and fails of the send:
    the branch that closes the chat and confirms is taken when
    [send_email] returned [False].  On the Ready turn of an active chat
    whose e-mail the sending agent reports as sent, the chat stays
    active and the reply sent and stored is the send-error text; when
    the agent reports a failure, the chat is ended and the reply sent
    and stored is the confirmation. *)
Theorem C2_send_outcome_is_inverted :
  let sent := scripted_env ready_answer "email sent successfully" DiskOk in
  let refused := scripted_env ready_answer "error: SMTP refused the message" DiskOk in
  let after env := snd (whatsapp_webhook env application_request (world_of chatting_db)) in
  fst (send_email sent "recruiter@acme.com" "Application for Backend Engineer" ""
         (Some (temp_file_of "20250101_120000")) (world_of chatting_db)) = Ok true
  ∧ c_status <$> chats (db (after sent)) = [Active]
  ∧ m_bot_reply <$> messages (db (after sent)) = ["Welcome!"; send_error_message]
  ∧ outbox (after sent) = [(member_number, send_error_message)]
  ∧ fst (send_email refused "recruiter@acme.com" "Application for Backend Engineer" ""
           (Some (temp_file_of "20250101_120000")) (world_of chatting_db)) = Ok false
  ∧ c_status <$> chats (db (after refused)) = [Ended]
  ∧ m_bot_reply <$> messages (db (after refused))
    = ["Welcome!"; confirmation_message "recruiter@acme.com"]
  ∧ outbox (after refused) = [(member_number, confirmation_message "recruiter@acme.com")].
Proof. cbn zeta. repeat split; vm_compute; reflexivity. Qed.

(** The part of C2 about the download holds: when the attachment
    cannot be fetched, the chat stays active and the reply names the
    download. *)
Lemma failed_download_keeps_chat_active :
  let env := scripted_env ready_answer "email sent successfully" DiskOpenFails in
  let w' := snd (whatsapp_webhook env application_request (world_of chatting_db)) in
  c_status <$> chats (db w') = [Active]
  ∧ m_bot_reply <$> messages (db w') = ["Welcome!"; download_error_message]
  ∧ outbox w' = [(member_number, download_error_message)].
Proof. cbn zeta. repeat split; vm_compute; reflexivity. Qed.

(** C5. The claim fails on the path it names last: when the write of
    the downloaded bytes breaks off, [download_file] returns [False]
    and the handler answers with the download error without an
    [os.unlink]; the partly written file stays in /tmp. *)
Theorem C5_partial_download_stays_on_disk :
  let env := scripted_env ready_answer "email sent successfully"
               (DiskWriteFails "%PDF-1.") in
  let w' := snd (whatsapp_webhook env application_request (world_of chatting_db)) in
  fst (download_file env "https://files.example/cv.pdf" (temp_file_of "20250101_120000")
         (world_of chatting_db)) = Ok false
  ∧ files (world_of chatting_db) = ∅
  ∧ files w' !! temp_file_of "20250101_120000" = Some "%PDF-1."
  ∧ outbox w' = [(member_number, download_error_message)].
Proof. cbn zeta. repeat split; vm_compute; reflexivity. Qed.


(** ** The turn of a member when every service answers *)

Lemma stays_execute_query_log env q :
  adds_no_message q → stays turn_log (execute_query env q).
Proof.
  intros Hq w. unfold execute_query, bind, next_tick.
  destruct (sqlite_up env (tick w)); [|done].
  destruct q; try done.
Qed.

Section ServicesUp.

Context (env : Env).
Hypothesis Hup : services_up env.
Hypothesis Hwf : ready_replies_well_formed env.

(** A failure of a service contradicts [services_up]. *)
Ltac up_tac :=
  exfalso;
  let Hm := fresh in let Hd := fresh in let Ht := fresh in
  pose proof Hup as (Hm & Hd & Ht);
  first
    [ congruence
    | match goal with
      | H : model_reply env ?k ?p = None |- _ =>
          specialize (Hm k p); rewrite H in Hm; by destruct Hm
      end ].

(** Steps, as long as the next operation is a primitive one. *)
Ltac wp_run := repeat (wp_step; try by up_tac).

Lemma save_and_reply_exact chat_id user_id body bot_reply from_number L w :
  turn_log w = L →
  wp (save_and_reply env chat_id user_id body bot_reply from_number)
     (λ _ w', one_turn L from_number body w') (λ _ _, False) w.
Proof.
  intros <-. unfold save_and_reply, ChatAgent.save_message.
  wp_step. wp_step; [|up_tac]. wp_step; [|up_tac].
  eexists _, _. by cbn.
Qed.

Lemma total_agent_run prompt : total (agent_run env prompt).
Proof.
  intros w. unfold agent_run, bind, next_tick, lookup_or. cbn.
  destruct Hup as (Hm & _). destruct (Hm (tick w) prompt) as [r ->]. by eexists.
Qed.

Lemma total_unlink path : total (try_except (os_unlink path) (λ _, ret ())).
Proof. apply total_try; intros; apply total_ret. Qed.

(** A step that raises nothing and leaves the log of the turn. *)
Ltac frame_step :=
  apply (wp_total_stays turn_log);
  [ first [ apply total_download_file | apply total_generate_email_body
          | apply total_send_email | apply total_unlink | apply total_agent_run
          | apply total_ret ]
  | stays_tac
  | ].

(** Going on from the world a frame step ended in. *)
Ltac next_world w Hlog :=
  let Hl := fresh "Hlog" in
  intros w Hl; rewrite Hlog in Hl; clear Hlog; rename Hl into Hlog.

Lemma ready_branch_exact chat_id user_id body from_number media_urls response L w :
  turn_log w = L →
  (3 ≤ length (Py.split "," response))%nat →
  wp (ready_branch env chat_id user_id body from_number media_urls response)
     (λ _ w', one_turn L from_number body w') (λ _ _, False) w.
Proof.
  intros Hlog Hparts. unfold ready_branch.
  destruct (Py.split "," response) as [|part0 [|part1 [|part2 rest]]];
    cbn in Hparts; try lia.
  cbn zeta. cbn [lookup list_lookup lookup_or].
  do 6 wp_step.
  assert (turn_log (set_tick S w) = L) as Hlog' by done.
  revert Hlog'. generalize (set_tick S w). generalize (tick w). clear w Hlog.
  intros k w Hlog.
  wp_step.
  apply wp_mono with (Q := λ _ w', turn_log w' = L) (E := λ _ _, False); [| |done].
  { destruct media_urls as [|url more]; [by wp_step|].
    frame_step. intros _ w1 Hlog1. by rewrite Hlog1. }
  clear w Hlog. intros downloaded w Hlog.
  destruct downloaded; [|by apply save_and_reply_exact].
  wp_step. frame_step. intros email_body. next_world w1 Hlog.
  wp_step. frame_step. intros email_sent. next_world w2 Hlog.
  wp_step. frame_step. intros _. next_world w3 Hlog.
  destruct (negb email_sent); [|by apply save_and_reply_exact].
  unfold ChatAgent.end_chat.
  wp_step. wp_step. frame_step. intros _. next_world w4 Hlog.
  wp_step. wp_step. wp_step; [|up_tac].
  apply save_and_reply_exact. by rewrite <- Hlog.
Qed.

Lemma chat_messages_of_rows (rows : list Message) w :
  ∃ lines, MediatorAgent.chat_messages (message_row <$> rows) w = (Ok lines, w).
Proof.
  induction rows as [|m rows [lines IH]]; [by eexists|].
  cbn. unfold bind. cbn. rewrite IH. by eexists.
Qed.

Lemma active_chat_branch_exact user_data user_id chat more body from_number
    media_urls L w :
  turn_log w = L →
  wp (active_chat_branch env user_data user_id (ResRows (chat_row <$> chat :: more))
        body from_number media_urls)
     (λ _ w', one_turn L from_number body w') (λ _ _, False) w.
Proof.
  intros Hlog. unfold active_chat_branch, ChatAgent.get_chat_messages.
  cbn [fmap list_fmap]. wp_run.
  cbn [run_query fst snd]. wp_run.
  match goal with
  | |- wp _ _ _ ?w1 =>
      assert (turn_log w1 = L) as Hlog' by done; revert Hlog'; generalize w1
  end.
  generalize (List.filter (λ m, m_chat_id m =? c_id chat) (messages (db (set_tick S w)))).
  clear dependent w. intros rows w Hlog.
  destruct (chat_messages_of_rows rows w) as [lines Hlines].
  pose proof Hup as (Hmodel & _).
  destruct (Hmodel (tick w)
              (MediatorAgent.analysis_prompt user_data (Py.join nl lines) body media_urls))
    as [reply Hreply].
  eapply wp_of_run.
  { rewrite analyze_conversation_run, Hlines. cbn [fst]. rewrite Hreply. reflexivity. }
  pose proof (Hwf _ _ _ Hreply) as Hparts.
  assert (turn_log (set_tick S w) = L) as Hlog' by done.
  revert Hlog'. generalize (set_tick S w). clear w Hlog Hlines Hreply.
  intros w Hlog. cbn beta.
  destruct (Py.startswith (Py.strip reply) "TRUE" && negb (list_truthy media_urls))
    eqn:Hoverruled.
  - change (Py.startswith "FALSE_1" "TRUE") with false. cbn iota.
    change ("FALSE_1" =? "FALSE_1")%string with true. cbn iota.
    by apply save_and_reply_exact.
  - destruct (Py.startswith (Py.strip reply) "TRUE") eqn:Hready.
    + apply ready_branch_exact; [done|]. by apply Hparts.
    + repeat case_match; by apply save_and_reply_exact.
Qed.

Lemma new_chat_branch_exact user_data user_id body from_number L w :
  turn_log w = L →
  wp (new_chat_branch env user_data user_id body from_number)
     (λ _ w', one_turn L from_number body w') (λ _ _, False) w.
Proof.
  intros Hlog. unfold new_chat_branch, ChatAgent.create_new_chat,
    IntroAgent.generate_intro_message.
  wp_run. cbn [run_query fst snd].
  change (result_truthy (ResDict [("id", VInt (chat_seq (db (set_tick S w)) + 1))])
          && result_has_id (ResDict [("id", VInt (chat_seq (db (set_tick S w)) + 1))]))
    with true.
  cbn iota. cbn [result_id]. wp_step.
  change (row_get "id" [("id", VInt (chat_seq (db (set_tick S w)) + 1))])
    with (Some (VInt (chat_seq (db (set_tick S w)) + 1))).
  wp_run.
  apply save_and_reply_exact. by rewrite <- Hlog.
Qed.

Lemma identified_branch_exact body from_number media_urls L w :
  turn_log w = L →
  member_of (db w) (Py.replace "whatsapp:" "" from_number) = true →
  wp (identified_branch env body from_number media_urls)
     (λ _ w', one_turn L from_number body w') (λ _ _, False) w.
Proof.
  intros Hlog Hmember. unfold identified_branch, SQLAgent.generate_query. cbn zeta.
  wp_run. cbn [db set_db set_tick run_query snd].
  eapply wp_of_run; [apply not_member_test|].
  cbn [db set_db set_tick]. rewrite Hmember. cbn [negb].
  unfold member_of in Hmember. cbn [fst].
  destruct (known_users (db w) (Py.replace "whatsapp:" "" from_number))
    as [|user others]; [done|].
  cbn [fmap list_fmap]. wp_run. unfold ChatAgent.check_active_chat. wp_run.
  cbn [run_query fst snd db set_db set_tick].
  match goal with
  | |- wp _ _ _ ?w1 =>
      assert (turn_log w1 = L) as Hlog' by done; revert Hlog'; generalize w1
  end.
  clear Hlog. intros w1 Hlog.
  destruct (take 1 (rev (List.filter (is_active_chat_of (u_id user)) (chats (db w)))))
    as [|chat more].
  - cbn [fmap list_fmap result_truthy list_truthy negb].
    eapply wp_mono; [by apply new_chat_branch_exact | | done].
    intros [] w2 Hturn. by wp_step.
  - cbn [fmap list_fmap result_truthy list_truthy negb].
    eapply wp_mono; [by apply (active_chat_branch_exact _ _ chat more) | | done].
    intros [] w2 Hturn. by wp_step.
Qed.

End ServicesUp.


(** ** One reply and one row at most, in every environment *)

Lemma silent_refl w : silent (turn_log w) w.
Proof. exists []. rewrite app_nil_r. split; [reflexivity | cbn; lia]. Qed.

Lemma finishing_bind_frame {A B} (m : M A) (k : A → M B) :
  stays turn_log m → (∀ a, finishing (k a)) → finishing (bind m k).
Proof.
  intros Hm Hk w. apply wp_bind, (wp_stays turn_log); [done | |].
  - intros a w' Hlog. rewrite <- Hlog. apply Hk.
  - intros e w' Hlog. rewrite <- Hlog. apply silent_refl.
Qed.

Lemma finishing_bind_statement {B} env prompt (q : Query) (k : Query → M B) :
  finishing (k q) → finishing (bind (bind (agent_run env prompt) (λ _, ret q)) k).
Proof.
  intros Hk w. do 2 wp_step. wp_step.
  - wp_step. apply (Hk (set_tick S w)).
  - apply (silent_refl (set_tick S w)).
Qed.

Lemma finishing_then_ret {A B} (m : M A) (b : B) :
  finishing m → finishing (bind m (λ _, ret b)).
Proof.
  intros Hm w. wp_step. eapply wp_mono; [apply Hm | | done].
  intros a w' Hreplied. by wp_step.
Qed.

Lemma finishing_messages_create env body to : finishing (messages_create env body to).
Proof.
  intros w. wp_step.
  - exists (to, body), []. rewrite app_nil_r. split; [reflexivity | cbn; lia].
  - apply (silent_refl (set_tick S w)).
Qed.

Lemma finishing_save_and_reply env chat_id user_id body bot_reply from_number :
  finishing (save_and_reply env chat_id user_id body bot_reply from_number).
Proof.
  intros w. unfold save_and_reply, ChatAgent.save_message.
  wp_step. wp_step; [|apply (silent_refl (set_tick S w))].
  wp_step.
  - eexists _, [_]. split; [reflexivity | cbn; lia].
  - eexists [_]. split; [reflexivity | cbn; lia].
Qed.

(** The frames of the log, with the statements that add no row. *)
Ltac log_frame :=
  first [ apply stays_execute_query_log; done | stays_tac ].

Lemma finishing_ready_branch env chat_id user_id body from_number media_urls response :
  finishing (ready_branch env chat_id user_id body from_number media_urls response).
Proof.
  unfold ready_branch. cbn zeta.
  apply finishing_bind_frame; [log_frame | intros part1].
  apply finishing_bind_frame; [log_frame | intros part2].
  apply finishing_bind_frame; [log_frame | intros k].
  apply finishing_bind_frame; [log_frame | intros downloaded].
  destruct downloaded; [|apply finishing_save_and_reply].
  apply finishing_bind_frame; [log_frame | intros email_body].
  apply finishing_bind_frame; [log_frame | intros email_sent].
  apply finishing_bind_frame; [log_frame | intros _].
  destruct (negb email_sent); [|apply finishing_save_and_reply].
  unfold ChatAgent.end_chat. apply finishing_bind_statement.
  apply finishing_bind_frame; [log_frame | intros _].
  apply finishing_save_and_reply.
Qed.

Lemma finishing_active_chat_branch env user_data user_id active_chat_result body
    from_number media_urls :
  finishing (active_chat_branch env user_data user_id active_chat_result body
               from_number media_urls).
Proof.
  unfold active_chat_branch.
  apply finishing_bind_frame; [log_frame | intros chat].
  apply finishing_bind_frame; [log_frame | intros id].
  apply finishing_bind_frame; [log_frame | intros chat_id].
  unfold ChatAgent.get_chat_messages. apply finishing_bind_statement.
  apply finishing_bind_frame; [log_frame | intros chat_history_result].
  apply finishing_bind_frame; [log_frame | intros chat_history].
  apply finishing_bind_frame; [log_frame | intros mediator_response].
  repeat case_match; first [apply finishing_ready_branch | apply finishing_save_and_reply].
Qed.

Lemma finishing_new_chat_branch env user_data user_id body from_number :
  finishing (new_chat_branch env user_data user_id body from_number).
Proof.
  unfold new_chat_branch, ChatAgent.create_new_chat.
  apply finishing_bind_statement.
  apply finishing_bind_frame; [log_frame | intros new_chat_result].
  case_match; [|apply finishing_messages_create].
  apply finishing_bind_frame; [log_frame | intros id].
  apply finishing_bind_frame; [log_frame | intros chat_id].
  apply finishing_bind_frame; [log_frame | intros intro_message].
  apply finishing_save_and_reply.
Qed.

Lemma finishing_identified_branch env body from_number media_urls :
  finishing (identified_branch env body from_number media_urls).
Proof.
  unfold identified_branch, SQLAgent.generate_query. cbn zeta.
  apply finishing_bind_statement.
  apply finishing_bind_frame; [log_frame | intros user_result].
  apply finishing_bind_frame; [log_frame | intros not_member].
  destruct not_member; [apply finishing_then_ret, finishing_messages_create|].
  apply finishing_bind_frame; [log_frame | intros user_data].
  apply finishing_bind_frame; [log_frame | intros id].
  apply finishing_bind_frame; [log_frame | intros user_id].
  unfold ChatAgent.check_active_chat. apply finishing_bind_statement.
  apply finishing_bind_frame; [log_frame | intros active_chat_result].
  apply finishing_then_ret.
  case_match; [apply finishing_new_chat_branch | apply finishing_active_chat_branch].
Qed.

(** Whatever the request and the failures, a turn of the webhook sends
    at most one message and stores at most one message row. *)
Lemma whatsapp_webhook_at_most_one env request w :
  at_most_one_turn (turn_log w) (snd (whatsapp_webhook env request w)).
Proof.
  assert (∀ L w', replied L w' → at_most_one_turn L w') as Hreplied.
  { intros L w' (reply & rows & Hlog & Hrows). exists [reply], rows.
    split; [done | split; [cbn; lia | done]]. }
  assert (∀ L w', silent L w' → at_most_one_turn L w') as Hsilent.
  { intros L w' (rows & Hlog & Hrows). exists [], rows. rewrite app_nil_r.
    split; [done | split; [cbn; lia | done]]. }
  assert (wp (whatsapp_webhook env request)
            (λ _ w', at_most_one_turn (turn_log w) w') (λ _ _, False) w) as Hwp.
  { unfold whatsapp_webhook. wp_step.
    apply wp_mono with (Q := λ _ w', at_most_one_turn (turn_log w) w')
                       (E := λ _ w', at_most_one_turn (turn_log w) w');
      [| done | by intros; wp_step].
    wp_step. apply (wp_stays turn_log); [unfold request_form; stays_tac | |];
      [|intros e w1 Hlog; rewrite <- Hlog; apply Hsilent, silent_refl].
    intros form_dict w1 Hlog1. cbn zeta.
    wp_step. apply (wp_stays turn_log); [stays_tac | |];
      [|intros e w2 Hlog; rewrite <- Hlog1, <- Hlog; apply Hsilent, silent_refl].
    intros num_media w2 Hlog2. rewrite <- Hlog1, <- Hlog2. clear w w1 Hlog1 Hlog2.
    wp_step.
    apply wp_mono with (Q := λ _ w', at_most_one_turn (turn_log w2) w')
                       (E := λ _ w', at_most_one_turn (turn_log w2) w');
      [| by intros [response|] w3 Hw3; wp_step | done].
    case_match.
    - wp_step. eapply wp_mono; [apply finishing_identified_branch | |].
      + intros returned w3. apply Hreplied.
      + intros e w3 (rows & Hlog3 & Hrows). cbn beta. wp_step. wp_step.
        * wp_step. exists [(default "" (form_dict !! "From"), processing_error_message)], rows.
          split; [|split; [cbn; lia | done]].
          unfold turn_log in *. cbn. by injection Hlog3 as -> ->.
        * exists [], rows. rewrite app_nil_r. split; [done | split; [cbn; lia | done]].
    - wp_step. wp_step.
      + wp_step. eexists [_], []. rewrite app_nil_r.
        split; [reflexivity | split; cbn; lia].
      + apply Hsilent, (silent_refl (set_tick S w2)). }
  unfold wp in Hwp.
  by destruct (whatsapp_webhook env request w) as [[response|e] w'].
Qed.



(** ** The attachment of the Ready branch *)

(** [download_file] asks for its URL, once, and when it returns [True]
    the file holds what the host sent. *)
Lemma download_file_spec env url path w :
  ∃ b w', download_file env url path w = (Ok b, w')
    ∧ fetched w' = fetched w ++ [url]
    ∧ mails w' = mails w
    ∧ (b = true →
       ∃ content, http_get env (tick w) url = HttpOk content
                  ∧ files w' !! path = Some content).
Proof.
  unfold download_file, try_except, bind, next_tick, modify, write_file. cbn.
  destruct (http_get env (tick w) url) as [content| |] eqn:Hget; cbn;
    [|by eexists _, _..].
  unfold bind, next_tick. cbn.
  destruct (disk_write env (S (tick w)) path) as [| |written]; cbn;
    eexists _, _; (split; [reflexivity|]); cbn; repeat split; try done.
  intros _. exists content. split; [done|]. apply lookup_insert_eq.
Qed.

(** [send_email] hands one mail to the sending agent, with the
    attachment as the file is at that time. *)
Lemma send_email_spec env recipient_email subject body path w :
  str_truthy path = true →
  ∃ b w', send_email env recipient_email subject body (Some path) w = (Ok b, w')
    ∧ fetched w' = fetched w
    ∧ mails w' = mails w ++
        [{| mail_to := recipient_email; mail_subject := subject; mail_body := body;
            mail_attachment := Some (path, files w !! path) |}].
Proof.
  intros Hpath. unfold send_email, try_except, bind, get_world, modify. rewrite Hpath.
  cbn. unfold agent_run, bind, next_tick, lookup_or. cbn.
  destruct (model_reply env (tick w) _); cbn; by eexists _, _.
Qed.

Lemma wp_of_spec {A} (m : M A) (P : A → World → Prop) (Q : A → World → Prop) E w :
  (∃ a w', m w = (Ok a, w') ∧ P a w') → (∀ a w', P a w' → Q a w') → wp m Q E w.
Proof. intros (a & w' & Hrun & HP) HQ. unfold wp. rewrite Hrun. by apply HQ. Qed.

(** The Ready branch asks for the first URL of the turn and attaches
    the file it was written to. *)
Lemma ready_branch_outcome env chat_id user_id body from_number url more_urls response w :
  ready_outcome env url (temp_file_of (clock env (tick w))) response w
    (snd (ready_branch env chat_id user_id body from_number (url :: more_urls)
            response w)).
Proof.
  set (path := temp_file_of (clock env (tick w))).
  assert (wp (ready_branch env chat_id user_id body from_number (url :: more_urls) response)
            (λ _ w', ready_outcome env url path response w w')
            (λ _ w', ready_outcome env url path response w w') w) as Hwp.
  { unfold ready_branch, ready_outcome, has_fields. cbn zeta.
    destruct (Py.split "," response) as [|part0 [|part1 [|part2 rest]]];
      cbn [length Nat.leb lookup list_lookup];
      [by repeat wp_step..|].
    do 6 wp_step. fold (temp_file_of (clock env (tick w))). fold path.
    wp_step.
    eapply wp_of_spec; [apply download_file_spec|].
    intros downloaded w1 (Hfetched & Hmails & Hfile).
    cbn [fetched mails set_tick tick] in Hfetched, Hmails, Hfile.
    set (asked := λ w' : World,
           fetched w' = fetched w ++ [url]
           ∧ (mails w' = mails w
              ∨ ∃ k content mail,
                  http_get env k url = HttpOk content
                  ∧ mails w' = mails w ++ [mail]
                  ∧ mail_attachment mail = Some (path, Some content))).
    assert (∀ {A} (m : M A),
              stays (λ w, (fetched w, mails w)) m →
              ∀ w2, asked w2 → wp m (λ _ w', asked w') (λ _ w', asked w') w2) as Hrest.
    { intros A m Hm w2 [Hf2 Hm2].
      apply (wp_stays (λ w, (fetched w, mails w))); [done | |];
        intros ? w3 [= Hf3 Hm3]; unfold asked; by rewrite Hf3, Hm3. }
    destruct downloaded.
    - destruct Hfile as (content & Hget & Hfile); [done|].
      wp_step.
      apply (wp_stays (λ w, (fetched w, mails w, files w)));
        [apply stays_generate_email_body; done | |].
      2:{ intros e w2 [= Hf2 Hm2 _]. unfold asked. rewrite Hf2, Hm2. auto. }
      intros email_body w2 [= Hf2 Hm2 Hfiles2].
      wp_step.
      eapply wp_of_spec; [by apply send_email_spec|].
      intros email_sent w3 (Hf3 & Hm3). cbn beta.
      apply Hrest; [stays_tac|]. split; [by rewrite Hf3, Hf2|].
      right. eexists _, content, _. split; [exact Hget|]. split.
      + rewrite Hm3, Hm2, Hmails. reflexivity.
      + cbn. by rewrite Hfiles2, Hfile.
    - apply Hrest; [stays_tac|]. split; [done | by left]. }
  unfold wp in Hwp.
  by destruct (ready_branch _ _ _ _ _ _ _ w) as [[[]|e] w'].
Qed.



(** On the sample turn: one GET, of the first of two PDFs, and one mail
    with the downloaded bytes. *)
Example ready_branch_sample :
  let env := scripted_env ready_answer "email sent successfully" DiskOk in
  let w' := snd (ready_branch env 1 1 "my CV" member_number
                   ["https://files.example/cv.pdf"; "https://files.example/letter.pdf"]
                   "TRUE, recruiter@acme.com, Application, https://elsewhere.example/other.pdf"
                   (world_of chatting_db)) in
  fetched w' = ["https://files.example/cv.pdf"]
  ∧ mail_attachment <$> mails w'
    = [Some (temp_file_of "20250101_120000", Some "%PDF-1.4 resume")].
Proof. cbn zeta. split; vm_compute; reflexivity. Qed.

(** ** The temporary file *)

(** After the guarded [os.unlink] the file is gone, whether it was
    there or not. *)
Lemma unlink_spec path w :
  ∃ w', try_except (os_unlink path) (λ _, ret ()) w = (Ok (), w')
        ∧ files w' !! path = None.
Proof.
  unfold try_except, os_unlink, bind, get_world, modify. cbn.
  destruct (files w !! path) eqn:Hfile; cbn; eexists; (split; [reflexivity|]); cbn.
  - apply lookup_delete_eq.
  - done.
Qed.

(** The path on which the download succeeded does what C5 asks for:
    whatever becomes of the composition and of the send, the file is
    removed before the branch goes on. *)
Lemma ready_branch_unlinks_after_download env chat_id user_id body from_number url
    more_urls response w :
  has_fields response = true →
  fst (download_file env url (temp_file_of (clock env (tick w))) (set_tick S w))
  = Ok true →
  files (snd (ready_branch env chat_id user_id body from_number (url :: more_urls)
                response w))
    !! temp_file_of (clock env (tick w)) = None.
Proof.
  intros Hfields Hdownload.
  set (path := temp_file_of (clock env (tick w))) in *.
  assert (wp (ready_branch env chat_id user_id body from_number (url :: more_urls) response)
            (λ _ w', files w' !! path = None) (λ _ w', files w' !! path = None) w) as Hwp.
  { unfold ready_branch, has_fields in *. cbn zeta.
    destruct (Py.split "," response) as [|part0 [|part1 [|part2 rest]]];
      cbn [length Nat.leb] in Hfields; try done.
    cbn [lookup list_lookup].
    do 6 wp_step. fold (temp_file_of (clock env (tick w))). fold path.
    wp_step. unfold wp at 1.
    destruct (download_file env url path (set_tick S w)) as [[downloaded|e] w1];
      cbn in Hdownload; [injection Hdownload as ->|done].
    wp_step.
    apply (wp_total_stays files);
      [apply total_generate_email_body | apply stays_generate_email_body; done |].
    intros email_body w2 _. wp_step.
    apply (wp_total_stays files);
      [apply total_send_email | apply stays_send_email; done |].
    intros email_sent w3 _. wp_step.
    eapply wp_of_spec with (P := λ _ w', files w' !! path = None).
    { destruct (unlink_spec path w3) as (w4 & Hrun & Hgone). by eexists (), w4. }
    intros [] w4 Hgone. cbn beta.
    apply (wp_stays files); [stays_tac | |]; intros ? w5 Hfiles; by rewrite Hfiles. }
  unfold wp in Hwp.
  by destruct (ready_branch _ _ _ _ _ _ _ w) as [[[]|e] w'].
Qed.

(** ** [generate_email_body] *)

Lemma generate_email_content_spec env resume_chunks job_subject recipient_email w :
  ∃ content w',
    SummaryAgent.generate_email_content env resume_chunks job_subject recipient_email w
    = (Ok content, w')
    ∧ (content = SummaryAgent.fallback_content
       ∨ ∃ k prompt, model_reply env k prompt = Some content).
Proof.
  unfold SummaryAgent.generate_email_content, try_except, agent_run, bind, next_tick,
    lookup_or. cbn.
  destruct (model_reply env (tick w) _) as [content|] eqn:Hreply; cbn.
  - eexists _, _. split; [reflexivity|]. right. by eexists _, _.
  - eexists _, _. split; [reflexivity|]. by left.
Qed.

Lemma total_process_pdf env file_path : total (PDFProcessingAgent.process_pdf env file_path).
Proof. apply total_try. intros e. apply total_ret. Qed.

Lemma total_query_collection env query_text :
  total (PDFProcessingAgent.query_collection env query_text).
Proof. apply total_try. intros e. apply total_ret. Qed.

(** A file that is not there, or that PyPDF2 cannot read, is reported
    with the status [error]. *)
Lemma process_pdf_unreadable env path w :
  (files w !! path = None
   ∨ ∃ content, files w !! path = Some content ∧ pdf_pages env content = None) →
  ∃ processing_result,
    PDFProcessingAgent.process_pdf env path w = (Ok processing_result, w)
    ∧ status_is "success" processing_result = false
    ∧ status_is "partial_success" processing_result = false.
Proof.
  unfold PDFProcessingAgent.process_pdf, try_except, read_file, bind, get_world, lookup_or.
  intros [Hnone | (content & Hfile & Hpages)].
  - rewrite Hnone. cbn. by eexists.
  - rewrite Hfile. cbn. rewrite Hpages. cbn. by eexists.
Qed.

(** C10, as the claim states it, fails on the non-empty part: with a
    readable PDF whose chunks are found, the body is the model's answer
    as it is, and the model may answer with the empty string. *)
Lemma C10_empty_body_from_model :
  fst (generate_email_body mute_env "Application for Backend Engineer"
         (Some "/tmp/resume_20250101_120000.pdf") (Some "recruiter@acme.com")
         (world_with_file "/tmp/resume_20250101_120000.pdf" "%PDF-1.4 resume"))
  = Ok "".
Proof. vm_compute. reflexivity. Qed.

(** C10, amended.  [generate_email_body] never raises: it returns a
    string, which is the default template, the fallback text of the
    summary agent or an answer of the model, and which is empty only
    when the model answered with the empty string.  It is the default
    template when the attachment path is absent, when the file is
    missing or unreadable, when PDF processing reports neither
    [success] nor a [partial_success] with text, and when processing
    succeeded and the chunk query came back without a document. *)
Theorem C10_generate_email_body_total env subject attachment_path recipient_email w :
  ∃ email_body w',
    generate_email_body env subject attachment_path recipient_email w
    = (Ok email_body, w')
    ∧ body_origin env subject email_body
    ∧ (email_body = "" → ∃ k prompt, model_reply env k prompt = Some "")
    ∧ (no_path attachment_path → email_body = get_default_email_template subject)
    ∧ (∀ path, attachment_path = Some path →
         (files w !! path = None
          ∨ ∃ content, files w !! path = Some content ∧ pdf_pages env content = None) →
         email_body = get_default_email_template subject)
    ∧ (∀ path processing_result w1,
         attachment_path = Some path → path ≠ "" →
         PDFProcessingAgent.process_pdf env path w = (Ok processing_result, w1) →
         (status_is "success" processing_result = false →
          status_is "partial_success" processing_result
          && truthy (default VNull (row_get "text" processing_result)) = false →
          email_body = get_default_email_template subject)
         ∧ (status_is "success" processing_result = true →
            no_documents
              (fst (PDFProcessingAgent.query_collection env
                      ("job application for " +:+ subject) w1)) →
            email_body = get_default_email_template subject)).
Proof.
  assert (get_default_email_template subject ≠ "") as Hdefault by (vm_compute; discriminate).
  assert (SummaryAgent.fallback_content ≠ "") as Hfallback by (vm_compute; discriminate).
  assert (∀ s, body_origin env subject s →
            s = "" → ∃ k prompt, model_reply env k prompt = Some "") as Hempty.
  { intros s [-> | [-> | (k & prompt & Hreply)]] Hs; [done | done |].
    subst s. by eexists _, _. }
  unfold generate_email_body, try_except.
  destruct attachment_path as [path|]; cbn [negb].
  2:{ eexists _, _. split; [reflexivity|]. split; [by left|].
      split; [done|]. split; [done|]. split; [done|]. done. }
  destruct (str_truthy path) eqn:Hpath; cbn [negb].
  2:{ eexists _, _. split; [reflexivity|]. split; [by left|].
      split; [done|]. split; [done|]. split; [done|].
      intros path' pr w1 [= <-] Hne. exfalso. apply Hne.
      unfold str_truthy in Hpath. apply negb_false_iff in Hpath.
      by apply String.eqb_eq in Hpath. }
  assert (¬ no_path (Some path)) as Hsome.
  { intros [|[= ->]]; done. }
  unfold bind at 1.
  destruct (total_process_pdf env path w) as [pr Hpr].
  destruct (PDFProcessingAgent.process_pdf env path w) as [[pr'|e] w1] eqn:Hrun;
    cbn in Hpr; [injection Hpr as ->|done].
  destruct (status_is "success" pr) eqn:Hsuccess.
  - cbn zeta. unfold bind at 1.
    destruct (total_query_collection env ("job application for " +:+ subject) w1)
      as [docs Hdocs].
    destruct (PDFProcessingAgent.query_collection env _ w1) as [[docs'|e] w2] eqn:Hquery;
      cbn in Hdocs; [injection Hdocs as ->|done].
    destruct docs as [|[|chunk chunks] others].
    + eexists _, _. split; [reflexivity|]. split; [by left|].
      repeat split; try done.
    + eexists _, _. split; [reflexivity|]. split; [by left|].
      repeat split; try done.
    + destruct (generate_email_content_spec env (chunk :: chunks) subject
                  recipient_email w2) as (content & w3 & Hcontent & Horigin).
      rewrite Hcontent. eexists _, _. split; [reflexivity|].
      assert (body_origin env subject content) as Hbody by (by right).
      split; [done|]. split; [by apply Hempty|]. split; [done|]. split.
      * intros path' [= <-] Hunreadable.
        destruct (process_pdf_unreadable env path w Hunreadable) as (pr0 & Hrun0 & Hs0 & _).
        rewrite Hrun in Hrun0. injection Hrun0 as -> _. congruence.
      * intros path' pr0 w1' [= <-] Hne Hrun0.
        rewrite Hrun in Hrun0. injection Hrun0 as <- <-.
        split; [congruence|]. intros _ Hnone. by rewrite Hquery in Hnone.
  - destruct (status_is "partial_success" pr
              && truthy (default VNull (row_get "text" pr))) eqn:Hpartial.
    + destruct (generate_email_content_spec env
                  [str_value (default VNull (row_get "text" pr))] subject
                  recipient_email w1) as (content & w3 & Hcontent & Horigin).
      rewrite Hcontent. eexists _, _. split; [reflexivity|].
      assert (body_origin env subject content) as Hbody by (by right).
      split; [done|]. split; [by apply Hempty|]. split; [done|]. split.
      * intros path' [= <-] Hunreadable.
        destruct (process_pdf_unreadable env path w Hunreadable) as (pr0 & Hrun0 & _ & Hp0).
        rewrite Hrun in Hrun0. injection Hrun0 as -> _.
        rewrite Hp0 in Hpartial. done.
      * intros path' pr0 w1' [= <-] Hne Hrun0.
        rewrite Hrun in Hrun0. injection Hrun0 as <- <-.
        split; [congruence | congruence].
    + eexists _, _. split; [reflexivity|]. split; [by left|].
      repeat split; try done.
Qed.

Lemma C10_generate_email_body_total_witness :
  ∃ email_body w',
    generate_email_body greeting_env "Application for Backend Engineer" None None
      (world_of init_db) = (Ok email_body, w')
    ∧ email_body = get_default_email_template "Application for Backend Engineer".
Proof.
  destruct (C10_generate_email_body_total greeting_env "Application for Backend Engineer"
              None None (world_of init_db))
    as (email_body & w' & Hrun & _ & _ & Hno_path & _).
  exists email_body, w'. split; [exact Hrun|]. apply Hno_path. by left.
Defined.

(** ** The attachments of a request *)

Lemma media_at_spec form_dict i url :
  url ∈ media_at form_dict i ↔ is_pdf_at form_dict i url.
Proof.
  unfold media_at, is_pdf_at.
  destruct (form_dict !! ("MediaContentType" +:+ Py.str_of_nat i)) as [ct|] eqn:Hct;
    destruct (form_dict !! ("MediaUrl" +:+ Py.str_of_nat i)) as [u|] eqn:Hurl.
  - destruct (str_truthy ct && str_truthy u && (Py.lower ct =? "application/pdf")%string)
      eqn:Hpdf.
    + apply andb_true_iff in Hpdf as [Htruthy Hlower].
      apply andb_true_iff in Htruthy as [_ Hu].
      apply String.eqb_eq in Hlower.
      unfold str_truthy in Hu. apply negb_true_iff, String.eqb_neq in Hu.
      rewrite list_elem_of_singleton. split.
      * intros ->. eauto.
      * intros ([= ->] & _ & _). done.
    + split; [by intros ?%elem_of_nil|].
      intros ([= <-] & Hne & ct' & [= <-] & Hlower). exfalso.
      assert (str_truthy ct = true) as Hct_truthy.
      { unfold str_truthy. destruct ct; [by vm_compute in Hlower | done]. }
      assert (str_truthy u = true) as Hu_truthy.
      { unfold str_truthy. by apply negb_true_iff, String.eqb_neq. }
      rewrite Hct_truthy, Hu_truthy in Hpdf. cbn in Hpdf.
      apply String.eqb_neq in Hpdf. done.
  - split; [by intros ?%elem_of_nil | by intros ([=] & _)].
  - split; [by intros ?%elem_of_nil | by intros (_ & _ & ? & [=] & _)].
  - split; [by intros ?%elem_of_nil | by intros ([=] & _)].
Qed.

(** The URLs the handler collects are the PDFs among the first
    [NumMedia] media of the form: a URL is collected exactly when, at
    an index below [NumMedia], the form has it as a non-empty
    [MediaUrl] whose [MediaContentType], in lower case, is
    [application/pdf]. *)
Theorem collect_media_spec form_dict num_media url :
  url ∈ collect_media form_dict num_media
  ↔ ∃ i, Z.of_nat i < num_media ∧ is_pdf_at form_dict i url.
Proof.
  unfold collect_media. rewrite list_elem_of_In, in_flat_map. split.
  - intros (i & Hi & Hurl). exists i. apply in_seq in Hi.
    split; [lia|]. by apply media_at_spec, list_elem_of_In.
  - intros (i & Hi & Hpdf). exists i. split.
    + apply in_seq. lia.
    + by apply list_elem_of_In, media_at_spec.
Qed.

(** The handler collects at most [NumMedia] URLs, and none when
    [NumMedia] is zero or negative, whatever media the form carries. *)
Theorem collect_media_length form_dict num_media :
  (length (collect_media form_dict num_media) ≤ Z.to_nat num_media)%nat
  ∧ (num_media ≤ 0 → collect_media form_dict num_media = []).
Proof.
  split.
  - unfold collect_media. generalize 0%nat.
    induction (Z.to_nat num_media) as [|n IH]; intros start; [done|].
    cbn. rewrite length_app. specialize (IH (S start)).
    assert (length (media_at form_dict start) ≤ 1)%nat; [|lia].
    unfold media_at. repeat case_match; cbn; lia.
  - intros Hle. unfold collect_media. by replace (Z.to_nat num_media) with 0%nat by lia.
Qed.

Lemma no_pdf_collect_media form_dict num_media :
  no_pdf form_dict → collect_media form_dict num_media = [].
Proof.
  intros Hno. destruct (collect_media form_dict num_media) as [|url urls] eqn:Hurls; [done|].
  assert (In url (collect_media form_dict num_media)) as Hin by (rewrite Hurls; by left).
  unfold collect_media in Hin. apply in_flat_map in Hin as (i & _ & Hurl).
  apply list_elem_of_In, media_at_spec in Hurl as (_ & _ & ct & Hct & Hlower).
  by destruct (Hno i ct Hct).
Qed.

(** ** What every statement keeps, every turn keeps *)

Section EveryStatement.

Context (I : Store → Prop).
Hypothesis HI : ∀ q st, I st → I (snd (run_query q st)).

Lemma keeps_any_query env q : keeps I (execute_query env q).
Proof.
  intros w Hw. apply wp_execute_query; intros _; cbn; [by apply HI | done].
Qed.

Lemma save_and_reply_keeps_any env chat_id user_id body bot_reply from_number :
  keeps I (save_and_reply env chat_id user_id body bot_reply from_number).
Proof.
  apply keeps_seq_bind; [apply keeps_any_query | intros _].
  apply keeps_stays. stays_tac.
Qed.

Lemma ready_branch_keeps_any env chat_id user_id body from_number media_urls response :
  keeps I (ready_branch env chat_id user_id body from_number media_urls response).
Proof.
  unfold ready_branch. cbn zeta.
  apply keeps_seq_bind; [apply keeps_stays; stays_tac | intros part1].
  apply keeps_seq_bind; [apply keeps_stays; stays_tac | intros part2].
  apply keeps_seq_bind; [apply keeps_stays; stays_tac | intros k].
  apply keeps_seq_bind; [apply keeps_stays; stays_tac | intros downloaded].
  destruct downloaded; [|apply save_and_reply_keeps_any].
  apply keeps_seq_bind; [apply keeps_stays; stays_tac | intros email_body].
  apply keeps_seq_bind; [apply keeps_stays; stays_tac | intros email_sent].
  apply keeps_seq_bind; [apply keeps_stays; stays_tac | intros _].
  destruct (negb email_sent); [|apply save_and_reply_keeps_any].
  apply keeps_seq_bind; [apply keeps_stays; stays_tac | intros end_chat_query].
  apply keeps_seq_bind; [apply keeps_any_query | intros _].
  apply save_and_reply_keeps_any.
Qed.

Lemma active_chat_branch_keeps_any env user_data user_id active_chat_result body
    from_number media_urls :
  keeps I (active_chat_branch env user_data user_id active_chat_result body from_number
             media_urls).
Proof.
  unfold active_chat_branch.
  apply keeps_seq_bind; [apply keeps_stays; stays_tac | intros chat].
  apply keeps_seq_bind; [apply keeps_stays; stays_tac | intros id].
  apply keeps_seq_bind; [apply keeps_stays; stays_tac | intros chat_id].
  apply keeps_seq_bind; [apply keeps_stays; stays_tac | intros chat_history_query].
  apply keeps_seq_bind; [apply keeps_any_query | intros chat_history_result].
  apply keeps_seq_bind; [apply keeps_stays; stays_tac | intros chat_history].
  apply keeps_seq_bind; [apply keeps_stays; stays_tac | intros mediator_response].
  repeat case_match; first [apply ready_branch_keeps_any | apply save_and_reply_keeps_any].
Qed.

Lemma new_chat_branch_keeps_any env user_data user_id body from_number :
  keeps I (new_chat_branch env user_data user_id body from_number).
Proof.
  unfold new_chat_branch.
  apply keeps_seq_bind; [apply keeps_stays; stays_tac | intros new_chat_query].
  apply keeps_seq_bind; [apply keeps_any_query | intros new_chat_result].
  case_match; [|apply keeps_stays; stays_tac].
  apply keeps_seq_bind; [apply keeps_stays; stays_tac | intros id].
  apply keeps_seq_bind; [apply keeps_stays; stays_tac | intros chat_id].
  apply keeps_seq_bind; [apply keeps_stays; stays_tac | intros intro_message].
  apply save_and_reply_keeps_any.
Qed.

Lemma identified_branch_keeps_any env body from_number media_urls :
  keeps I (identified_branch env body from_number media_urls).
Proof.
  unfold identified_branch. cbn zeta.
  apply keeps_seq_bind; [apply keeps_stays; stays_tac | intros sql_query].
  apply keeps_seq_bind; [apply keeps_any_query | intros user_result].
  apply keeps_seq_bind; [apply keeps_stays; stays_tac | intros not_member].
  destruct not_member; [apply keeps_stays; stays_tac |].
  apply keeps_seq_bind; [apply keeps_stays; stays_tac | intros user_data].
  apply keeps_seq_bind; [apply keeps_stays; stays_tac | intros id].
  apply keeps_seq_bind; [apply keeps_stays; stays_tac | intros user_id].
  apply keeps_seq_bind; [apply keeps_stays; stays_tac | intros active_chat_query].
  apply keeps_seq_bind; [apply keeps_any_query | intros active_chat_result].
  apply keeps_seq_bind; [|intros; apply keeps_ret].
  case_match; [apply new_chat_branch_keeps_any | apply active_chat_branch_keeps_any].
Qed.

Lemma whatsapp_webhook_keeps_any env request w :
  I (db w) → I (db (snd (whatsapp_webhook env request w))).
Proof.
  intros Hw.
  assert (keeps I (whatsapp_webhook env request)) as Hkeeps.
  { unfold whatsapp_webhook.
    apply keeps_seq_try; [|intros; apply keeps_ret].
    apply keeps_seq_bind; [apply keeps_stays; stays_tac | intros form_dict]. cbn zeta.
    apply keeps_seq_bind; [apply keeps_stays; stays_tac | intros num_media].
    apply keeps_seq_bind; [|intros [response|]; apply keeps_ret].
    case_match.
    - apply keeps_seq_try; [apply identified_branch_keeps_any | intros e].
      apply keeps_stays. stays_tac.
    - apply keeps_stays. stays_tac. }
  specialize (Hkeeps w Hw). unfold wp in Hkeeps.
  by destruct (whatsapp_webhook env request w) as [[response|e] w'].
Qed.

End EveryStatement.


Lemma end_chat_row_step chat_id c : chat_step c (end_chat_row chat_id c).
Proof. unfold chat_step, end_chat_row. by destruct (c_id c =? chat_id). Qed.

Lemma chat_step_trans c1 c2 c3 : chat_step c1 c2 → chat_step c2 c3 → chat_step c1 c3.
Proof.
  intros (Hid & Huser & Hended) (Hid' & Huser' & Hended').
  repeat split; [congruence | congruence | auto].
Qed.

Lemma grows_refl st : grows st st.
Proof.
  split; [done|]. split.
  - exists (chats st), []. rewrite app_nil_r. split; [done|].
    induction (chats st); constructor; [by repeat split | done].
  - exists []. by rewrite app_nil_r.
Qed.

Lemma grows_run_query st0 q st : grows st0 st → grows st0 (snd (run_query q st)).
Proof.
  intros Hgrows.
  pose proof Hgrows as (Husers & (old & new & Hchats & Hold) & (new_messages & Hmessages)).
  destruct q as [phone|uid|uid|cid|cid uid user_message bot_reply|chat_id]; try done;
    cbn; (split; [done|]).
  - split; [|by eexists]. exists old. eexists (new ++ [_]).
    split; [|done]. rewrite Hchats, <- (assoc_L (++)). reflexivity.
  - split; [by eexists _, _|]. eexists (new_messages ++ [_]).
    rewrite Hmessages, <- (assoc_L (++)). reflexivity.
  - split; [|by eexists]. exists (end_chat_row chat_id <$> old), (end_chat_row chat_id <$> new).
    split; [by rewrite Hchats, fmap_app|].
    clear Hchats. induction Hold as [|c c' l l' Hstep Hrest IH]; [constructor|].
    cbn. constructor; [|done].
    eapply chat_step_trans; [exact Hstep | apply end_chat_row_step].
Qed.


Lemma keys_fresh_run_query q st : keys_fresh st → keys_fresh (snd (run_query q st)).
Proof.
  intros Hfresh.
  pose proof Hfresh as (Hchat_ids & Hchat_seq & Hmessage_ids & Hmessage_seq).
  destruct q as [phone|uid|uid|cid|cid uid user_message bot_reply|chat_id]; try done;
    unfold keys_fresh; cbn [run_query snd chats messages chat_seq message_seq].
  - repeat split; try done.
    + rewrite fmap_app. cbn. apply NoDup_app. split; [done|]. split; [|apply NoDup_singleton].
      intros id Hid ->%list_elem_of_singleton.
      apply list_elem_of_fmap in Hid as (c & Hc & Hin).
      rewrite Forall_forall in Hchat_seq. specialize (Hchat_seq c Hin). cbn in Hchat_seq. lia.
    + apply Forall_app. split.
      * eapply Forall_impl; [exact Hchat_seq|]. cbn. intros; lia.
      * constructor; [cbn; lia | constructor].
  - repeat split; try done.
    + rewrite fmap_app. cbn. apply NoDup_app. split; [done|]. split; [|apply NoDup_singleton].
      intros id Hid ->%list_elem_of_singleton.
      apply list_elem_of_fmap in Hid as (m & Hm & Hin).
      rewrite Forall_forall in Hmessage_seq. specialize (Hmessage_seq m Hin).
      cbn in Hmessage_seq. lia.
    + apply Forall_app. split.
      * eapply Forall_impl; [exact Hmessage_seq|]. cbn. intros; lia.
      * constructor; [cbn; lia | constructor].
  - assert (c_id <$> (end_chat_row chat_id <$> chats st) = c_id <$> chats st) as Hids.
    { rewrite <- list_fmap_compose. apply list_fmap_ext. intros _ c _. cbn.
      unfold end_chat_row. by destruct (c_id c =? chat_id). }
    repeat split; try done.
    + by rewrite Hids.
    + apply Forall_fmap. eapply Forall_impl; [exact Hchat_seq|]. cbn.
      intros c Hc. unfold end_chat_row. by destruct (c_id c =? chat_id).
Qed.



(** ** Paths of the handler *)



(** A request without a [WaId] never reaches the database or the
    model: the handler makes one call, to Twilio, with the text that
    the phone number could not be identified, and acknowledges whether
    or not Twilio takes the message. *)
Theorem webhook_without_wa_id env request form_dict w :
  form request = Some form_dict →
  is_Some (Py.int (default "0" (form_dict !! "NumMedia"))) →
  default "" (form_dict !! "WaId") = "" →
  whatsapp_webhook env request w
  = (Ok TWIML_ACK,
     if twilio_up env (tick w)
     then set_outbox (λ o, o ++ [(default "" (form_dict !! "From"), no_wa_id_message)])
            (set_tick S w)
     else set_tick S w).
Proof.
  intros Hform [num_media Hnum] Hwa.
  unfold whatsapp_webhook, try_except, bind, request_form. rewrite Hform. cbn.
  rewrite Hnum, Hwa. cbn.
  unfold messages_create, bind, next_tick. cbn.
  by destruct (twilio_up env (tick w)).
Qed.

Lemma webhook_without_wa_id_witness :
  outbox (snd (whatsapp_webhook greeting_env
                 {| form := Some {[ "From" := member_number; "Body" := "Hi" ]} |}
                 (world_of init_db)))
  = [(member_number, no_wa_id_message)].
Proof.
  rewrite (webhook_without_wa_id greeting_env _
             {[ "From" := member_number; "Body" := "Hi" ]} (world_of init_db)).
  - vm_compute. reflexivity.
  - reflexivity.
  - exists 0. vm_compute. reflexivity.
  - vm_compute. reflexivity.
Defined.

Section OpeningTurn.

Context (env : Env).
Hypothesis Hup : services_up env.

Ltac up_tac :=
  exfalso;
  let Hm := fresh in let Hd := fresh in let Ht := fresh in
  pose proof Hup as (Hm & Hd & Ht);
  first
    [ congruence
    | match goal with
      | H : model_reply env ?k ?p = None |- _ =>
          specialize (Hm k p); rewrite H in Hm; by destruct Hm
      end ].

Ltac wp_run := repeat (wp_step; try by up_tac).

Lemma opening_turn_run body from_number media_urls user others w :
  known_users (db w) (Py.replace "whatsapp:" "" from_number) = user :: others →
  u_is_member user ≠ 0 →
  List.filter (is_active_chat_of (u_id user)) (chats (db w)) = [] →
  wp (identified_branch env body from_number media_urls)
     (λ returned w', ∃ intro_message,
        model_reply env (tick w + 6)%nat (IntroAgent.intro_prompt (user_row user) body)
        = Some intro_message
        ∧ returned = None
        ∧ db w' = opened_chat (db w) user body intro_message
        ∧ outbox w' = outbox w ++ [(from_number, intro_message)])
     (λ _ _, False) w.
Proof.
  intros Hknown Hmember Hnone.
  unfold identified_branch, SQLAgent.generate_query. cbn zeta.
  wp_run. cbn [db set_db set_tick run_query snd].
  eapply wp_of_run; [apply not_member_test|].
  cbn [db set_db set_tick]. unfold member_of. rewrite Hknown.
  assert (negb (u_is_member user =? 0) = true) as -> by (apply negb_true_iff; lia).
  cbn [negb fst fmap list_fmap]. wp_run.
  unfold ChatAgent.check_active_chat. wp_run.
  cbn [run_query fst snd db set_db set_tick]. rewrite Hnone.
  cbn [rev take fmap list_fmap result_truthy list_truthy negb app].
  unfold new_chat_branch, ChatAgent.create_new_chat, IntroAgent.generate_intro_message.
  wp_run. cbn [run_query fst snd result_truthy result_has_id list_truthy negb andb].
  rewrite bool_decide_true by (by eexists).
  cbn [negb andb result_id].
  match goal with
  | |- context [row_get "id" [("id", ?v)]] =>
      change (row_get "id" [("id", v)]) with (Some v)
  end.
  wp_run.
  unfold save_and_reply, ChatAgent.save_message. wp_run.
  cbn [run_query fst snd db set_db set_tick set_outbox outbox tick users chats messages
       chat_seq message_seq] in *.
  exists r2. split; [|done].
  by replace (tick w + 6)%nat with (S (S (S (S (S (S (tick w))))))) by lia.
Qed.


End OpeningTurn.


(** ** A turn without an attachment *)

Section HoldsThrough.

Context (P : World → Prop).
Hypothesis P_tick : ∀ w, P w → P (set_tick S w).
Hypothesis P_outbox : ∀ g w, P w → P (set_outbox g w).
Hypothesis P_query :
  ∀ q w, ends_no_chat q → P w → P (set_db (λ _, snd (run_query q (db w))) w).

Lemma holds_ret {A} (a : A) : holds_through P (ret a).
Proof. by intros w HP. Qed.

Lemma holds_raise {A} (e : Exn) : holds_through P (raise (A:=A) e).
Proof. by intros w HP. Qed.

Lemma holds_bind {A B} (m : M A) (k : A → M B) :
  holds_through P m → (∀ a, holds_through P (k a)) → holds_through P (bind m k).
Proof.
  intros Hm Hk w HP. apply wp_bind.
  eapply wp_mono; [by apply Hm | |]; cbn; [|done].
  intros a w' HP'. by apply Hk.
Qed.

(** The continuation needs to keep [P] only on the results [m] can have. *)
Lemma holds_bind_result {A B} (R : A → Prop) (m : M A) (k : A → M B) :
  holds_through P m →
  (∀ w, wp m (λ a _, R a) (λ _ _, True) w) →
  (∀ a, R a → holds_through P (k a)) →
  holds_through P (bind m k).
Proof.
  intros Hm HR Hk w HP. apply wp_bind.
  specialize (Hm w HP). specialize (HR w). unfold wp in *.
  destruct (m w) as [[a|e] w']; [|done].
  by apply Hk.
Qed.

Lemma holds_try {A} (body : M A) (handler : Exn → M A) :
  holds_through P body → (∀ e, holds_through P (handler e)) →
  holds_through P (try_except body handler).
Proof.
  intros Hb Hh w HP. apply wp_try.
  eapply wp_mono; [by apply Hb | |]; cbn; [done|].
  intros e w' HP'. by apply Hh.
Qed.

Lemma holds_lookup_or {A} e (o : option A) : holds_through P (lookup_or e o).
Proof. by destruct o; intros w HP. Qed.

Lemma holds_next_tick : holds_through P next_tick.
Proof. intros w HP. by apply wp_next_tick, P_tick. Qed.

Lemma holds_agent_run env prompt : holds_through P (agent_run env prompt).
Proof. apply holds_bind; [apply holds_next_tick | intros; apply holds_lookup_or]. Qed.

Lemma holds_messages_create env body to : holds_through P (messages_create env body to).
Proof.
  apply holds_bind; [apply holds_next_tick | intros k].
  destruct (twilio_up env k); [|apply holds_raise].
  intros w HP. by apply wp_modify, P_outbox.
Qed.

Lemma holds_execute_query env q : ends_no_chat q → holds_through P (execute_query env q).
Proof.
  intros Hq. apply holds_bind; [apply holds_next_tick | intros k].
  destruct (sqlite_up env k); [|apply holds_raise].
  intros w HP. unfold wp. specialize (P_query q w Hq HP).
  by destruct (run_query q (db w)) as [r st].
Qed.

Lemma holds_statement {B} env prompt (q : Query) (k : Query → M B) :
  holds_through P (k q) →
  holds_through P (bind (bind (agent_run env prompt) (λ _, ret q)) k).
Proof.
  intros Hk w HP. apply wp_bind, wp_bind, wp_agent_run.
  - intros r _. apply wp_ret. by apply Hk, P_tick.
  - intros _. by apply P_tick.
Qed.

Lemma holds_save_and_reply env chat_id user_id body bot_reply from_number :
  holds_through P (save_and_reply env chat_id user_id body bot_reply from_number).
Proof.
  apply holds_bind; [by apply holds_execute_query | intros _].
  apply holds_messages_create.
Qed.

Lemma holds_chat_messages chat_history :
  holds_through P (MediatorAgent.chat_messages chat_history).
Proof.
  intros w HP. unfold wp.
  pose proof (chat_messages_pure chat_history w) as Hw.
  destruct (MediatorAgent.chat_messages chat_history w) as [[lines|e] w'];
    cbn in Hw; by subst w'.
Qed.

Lemma holds_analyze_conversation env user_data chat_history user_message media_urls :
  holds_through P
    (MediatorAgent.analyze_conversation env user_data chat_history user_message
       media_urls).
Proof.
  apply holds_bind; [apply holds_chat_messages | intros lines]. cbn zeta.
  apply holds_bind; [apply holds_agent_run | intros content]. cbn zeta.
  case_match; apply holds_ret.
Qed.

Lemma analyze_without_media env user_data chat_history user_message w :
  wp (MediatorAgent.analyze_conversation env user_data chat_history user_message [])
     (λ decision _, Py.startswith decision "TRUE" = false) (λ _ _, True) w.
Proof.
  unfold wp. rewrite analyze_conversation_run.
  destruct (MediatorAgent.chat_messages chat_history w).1; [|done].
  destruct (model_reply env (tick w) _) as [reply|]; [|done].
  by destruct (Py.startswith (Py.strip reply) "TRUE") eqn:Hready.
Qed.

Lemma holds_active_chat_branch env user_data user_id active_chat_result body from_number :
  holds_through P
    (active_chat_branch env user_data user_id active_chat_result body from_number []).
Proof.
  unfold active_chat_branch.
  apply holds_bind; [destruct active_chat_result as [[|]|]; by intros w HP | intros chat].
  apply holds_bind; [apply holds_lookup_or | intros id].
  apply holds_bind; [destruct id; by intros w HP | intros chat_id].
  unfold ChatAgent.get_chat_messages. apply holds_statement.
  apply holds_bind; [by apply holds_execute_query | intros chat_history_result].
  apply holds_bind.
  { destruct chat_history_result as [|[|]]; by intros w HP. }
  intros chat_history.
  apply (holds_bind_result (λ decision, Py.startswith decision "TRUE" = false));
    [apply holds_analyze_conversation | apply analyze_without_media |].
  intros decision ->. repeat case_match; apply holds_save_and_reply.
Qed.

Lemma holds_new_chat_branch env user_data user_id body from_number :
  holds_through P (new_chat_branch env user_data user_id body from_number).
Proof.
  unfold new_chat_branch, ChatAgent.create_new_chat. apply holds_statement.
  apply holds_bind; [by apply holds_execute_query | intros new_chat_result].
  case_match; [|apply holds_messages_create].
  apply holds_bind; [destruct new_chat_result; [by intros w HP | apply holds_lookup_or]
                    | intros id].
  apply holds_bind; [destruct id; by intros w HP | intros chat_id].
  apply holds_bind; [apply holds_agent_run | intros intro_message].
  apply holds_save_and_reply.
Qed.

Lemma holds_identified_branch env body from_number :
  holds_through P (identified_branch env body from_number []).
Proof.
  unfold identified_branch, SQLAgent.generate_query. cbn zeta.
  apply holds_statement.
  apply holds_bind; [by apply holds_execute_query | intros user_result].
  apply holds_bind.
  { case_match; [apply holds_ret|].
    apply holds_bind; [|intros; apply holds_ret].
    destruct user_result as [[|]|]; by intros w HP. }
  intros [|].
  { apply holds_bind; [apply holds_messages_create | intros; apply holds_ret]. }
  apply holds_bind; [destruct user_result as [[|]|]; by intros w HP | intros user_data].
  apply holds_bind; [apply holds_lookup_or | intros id].
  apply holds_bind; [destruct id; by intros w HP | intros user_id].
  unfold ChatAgent.check_active_chat. apply holds_statement.
  apply holds_bind; [by apply holds_execute_query | intros active_chat_result].
  apply holds_bind; [|intros; apply holds_ret].
  case_match; [apply holds_new_chat_branch | apply holds_active_chat_branch].
Qed.

Lemma holds_whatsapp_webhook env request form_dict :
  form request = Some form_dict → no_pdf form_dict →
  holds_through P (whatsapp_webhook env request).
Proof.
  intros Hform Hno. unfold whatsapp_webhook, request_form. rewrite Hform.
  apply holds_try; [|intros; apply holds_ret].
  apply (holds_bind_result (λ d, d = form_dict)); [by intros w HP | by intros w |].
  intros ? ->. cbn zeta.
  apply holds_bind; [apply holds_lookup_or | intros num_media].
  rewrite (no_pdf_collect_media _ _ Hno).
  apply holds_bind; [|intros [response|]; apply holds_ret].
  case_match.
  - apply holds_try; [apply holds_identified_branch | intros e].
    apply holds_bind; [apply holds_messages_create | intros; apply holds_ret].
  - apply holds_bind; [apply holds_messages_create | intros; apply holds_ret].
Qed.

End HoldsThrough.



(** ** The chunks of a PDF's text *)

Lemma append_cons c s1 s2 : String c s1 +:+ s2 = String c (s1 +:+ s2).
Proof. done. Qed.

Lemma append_empty_r s : s +:+ "" = s.
Proof. induction s as [|c s IH]; [done|]. by rewrite append_cons, IH. Qed.

Lemma take_drop_string n s : Py.take n s +:+ Py.drop n s = s.
Proof.
  revert s. induction n as [|n IH]; intros [|c s]; cbn; try done.
  by rewrite append_cons, IH.
Qed.

Lemma take_add_string n m s : Py.take (n + m) s = Py.take n s +:+ Py.take m (Py.drop n s).
Proof.
  revert s. induction n as [|n IH]; intros s; [by destruct s|].
  destruct s as [|c s]; cbn; [by destruct m|].
  by rewrite append_cons, IH.
Qed.

Lemma length_take_string n s : String.length (Py.take n s) = (n `min` String.length s)%nat.
Proof.
  revert s. induction n as [|n IH]; intros [|c s]; cbn; try done.
  by rewrite IH.
Qed.

Lemma length_drop_string n s : String.length (Py.drop n s) = (String.length s - n)%nat.
Proof.
  revert s. induction n as [|n IH]; intros [|c s]; cbn; try done.
Qed.

Lemma take_all_string n s : (String.length s ≤ n)%nat → Py.take n s = s.
Proof.
  revert s. induction n as [|n IH]; intros [|c s]; cbn; try done; [lia|].
  intros Hle. rewrite IH; [done | lia].
Qed.

Lemma chunks_of_step fuel c s :
  PDFProcessingAgent.chunks_of (S fuel) (String c s)
  = Py.take PDFProcessingAgent.chunk_size (String c s)
      :: PDFProcessingAgent.chunks_of fuel (Py.drop PDFProcessingAgent.chunk_size (String c s)).
Proof. done. Qed.

Lemma chunk_size_pos : (0 < PDFProcessingAgent.chunk_size)%nat.
Proof. unfold PDFProcessingAgent.chunk_size. lia. Qed.

(** The first [k] chunks are the first [k * chunk_size] characters. *)
Lemma concat_take_chunks k fuel text :
  (String.length text ≤ fuel)%nat →
  String.concat "" (take k (PDFProcessingAgent.chunks_of fuel text))
  = Py.take (k * PDFProcessingAgent.chunk_size) text.
Proof.
  pose proof chunk_size_pos as Hpos.
  revert fuel text. induction k as [|k IH]; intros fuel text Hfuel.
  { by destruct text. }
  destruct text as [|c s]; [by destruct fuel|].
  destruct fuel as [|fuel]; [cbn in Hfuel; lia|].
  rewrite chunks_of_step.
  change (S k * PDFProcessingAgent.chunk_size)%nat
    with (PDFProcessingAgent.chunk_size + k * PDFProcessingAgent.chunk_size)%nat.
  rewrite take_add_string. rewrite <- (IH fuel).
  2:{ rewrite length_drop_string.
      change (String.length (String c s)) with (S (String.length s)) in *. lia. }
  cbn [take String.concat].
  generalize (Py.take PDFProcessingAgent.chunk_size (String c s)).
  generalize (take k (PDFProcessingAgent.chunks_of fuel
                        (Py.drop PDFProcessingAgent.chunk_size (String c s)))).
  intros l s0. destruct l; cbn; [by rewrite append_empty_r|done].
Qed.

Lemma chunks_of_cover fuel text :
  (String.length text ≤ fuel)%nat →
  (String.length text
   ≤ length (PDFProcessingAgent.chunks_of fuel text) * PDFProcessingAgent.chunk_size)%nat.
Proof.
  pose proof chunk_size_pos as Hpos.
  revert text. induction fuel as [|fuel IH]; intros [|c s] Hfuel; cbn in Hfuel; try lia.
  - cbn. lia.
  - cbn. lia.
  - rewrite chunks_of_step. cbn [length].
    specialize (IH (Py.drop PDFProcessingAgent.chunk_size (String c s))).
    rewrite length_drop_string in IH.
    change (String.length (String c s)) with (S (String.length s)) in *.
    lia.
Qed.

Lemma chunks_of_bounds fuel text :
  Forall (λ chunk, (1 ≤ String.length chunk ≤ PDFProcessingAgent.chunk_size)%nat)
    (PDFProcessingAgent.chunks_of fuel text).
Proof.
  pose proof chunk_size_pos as Hpos.
  revert text. induction fuel as [|fuel IH]; intros [|c s]; try by constructor.
  rewrite chunks_of_step. constructor; [|apply IH].
  rewrite length_take_string.
  change (String.length (String c s)) with (S (String.length s)). lia.
Qed.



(** ** The collection after [process_pdf] *)

Lemma docs_of_others_twice filename c :
  docs_of_others filename (docs_of_others filename c) = docs_of_others filename c.
Proof.
  unfold docs_of_others. induction c as [|d c IH]; [done|]. cbn.
  destruct (negb (doc_filename d =? filename)%string) eqn:Hd; [|done].
  cbn. by rewrite Hd, IH.
Qed.

Lemma docs_of_others_chunk_docs filename start chunks :
  docs_of_others filename (chunk_docs filename start chunks) = [].
Proof.
  unfold docs_of_others, chunk_docs. revert start.
  induction chunks as [|chunk chunks IH]; intros start; [done|].
  cbn. rewrite String.eqb_refl. cbn.
  rewrite <- (IH (S start)). f_equal. apply imap_ext. intros i ? _. cbn.
  by rewrite Nat.add_succ_r.
Qed.

Section ChromaUp.

Context (env : Env).
Hypothesis Hchroma : ∀ k, chroma_up env k = true.

Lemma add_chunks_run filename chunks start added_chunks w :
  wp (PDFProcessingAgent.add_chunks env filename start chunks added_chunks)
     (λ added w', added = (added_chunks + length chunks)%nat
        ∧ collection w' = collection w ++ chunk_docs filename start chunks
        ∧ files w' = files w)
     (λ _ _, False) w.
Proof.
  revert start added_chunks w. induction chunks as [|chunk_text rest IH];
    intros start added_chunks w.
  { apply wp_ret. cbn. rewrite app_nil_r. split; [lia|done]. }
  cbn [PDFProcessingAgent.add_chunks]. apply wp_bind, wp_try.
  unfold PDFProcessingAgent.collection_add.
  apply wp_bind, wp_bind, wp_next_tick. rewrite Hchroma.
  apply wp_modify, wp_ret.
  eapply wp_mono; [apply IH | | done].
  intros added w' (-> & Hcollection & Hfiles). cbn beta.
  rewrite Hcollection. cbn [collection set_collection set_tick files].
  split; [cbn; lia|]. split; [|done].
  rewrite <- (assoc_L (++)). f_equal. unfold chunk_docs. cbn [imap app].
  rewrite Nat.add_0_r. f_equal.
  apply imap_ext. intros i chunk _. cbn. by rewrite Nat.add_succ_r.
Qed.

(** What [process_pdf] makes of a readable file while Chroma answers. *)
Lemma process_pdf_run file_path content pages w :
  files w !! file_path = Some content →
  pdf_pages env content = Some pages →
  ∃ result w',
    PDFProcessingAgent.process_pdf env file_path w = (Ok result, w')
    ∧ status_is (if list_truthy (kept_chunks pages) then "success" else "partial_success")
        result = true
    ∧ collection w'
      = docs_of_others (Py.basename file_path) (collection w)
        ++ chunk_docs (Py.basename file_path) 0 (kept_chunks pages)
    ∧ files w' = files w.
Proof.
  intros Hfile Hpages.
  assert (wp (PDFProcessingAgent.process_pdf env file_path)
            (λ result w',
               status_is (if list_truthy (kept_chunks pages)
                          then "success" else "partial_success") result = true
               ∧ collection w'
                 = docs_of_others (Py.basename file_path) (collection w)
                   ++ chunk_docs (Py.basename file_path) 0 (kept_chunks pages)
               ∧ files w' = files w)
            (λ _ _, False) w) as Hwp.
  { unfold PDFProcessingAgent.process_pdf, read_file.
    apply wp_try, wp_bind, wp_bind, wp_get_world. rewrite Hfile. apply wp_ret.
    apply wp_bind. rewrite Hpages. apply wp_ret. cbn zeta.
    fold (kept_chunks pages).
    apply wp_bind, wp_try. unfold PDFProcessingAgent.collection_delete.
    apply wp_bind, wp_next_tick. rewrite Hchroma. apply wp_modify.
    apply wp_bind.
    eapply wp_mono; [apply add_chunks_run | | done].
    intros added w' (-> & Hcollection & Hfiles). cbn beta.
    cbn [collection set_collection set_tick files] in *.
    destruct (kept_chunks pages) as [|chunk chunks]; cbn [length Nat.add Nat.ltb Nat.leb];
      apply wp_ret; rewrite Hcollection; done. }
  unfold wp in Hwp.
  destruct (PDFProcessingAgent.process_pdf env file_path w) as [[result|e] w']; [|done].
  by exists result, w'.
Qed.


(** While Chroma answers, processing the same PDF a second time
    changes nothing in the collection: the entries of the first run
    are cleared and added again, and no entry is there twice. *)
Theorem process_pdf_twice_same_collection file_path content pages w :
  files w !! file_path = Some content →
  pdf_pages env content = Some pages →
  let w1 := snd (PDFProcessingAgent.process_pdf env file_path w) in
  collection (snd (PDFProcessingAgent.process_pdf env file_path w1)) = collection w1.
Proof.
  intros Hfile Hpages. cbn zeta.
  destruct (process_pdf_run file_path content pages w Hfile Hpages)
    as (result & w1 & -> & _ & Hcollection & Hfiles).
  cbn [snd]. rewrite <- Hfiles in Hfile.
  destruct (process_pdf_run file_path content pages w1 Hfile Hpages)
    as (result' & w2 & -> & _ & Hcollection' & _).
  cbn [snd]. rewrite Hcollection', Hcollection. f_equal.
  unfold docs_of_others at 1. rewrite List.filter_app.
  fold (docs_of_others (Py.basename file_path)
          (docs_of_others (Py.basename file_path) (collection w))).
  fold (docs_of_others (Py.basename file_path)
          (chunk_docs (Py.basename file_path) 0 (kept_chunks pages))).
  by rewrite docs_of_others_twice, docs_of_others_chunk_docs, app_nil_r.
Qed.

End ChromaUp.




Lemma process_pdf_twice_same_collection_witness :
  let w1 := snd (PDFProcessingAgent.process_pdf greeting_env "/tmp/cv.pdf"
                   (world_with_file "/tmp/cv.pdf" "%PDF")) in
  collection (snd (PDFProcessingAgent.process_pdf greeting_env "/tmp/cv.pdf" w1))
  = collection w1.
Proof.
  apply (process_pdf_twice_same_collection greeting_env ltac:(done) "/tmp/cv.pdf" "%PDF"
           ["Python developer, five years."]).
  - vm_compute. reflexivity.
  - reflexivity.
Defined.

(** ** The tool that sends the mail *)

Lemma attach_all_spec out fs paths attached attachments :
  EmailTools.attach_all out fs paths attached = inr attachments →
  ∃ new, attachments = attached ++ new
    ∧ Forall2 (λ file_path a,
                 fs !! file_path = Some (EmailTools.file_data a)
                 ∧ EmailTools.filename a = Py.basename file_path) paths new.
Proof.
  revert attached. induction paths as [|file_path rest IH]; intros attached Hall.
  { injection Hall as <-. exists []. by rewrite app_nil_r. }
  cbn in Hall. destruct (EmailTools.attach_file out fs file_path) as [a|e] eqn:Hone; [|done].
  apply IH in Hall as (new & -> & Hnew).
  exists (a :: new). rewrite <- (assoc_L (++)). split; [done|].
  constructor; [|done].
  unfold EmailTools.attach_file in Hone.
  destruct (fs !! file_path) as [data|]; [|done].
  destruct (EmailTools.split_type _) as [[main sub]|]; [|done].
  by injection Hone as <-.
Qed.

Lemma attach_all_error out fs paths attached error :
  EmailTools.attach_all out fs paths attached = inl error →
  Py.startswith error "error: " = true.
Proof.
  revert attached. induction paths as [|file_path rest IH]; intros attached Hall; [done|].
  cbn in Hall. destruct (EmailTools.attach_file out fs file_path) as [a|e]; [by eapply IH|].
  by injection Hall as <-.
Qed.



(** A message that went out is the message that was asked for: it goes
    to the receiver of the toolkit, with the subject and the body
    given, and it carries every attachment asked for, in their order,
    each with the content of its file and the base name of its path.
    No message goes out while a file is missing, or while one of the
    four settings is. *)
Theorem email_tool_sends_what_was_asked out fs self subject body attachments result msg :
  EmailTools.email_user_with_attachments out fs self subject body attachments
  = Ok (result, Some msg) →
  EmailTools.receiver_email self = Some (EmailTools.msg_to msg)
  ∧ EmailTools.msg_subject msg = subject
  ∧ EmailTools.msg_content msg = body
  ∧ Forall2 (λ file_path a,
               fs !! file_path = Some (EmailTools.file_data a)
               ∧ EmailTools.filename a = Py.basename file_path)
      (default [] attachments) (EmailTools.msg_attachments msg)
  ∧ EmailTools.is_set (EmailTools.receiver_email self)
    && EmailTools.is_set (EmailTools.sender_name self)
    && EmailTools.is_set (EmailTools.sender_email self)
    && EmailTools.is_set (EmailTools.sender_passkey self) = true.
Proof.
  unfold EmailTools.email_user_with_attachments.
  destruct (EmailTools.is_set (EmailTools.receiver_email self)) eqn:Hreceiver; [|done].
  destruct (EmailTools.is_set (EmailTools.sender_name self)); [|done].
  destruct (EmailTools.is_set (EmailTools.sender_email self)); [|done].
  destruct (EmailTools.is_set (EmailTools.sender_passkey self)); [|done].
  cbn [negb]. case_match; [done|].
  destruct (EmailTools.attach_all _ _ _ _) as [error|attached] eqn:Hall; [done|].
  destruct (EmailTools.smtp_send _ _ _ _) as [text|]; [done|].
  intros [= <- <-]. cbn.
  apply attach_all_spec in Hall as (new & -> & Hnew).
  destruct (EmailTools.receiver_email self); done.
Qed.

Lemma email_tool_sends_what_was_asked_witness :
  let out := {| EmailTools.header_ok := λ _, true;
                EmailTools.guess_type := λ _, (Some "application/pdf", None);
                EmailTools.smtp_send := λ _ _ _, None |} in
  let self := {| EmailTools.receiver_email := Some "recruiter@acme.com";
                 EmailTools.sender_name := Some "Zain Raza";
                 EmailTools.sender_email := Some "zainxaidi2003@gmail.com";
                 EmailTools.sender_passkey := Some "passkey" |} in
  ∃ msg,
    EmailTools.email_user_with_attachments out {[ "/tmp/cv.pdf" := "%PDF" ]} self
      "Application" "Dear Hiring Manager" (Some ["/tmp/cv.pdf"])
    = Ok (EmailTools.sent_successfully, Some msg)
    ∧ EmailTools.msg_subject msg = "Application".
Proof.
  cbn zeta. eexists. split; [vm_compute; reflexivity|].
  eapply (email_tool_sends_what_was_asked
            {| EmailTools.header_ok := λ _, true;
               EmailTools.guess_type := λ _, (Some "application/pdf", None);
               EmailTools.smtp_send := λ _ _ _, None |}
            {[ "/tmp/cv.pdf" := "%PDF" ]}
            {| EmailTools.receiver_email := Some "recruiter@acme.com";
               EmailTools.sender_name := Some "Zain Raza";
               EmailTools.sender_email := Some "zainxaidi2003@gmail.com";
               EmailTools.sender_passkey := Some "passkey" |}
            "Application" "Dear Hiring Manager" (Some ["/tmp/cv.pdf"])
            EmailTools.sent_successfully).
  vm_compute. reflexivity.
Defined.

(** ** A member's message without an attachment *)

Lemma chat_messages_history_lines (rows : list Message) w :
  MediatorAgent.chat_messages (message_row <$> rows) w = (Ok (history_lines rows), w).
Proof.
  induction rows as [|m rows IH]; [done|].
  cbn. unfold bind. cbn. by rewrite IH.
Qed.

Section Reminder.

Context (env : Env).
Hypothesis Hup : services_up env.

Ltac up_tac :=
  exfalso;
  let Hm := fresh in let Hd := fresh in let Ht := fresh in
  pose proof Hup as (Hm & Hd & Ht);
  first
    [ congruence
    | match goal with
      | H : model_reply env ?k ?p = None |- _ =>
          specialize (Hm k p); rewrite H in Hm; by destruct Hm
      end ].

Ltac wp_run := repeat (wp_step; try by up_tac).

Lemma reminder_run body from_number user others chat w :
  known_users (db w) (Py.replace "whatsapp:" "" from_number) = user :: others →
  u_is_member user ≠ 0 →
  last (List.filter (is_active_chat_of (u_id user)) (chats (db w))) = Some chat →
  wp (identified_branch env body from_number [])
     (λ returned w', ∃ answer,
        model_reply env (tick w + 6)%nat
          (MediatorAgent.analysis_prompt (user_row user)
             (Py.join nl (history_lines
                (List.filter (λ m, m_chat_id m =? c_id chat) (messages (db w)))))
             body [])
        = Some answer
        ∧ returned = None
        ∧ db w' = stored_turn (db w) (c_id chat) (u_id user) body
                    (reminder_of (Py.strip answer))
        ∧ outbox w' = outbox w ++ [(from_number, reminder_of (Py.strip answer))])
     (λ _ _, False) w.
Proof.
  intros Hknown Hmember Hlast.
  apply last_Some in Hlast as [earlier Hactive].
  unfold identified_branch, SQLAgent.generate_query. cbn zeta.
  wp_run. cbn [db set_db set_tick run_query snd].
  eapply wp_of_run; [apply not_member_test|].
  cbn [db set_db set_tick]. unfold member_of. rewrite Hknown.
  assert (negb (u_is_member user =? 0) = true) as -> by (apply negb_true_iff; lia).
  cbn [negb fst fmap list_fmap]. wp_run.
  unfold ChatAgent.check_active_chat. wp_run.
  cbn [run_query fst snd db set_db set_tick]. rewrite Hactive.
  rewrite rev_app_distr. cbn [rev app take fmap list_fmap result_truthy list_truthy negb].
  unfold active_chat_branch, ChatAgent.get_chat_messages. wp_run.
  cbn [run_query fst snd db set_db set_tick]. wp_run.
  pose proof Hup as (Hmodel & _).
  match goal with
  | |- wp _ _ _ ?w1 =>
      destruct (Hmodel (tick w1)
                  (MediatorAgent.analysis_prompt (user_row user)
                     (Py.join nl (history_lines
                        (List.filter (λ m, m_chat_id m =? c_id chat) (messages (db w)))))
                     body [])) as [answer Hanswer];
      eapply wp_of_run;
      [ rewrite analyze_conversation_run, chat_messages_history_lines; cbn [fst];
        rewrite Hanswer; reflexivity |]
  end.
  cbn [tick set_db set_tick] in Hanswer.
  assert (∀ decision,
            (if Py.startswith (Py.strip answer) "TRUE" && negb (list_truthy ([] : list string))
             then "FALSE_1" else Py.strip answer) = decision →
            Py.startswith decision "TRUE" = false
            ∧ (if (decision =? "FALSE_1")%string then missing_attachment_message
               else if (decision =? "FALSE_2")%string then missing_info_message
               else unknown_response_message) = reminder_of (Py.strip answer))
    as Hdecision.
  { intros decision <-. unfold reminder_of. cbn [list_truthy negb].
    rewrite andb_true_r.
    destruct (Py.startswith (Py.strip answer) "TRUE") eqn:Hready; [done|].
    split; [done|]. cbn [orb]. by destruct (Py.strip answer =? "FALSE_1")%string. }
  destruct (Hdecision _ eq_refl) as [Hnot_ready Hreminder]. clear Hdecision.
  cbn beta. rewrite Hnot_ready.
  apply wp_mono with
    (Q := λ _ w', db w' = stored_turn (db w) (c_id chat) (u_id user) body
                            (reminder_of (Py.strip answer))
                  ∧ outbox w' = outbox w ++ [(from_number, reminder_of (Py.strip answer))])
    (E := λ _ _, False); [| |done].
  2:{ intros _ w' [Hdb Hout]. apply wp_ret. exists answer.
      split; [|done].
      by replace (tick w + 6)%nat with (S (S (S (S (S (S (tick w))))))) by lia. }
  rewrite <- Hreminder.
  repeat case_match; unfold save_and_reply, ChatAgent.save_message; wp_run; done.
Qed.


End Reminder.


(** ** Two turns of a member *)

(** The handler around the inner block, on a request that is
    identified, when the block ends without a response of its own. *)
Lemma webhook_of_identified_run env request form_dict (Q : World → Prop) w :
  form request = Some form_dict →
  identified form_dict →
  (∀ num_media,
     wp (identified_branch env (default "" (form_dict !! "Body"))
           (default "" (form_dict !! "From")) (collect_media form_dict num_media))
        (λ returned w', returned = None ∧ Q w') (λ _ _, False) w) →
  fst (whatsapp_webhook env request w) = Ok TWIML_ACK
  ∧ Q (snd (whatsapp_webhook env request w)).
Proof.
  intros Hform [Hwa [num_media Hint]] Hrun. specialize (Hrun num_media).
  unfold wp in Hrun.
  unfold whatsapp_webhook, try_except, bind, request_form. rewrite Hform. cbn.
  rewrite Hint. cbn. rewrite Hwa.
  unfold try_except, bind.
  destruct (identified_branch env _ _ _ w) as [[returned|e] w']; [|done].
  by destruct Hrun as [-> HQ].
Qed.



(** ** The cleaning of the text of a statement *)

Section AllChars.

Context (P : ascii → bool).

Lemma all_chars_app s1 s2 :
  PyText.all_chars P (s1 +:+ s2) = PyText.all_chars P s1 && PyText.all_chars P s2.
Proof.
  induction s1 as [|c s1 IH]; [done|].
  rewrite append_cons. cbn. by rewrite IH, andb_assoc.
Qed.

Lemma all_chars_rev_app s acc :
  PyText.all_chars P (String.rev_app s acc) = PyText.all_chars P s && PyText.all_chars P acc.
Proof.
  revert acc. induction s as [|c s IH]; intros acc; [done|].
  cbn. rewrite IH. cbn. by rewrite !andb_assoc, (andb_comm (PyText.all_chars P s)).
Qed.

Lemma all_chars_rev s : PyText.all_chars P (String.rev s) = PyText.all_chars P s.
Proof. unfold String.rev. rewrite all_chars_rev_app. cbn. apply andb_true_r. Qed.

Lemma all_chars_lstrip s :
  PyText.all_chars P s = true → PyText.all_chars P (Py.lstrip s) = true.
Proof.
  induction s as [|c s IH]; [done|]. cbn.
  intros [Hc Hs]%andb_true_iff. destruct (Py.is_space c); [by apply IH|].
  cbn. by rewrite Hc.
Qed.

Lemma all_chars_strip s :
  PyText.all_chars P s = true → PyText.all_chars P (Py.strip s) = true.
Proof.
  intros Hs. unfold Py.strip, Py.rstrip.
  rewrite all_chars_rev. apply all_chars_lstrip. rewrite all_chars_rev.
  by apply all_chars_lstrip.
Qed.

Lemma all_chars_lstrip_char a s :
  PyText.all_chars P s = true → PyText.all_chars P (PyText.lstrip_char a s) = true.
Proof.
  induction s as [|c s IH]; [done|]. cbn.
  intros [Hc Hs]%andb_true_iff. destruct (Ascii.eqb c a); [by apply IH|].
  cbn. by rewrite Hc.
Qed.

Lemma all_chars_rstrip_char a s :
  PyText.all_chars P s = true → PyText.all_chars P (PyText.rstrip_char a s) = true.
Proof.
  intros Hs. unfold PyText.rstrip_char.
  rewrite all_chars_rev. apply all_chars_lstrip_char. by rewrite all_chars_rev.
Qed.

Lemma all_chars_replace_go old new skip s :
  PyText.all_chars P new = true → PyText.all_chars P s = true →
  PyText.all_chars P (Py.replace_go old new skip s) = true.
Proof.
  intros Hnew. revert skip. induction s as [|c s IH]; intros skip; [done|].
  cbn [PyText.all_chars]. intros [Hc Hs]%andb_true_iff.
  cbn [Py.replace_go]. destruct skip as [|skip]; [|by apply IH].
  destruct (String.prefix old (String c s)).
  - rewrite all_chars_app, Hnew. by apply IH.
  - cbn. rewrite Hc. by apply IH.
Qed.

End AllChars.


Lemma no_backtick_after_replace s :
  PyText.all_chars not_backtick (Py.replace "`" "" s) = true.
Proof.
  unfold Py.replace. induction s as [|c s IH]; [done|].
  cbn [Py.replace_go]. destruct (String.prefix "`" (String c s)) eqn:Hprefix.
  - exact IH.
  - cbn [PyText.all_chars]. rewrite IH, andb_true_r.
    unfold not_backtick. apply negb_true_iff. apply Ascii.eqb_neq. intros ->.
    by destruct s.
Qed.

(** The text that goes to SQLite has no backtick, whatever the model
    wrote: as marks of a code block or as quotes of a name, the
    cleaning of [execute_query] takes them all out. *)
Theorem clean_query_has_no_backtick query :
  PyText.all_chars not_backtick (clean_query query) = true.
Proof.
  unfold clean_query. cbn zeta.
  apply (all_chars_replace_go not_backtick); [done|].
  apply (all_chars_replace_go not_backtick); [done|].
  apply all_chars_rstrip_char, all_chars_strip, no_backtick_after_replace.
Qed.

Lemma replace_absent old new s : Py.contains old s = false → Py.replace old new s = s.
Proof.
  unfold Py.replace. induction s as [|c s IH]; [done|].
  cbn [Py.contains Py.replace_go]. intros [Hprefix Hrest]%orb_false_iff.
  rewrite Hprefix. by rewrite IH.
Qed.



(** ** The outcome of the Ready branch *)

Section ReadyOutcome.

Context (env : Env).
Hypothesis Hup : services_up env.

Ltac up_tac :=
  exfalso;
  let Hm := fresh in let Hd := fresh in let Ht := fresh in
  pose proof Hup as (Hm & Hd & Ht);
  first
    [ congruence
    | match goal with
      | H : model_reply env ?k ?p = None |- _ =>
          specialize (Hm k p); rewrite H in Hm; by destruct Hm
      end ].

Ltac wp_run := repeat (wp_step; try by up_tac).

Lemma save_and_reply_run chat_id user_id body bot_reply from_number w :
  wp (save_and_reply env chat_id user_id body bot_reply from_number)
     (λ _ w', db w' = stored_turn (db w) chat_id user_id body bot_reply
              ∧ outbox w' = outbox w ++ [(from_number, bot_reply)]
              ∧ mails w' = mails w)
     (λ _ _, False) w.
Proof. unfold save_and_reply, ChatAgent.save_message. wp_run. done. Qed.

Lemma send_email_run recipient_email subject body path w :
  str_truthy path = true →
  wp (send_email env recipient_email subject body (Some path))
     (λ email_sent w', ∃ answer,
        model_reply env (tick w) (command_with_attachment subject body path) = Some answer
        ∧ email_sent = Py.contains "email sent successfully" answer
        ∧ db w' = db w ∧ outbox w' = outbox w
        ∧ mails w' = mails w ++
            [{| mail_to := recipient_email; mail_subject := subject; mail_body := body;
                mail_attachment := Some (path, files w !! path) |}])
     (λ _ _, False) w.
Proof.
  intros Hpath. unfold send_email. rewrite Hpath. cbn zeta.
  wp_run. by exists r.
Qed.


End ReadyOutcome.


(** ** The chunks that come back from the collection *)

(** [query_collection] never raises: it answers with one list of at
    most three documents, and with one empty list when Chroma does not
    answer; the collection itself, the files and the tables stay as
    they are. *)
Theorem query_collection_at_most_three env query_text w :
  ∃ documents,
    fst (PDFProcessingAgent.query_collection env query_text w) = Ok [documents]
    ∧ (length documents ≤ 3)%nat
    ∧ (chroma_up env (tick w) = false → documents = [])
    ∧ forget_tick (snd (PDFProcessingAgent.query_collection env query_text w))
      = forget_tick w.
Proof.
  unfold PDFProcessingAgent.query_collection, try_except, bind, next_tick, get_world.
  cbn. destruct (chroma_up env (tick w)); cbn.
  - eexists. split; [reflexivity|]. split; [|done].
    rewrite length_take. lia.
  - exists []. repeat split; try done. cbn. lia.
Qed.

(** ** A failure at the look-up of the user *)

(** When the model or SQLite fails at the look-up of the user, and
    Twilio answers, the sender gets the apology, once, and the tables
    stay as they are. *)
Theorem failed_lookup_is_apologized env request form_dict w :
  form request = Some form_dict →
  identified form_dict →
  (model_reply env (tick w) (SQLAgent.query_prompt (clean_number_of form_dict)) = None
   ∨ sqlite_up env (S (tick w)) = false) →
  (∀ k, twilio_up env k = true) →
  fst (whatsapp_webhook env request w) = Ok TWIML_ACK
  ∧ db (snd (whatsapp_webhook env request w)) = db w
  ∧ outbox (snd (whatsapp_webhook env request w))
    = outbox w ++ [(default "" (form_dict !! "From"), processing_error_message)].
Proof.
  intros Hform [Hwa [num_media Hint]] Hfails Htwilio.
  unfold whatsapp_webhook, try_except, bind, request_form. rewrite Hform. cbn.
  rewrite Hint. cbn. rewrite Hwa.
  unfold try_except, bind, identified_branch, SQLAgent.generate_query, bind, agent_run,
    bind, next_tick, lookup_or. cbn.
  fold (clean_number_of form_dict).
  destruct (model_reply env (tick w) (SQLAgent.query_prompt (clean_number_of form_dict)))
    as [reply|] eqn:Hreply; cbn.
  - destruct Hfails as [|Hsqlite]; [done|].
    unfold execute_query, bind, next_tick. cbn. rewrite Hsqlite. cbn.
    unfold messages_create, bind, next_tick. cbn. by rewrite Htwilio.
  - unfold messages_create, bind, next_tick. cbn. by rewrite Htwilio.
Qed.

Lemma failed_lookup_is_apologized_witness :
  let env := env_up (λ _ _, None) "%PDF" in
  let w' := snd (whatsapp_webhook env (hi_request member_number) (world_of init_db)) in
  db w' = init_db ∧ outbox w' = [(member_number, processing_error_message)].
Proof.
  cbn zeta.
  destruct (failed_lookup_is_apologized (env_up (λ _ _, None) "%PDF")
              (hi_request member_number)
              (list_to_map
                 [("From", member_number); ("Body", "Hi");
                  ("WaId", "923065187343"); ("NumMedia", "0")])
              (world_of init_db))
    as (_ & Hdb & Hout).
  - vm_compute. reflexivity.
  - split; [vm_compute; reflexivity | exists 0; vm_compute; reflexivity].
  - left. reflexivity.
  - done.
  - split; [exact Hdb|]. rewrite Hout. vm_compute. reflexivity.
Defined.
